(** * Ensemble combiner, scenario simulator and forecast fallback

    A shallow embedding of the arithmetic core of the Airbnb forecasting
    backend:

    - [app/ml/models/ensemble.py]  (class [EnsembleForecaster]),
    - [app/ml/exogenous.py]        (class [ExogenousVariableManager]),
    - [app/ml/inference.py]        (class [ForecastService]),
    - [app/api/scenarios.py]       (the handlers of [POST /simulate] and
      [POST /compare]),
    - [app/api/forecast.py]        (the handler of [POST /volume]).

    Numbers.  The Python code computes on IEEE binary64 floats.  Here a
    float is an exact rational ([Qc], canonical fractions, with Leibniz
    equality): every statement below is about the arithmetic the code
    performs, with rounding left out.  A decimal literal of the source such
    as [0.03] or [1e-6] is the rational it denotes.

    Effects.  A method that can raise returns a [result]; a method that
    mutates its object runs in the monad [M S], which threads the object
    and keeps the state reached when an exception escapes. *)

From Stdlib Require Import QArith Qcanon Qcabs ZArith List String Ascii Bool Lia.
From Stdlib Require Import DecimalString.
From Stdlib Require Import Lqa.
Import ListNotations.

Set Implicit Arguments.

Local Open Scope Qc_scope.
Local Open Scope list_scope.

(* ------------------------------------------------------------------ *)
(** * Numbers *)

(** [dec n d] is the rational [n/d]; [dec 3 100] stands for [0.03]. *)
Definition dec (n : Z) (d : positive) : Qc := Q2Qc (n # d).

(** Python's [x > y] on numbers. *)
Definition gtb (x y : Qc) : bool :=
  match x ?= y with Gt => true | _ => false end.

(** Python's [x >= y] and [x <= y]. *)
Definition geb (x y : Qc) : bool :=
  match x ?= y with Lt => false | _ => true end.

Definition leb (x y : Qc) : bool := geb y x.

(** The tolerance [1e-6] of [set_weights] and [predict_volume]. *)
Definition tol : Qc := dec 1 1000000.

(** Python's builtin [sum] over numbers (start value [0]). *)
Definition py_sum (l : list Qc) : Qc := fold_left Qcplus l 0.

(* ------------------------------------------------------------------ *)
(** * Exceptions, results and the state monad *)

Inductive exn : Type :=
| ValueError (msg : string)
| KeyError (key : string)
| ZeroDivisionError
| AttributeError (attr : string)
| ModelFailure (msg : string).   (* whatever an adapter raises *)

Inductive result (A : Type) : Type :=
| Ok (a : A)
| Raise (e : exn).

Arguments Ok {A} a.
Arguments Raise {A} e.

Definition rbind {A B} (r : result A) (k : A -> result B) : result B :=
  match r with
  | Ok a => k a
  | Raise e => Raise e
  end.

Declare Scope result_scope.
Delimit Scope result_scope with result.
Notation "'let?' x ':=' r 'in' k" := (rbind r (fun x => k))
  (at level 10, x pattern, r at level 100, k at level 200) : result_scope.

(** Python's [1 / x] and [x / y] on floats: a zero divisor raises (a NumPy
    scalar would yield an infinity or NaN instead). *)
Definition py_div (x y : Qc) : result Qc :=
  if Qc_eq_bool y 0 then Raise ZeroDivisionError else Ok (x / y).

(** Monadic map over a list, left to right, stopping at the first raise
    (a comprehension whose body can raise). *)
Fixpoint map_result {A B} (f : A -> result B) (l : list A) : result (list B) :=
  match l with
  | [] => Ok []
  | a :: l' =>
      (let? b := f a in
       let? bs := map_result f l' in
       Ok (b :: bs))%result
  end.

(** A loop whose body can raise, threading an accumulator. *)
Fixpoint fold_result {A B} (f : A -> B -> result A) (l : list B) (a : A)
  : result A :=
  match l with
  | [] => Ok a
  | b :: l' => (let? a' := f a b in fold_result f l' a')%result
  end.

Section StateMonad.
Variable S : Type.

(** A computation over a mutable object of type [S]: it yields a value
    or an exception, and in both cases the object as it is then. *)
Definition M (A : Type) : Type := S -> result A * S.

Definition ret {A} (a : A) : M A := fun s => (Ok a, s).

Definition bind {A B} (m : M A) (k : A -> M B) : M B :=
  fun s =>
    match m s with
    | (Ok a, s') => k a s'
    | (Raise e, s') => (Raise e, s')
    end.

Definition get : M S := fun s => (Ok s, s).
Definition put (s : S) : M unit := fun _ => (Ok tt, s).
Definition modify (f : S -> S) : M unit := fun s => (Ok tt, f s).
Definition raise {A} (e : exn) : M A := fun s => (Raise e, s).
Definition lift {A} (r : result A) : M A := fun s => (r, s).

(** [if c: body]. *)
Definition when (c : bool) (body : M unit) : M unit :=
  if c then body else ret tt.

(** [for x in l: body x]. *)
Fixpoint for_each {A} (l : list A) (body : A -> M unit) : M unit :=
  match l with
  | [] => ret tt
  | a :: l' => bind (body a) (fun _ => for_each l' body)
  end.
End StateMonad.

Arguments ret {S A} a.
Arguments get {S}.
Arguments raise {S A} e.
Arguments lift {S A} r.
Arguments when {S} c body.

Declare Scope monad_scope.
Delimit Scope monad_scope with monad.
Notation "x <- m ;; k" := (bind m (fun x => k))
  (at level 100, m at next level, right associativity) : monad_scope.
Notation "m ;; k" := (bind m (fun _ => k))
  (at level 100, right associativity) : monad_scope.

(* ------------------------------------------------------------------ *)
(** * Python dictionaries

    A [dict] keeps its keys in insertion order; assigning to a key that is
    present replaces the value where it stands. *)

Definition dict (V : Type) : Type := list (string * V).

Section Dict.
Variable V : Type.

Fixpoint dict_get (k : string) (d : dict V) : option V :=
  match d with
  | [] => None
  | (k', v) :: d' => if String.eqb k k' then Some v else dict_get k d'
  end.

(** [k in d]. *)
Definition dict_mem (k : string) (d : dict V) : bool :=
  match dict_get k d with Some _ => true | None => false end.

(** [d.get(k, default)]. *)
Definition dict_get_default (k : string) (default : V) (d : dict V) : V :=
  match dict_get k d with Some v => v | None => default end.

(** [d[k]], raising [KeyError] on a missing key. *)
Definition dict_index (k : string) (d : dict V) : result V :=
  match dict_get k d with Some v => Ok v | None => Raise (KeyError k) end.

(** [d[k] = v]. *)
Fixpoint dict_set (k : string) (v : V) (d : dict V) : dict V :=
  match d with
  | [] => [(k, v)]
  | (k', v') :: d' =>
      if String.eqb k k' then (k', v) :: d' else (k', v') :: dict_set k v d'
  end.

Definition dict_keys (d : dict V) : list string := map fst d.
Definition dict_values (d : dict V) : list V := map snd d.

(** [not d]. *)
Definition dict_is_empty (d : dict V) : bool :=
  match d with [] => true | _ => false end.

(** No key is held twice: what every Python dict satisfies. *)
Definition dict_wf (d : dict V) : Prop := NoDup (dict_keys d).
End Dict.

(* ------------------------------------------------------------------ *)
(** * NumPy arrays (one-dimensional, of floats) *)

Definition ndarray : Type := list Qc.

(** [np.zeros(n)]: a negative dimension raises. *)
Definition np_zeros (n : Z) : result ndarray :=
  if (n <? 0)%Z
  then Raise (ValueError "negative dimensions are not allowed")
  else Ok (repeat 0 (Z.to_nat n)).

(** [c * a] and [a / c] for a scalar [c]. *)
Definition np_scale (c : Qc) (a : ndarray) : ndarray := map (fun x => c * x) a.
Definition np_div_scalar (a : ndarray) (c : Qc) : ndarray :=
  map (fun x => x / c) a.
(** [c + a] for a scalar [c]. *)
Definition np_add_scalar (c : Qc) (a : ndarray) : ndarray :=
  map (fun x => c + x) a.

Fixpoint zip_with (f : Qc -> Qc -> Qc) (a b : ndarray) : ndarray :=
  match a, b with
  | x :: a', y :: b' => f x y :: zip_with f a' b'
  | _, _ => []
  end.

Definition broadcast_error : exn :=
  ValueError "operands could not be broadcast together".

(** [a += b], in place: [b] must have the shape of [a] or be of length one
    (then it is broadcast); the result has the shape of [a]. *)
Definition np_iadd (a b : ndarray) : result ndarray :=
  if Nat.eqb (List.length b) (List.length a) then Ok (zip_with Qcplus a b)
  else match b with
       | [y] => Ok (map (fun x => x + y) a)
       | _ => Raise broadcast_error
       end.

(** [a * b]: equal shapes, or one operand of length one is broadcast. *)
Definition np_mul (a b : ndarray) : result ndarray :=
  if Nat.eqb (List.length a) (List.length b) then Ok (zip_with Qcmult a b)
  else match a, b with
       | [x], _ => Ok (map (fun y => x * y) b)
       | _, [y] => Ok (map (fun x => x * y) a)
       | _, _ => Raise broadcast_error
       end.

(** [np.sum(arrays, axis=0)] on a list of arrays: the arrays are stacked
    first, which needs them all of one length (NumPy 1.24 and later raise
    [ValueError] on a ragged list), then summed position by position.  On
    an empty list NumPy returns the scalar [0.0]; the caller below never
    passes one. *)
Definition np_sum_axis0 (arrays : list ndarray) : result ndarray :=
  match arrays with
  | [] => Ok []
  | a :: rest =>
      if forallb (fun b => Nat.eqb (List.length b) (List.length a)) rest
      then Ok (fold_left (zip_with Qcplus) rest a)
      else Raise (ValueError "inhomogeneous shape")
  end.

(* ------------------------------------------------------------------ *)
(** * ensemble.py *)

Module ensemble.

(** A model adapter as the combiner sees it.  [hasattr(model, 'predict')]
    is [predict <> None].  The LSTM adapter is called as
    [model.predict(train_data, steps=steps)] and the others as
    [model.predict(steps=steps)]: the first argument is the series when one
    is passed.  A call returns an array or raises. *)
Record IntervalForecast : Type := {
  forecast : ndarray;
  ci_lower : ndarray;
  ci_upper : ndarray
}.

Record Model : Type := {
  predict : option (option ndarray -> Z -> result ndarray);
  predict_with_intervals :
    option (option ndarray -> Z -> option Qc -> result IntervalForecast)
}.

(** The fields of an [EnsembleForecaster]. *)
Record EnsembleForecaster : Type := {
  models : dict Model;
  weights : dict Qc;
  performance_metrics : dict (dict Qc)
}.

Definition with_models (self : EnsembleForecaster) (m : dict Model) :=
  {| models := m; weights := weights self;
     performance_metrics := performance_metrics self |}.

Definition with_weights (self : EnsembleForecaster) (w : dict Qc) :=
  {| models := models self; weights := w;
     performance_metrics := performance_metrics self |}.

Local Open Scope monad_scope.
Local Open Scope string_scope.

(** [EnsembleForecaster.add_model]. *)
Definition add_model (name : string) (model : Model) (weight : option Qc)
  : M EnsembleForecaster unit :=
  modify (fun self => with_models self (dict_set name model (models self))) ;;
  match weight with
  | Some w =>
      modify (fun self => with_weights self (dict_set name w (weights self)))
  | None => ret tt
  end.

(** [EnsembleForecaster.set_weights]. *)
Definition set_weights (new_weights : dict Qc) : M EnsembleForecaster unit :=
  when (gtb (Qcabs (py_sum (dict_values new_weights) - 1)) tol)
       (raise (ValueError "Weights must sum to 1.0")) ;;
  (* Validate all models exist *)
  for_each (dict_keys new_weights) (fun name =>
    self <- get ;;
    when (negb (dict_mem name (models self)))
         (raise (ValueError "Model not found in ensemble"))) ;;
  modify (fun self => with_weights self new_weights).

(** [EnsembleForecaster.auto_weight_by_performance] (the report it prints
    is left out). *)
Definition auto_weight_by_performance
    (metrics : dict (dict Qc)) (metric : string)
  : M EnsembleForecaster unit :=
  (* Extract metric values *)
  scores <- lift (map_result (fun '(name, per_model) =>
              (let? s := dict_index metric per_model in Ok (name, s))%result)
              metrics) ;;
  (* Inverse weighting (lower error = higher weight) *)
  inverse_scores <- lift (map_result (fun '(name, score) =>
              (let? inv := py_div 1 score in Ok (name, inv))%result)
              scores) ;;
  let total_inverse := py_sum (dict_values inverse_scores) in
  (* Normalize to sum to 1.0 *)
  new_weights <- lift (map_result (fun '(name, inv) =>
              (let? w := py_div inv total_inverse in Ok (name, w))%result)
              inverse_scores) ;;
  modify (fun self => with_weights self new_weights).

(** The first loop of [predict_volume]: one model's turn. *)
Definition collect_prediction (self : EnsembleForecaster)
    (train_data : ndarray) (steps : Z)
    (predictions : dict ndarray) (entry : string * Model) : dict ndarray :=
  let '(name, model) := entry in
  if negb (dict_mem name (weights self)) then predictions
  else
    match predict model with
    | None => predictions
    | Some call =>
        match (if String.eqb name "lstm"
               then call (Some train_data) steps
               else call None steps) with
        | Ok pred => dict_set name pred predictions
        | Raise _ => predictions     (* warning printed, model skipped *)
        end
    end.

(** The second loop of [predict_volume]: one prediction's turn. *)
Definition accumulate (self : EnsembleForecaster)
    (acc : ndarray * Qc) (entry : string * ndarray) : result (ndarray * Qc) :=
  let '(ensemble_pred, total_weight) := acc in
  let '(name, pred) := entry in
  let weight := dict_get_default name 0 (weights self) in
  (let? ensemble_pred' := np_iadd ensemble_pred (np_scale weight pred) in
   Ok (ensemble_pred', total_weight + weight))%result.

(** [EnsembleForecaster.predict_volume]. *)
Definition predict_volume (train_data : ndarray) (steps : Z)
  : M EnsembleForecaster ndarray :=
  self <- get ;;
  if dict_is_empty (weights self)
  then raise (ValueError "Weights must be set before prediction")
  else
    (* Get predictions from each model *)
    let predictions :=
      fold_left (collect_prediction self train_data steps) (models self) [] in
    (* Weighted average *)
    zeros <- lift (np_zeros steps) ;;
    acc <- lift (fold_result (accumulate self) predictions (zeros, 0)) ;;
    let '(ensemble_pred, total_weight) := acc in
    (* Normalize if some models failed *)
    if gtb total_weight 0 && gtb (Qcabs (total_weight - 1)) tol
    then ret (np_div_scalar ensemble_pred total_weight)
    else ret ensemble_pred.

(** The three lists [predict_with_intervals] fills. *)
Record IntervalLists : Type := {
  all_forecasts : list ndarray;
  all_lowers : list ndarray;
  all_uppers : list ndarray
}.

(** The loop of [predict_with_intervals]: one model's turn.  Whatever is
    raised inside the [try] (by the call, or by [self.weights[name]]) skips
    the model. *)
Definition collect_intervals (self : EnsembleForecaster)
    (train_data : ndarray) (steps : Z) (alpha : Qc)
    (lists : IntervalLists) (entry : string * Model) : IntervalLists :=
  let '(name, model) := entry in
  if negb (dict_mem name (weights self)) then lists
  else
    match predict_with_intervals model with
    | None => lists
    | Some call =>
        match (if String.eqb name "lstm"
               then call (Some train_data) steps None
               else call None steps (Some alpha)) with
        | Ok result =>
            match dict_index name (weights self) with
            | Ok weight =>
                {| all_forecasts :=
                     all_forecasts lists ++ [np_scale weight (forecast result)];
                   all_lowers :=
                     all_lowers lists ++ [np_scale weight (ci_lower result)];
                   all_uppers :=
                     all_uppers lists ++ [np_scale weight (ci_upper result)] |}
            | Raise _ => lists
            end
        | Raise _ => lists   (* warning printed, model skipped *)
        end
    end.

(** [EnsembleForecaster.predict_with_intervals] (the method; the field of
    the same name belongs to a model). *)
Definition ensemble_predict_with_intervals (train_data : ndarray)
    (steps : Z) (alpha : Qc) : M EnsembleForecaster IntervalForecast :=
  self <- get ;;
  let lists :=
    fold_left (collect_intervals self train_data steps alpha) (models self)
              {| all_forecasts := []; all_lowers := []; all_uppers := [] |} in
  match all_forecasts lists with
  | [] => raise (ValueError "No valid interval predictions obtained")
  | _ =>
      f <- lift (np_sum_axis0 (all_forecasts lists)) ;;
      lo <- lift (np_sum_axis0 (all_lowers lists)) ;;
      up <- lift (np_sum_axis0 (all_uppers lists)) ;;
      ret {| forecast := f; ci_lower := lo; ci_upper := up |}
  end.

(** [EnsembleForecaster.__init__]: a missing or empty argument gives a new
    empty dictionary. *)
Definition __init__ (models_arg : option (dict Model))
    (weights_arg : option (dict Qc)) : EnsembleForecaster :=
  {| models := match models_arg with
               | Some (m :: ms) => m :: ms
               | _ => []
               end;
     weights := match weights_arg with
                | Some (w :: ws) => w :: ws
                | _ => []
                end;
     performance_metrics := [] |}.

(** What [save] hands to [joblib.dump], and what [load] builds from it
    and the models it is given. *)
Record Bundle : Type := {
  bundle_weights : dict Qc;
  bundle_performance_metrics : dict (dict Qc)
}.

Definition save (self : EnsembleForecaster) : Bundle :=
  {| bundle_weights := weights self;
     bundle_performance_metrics := performance_metrics self |}.

Definition load (data : Bundle) (models_arg : dict Model)
  : EnsembleForecaster :=
  let instance := __init__ (Some models_arg) (Some (bundle_weights data)) in
  {| models := models instance;
     weights := weights instance;
     performance_metrics := bundle_performance_metrics data |}.

End ensemble.

(* ------------------------------------------------------------------ *)
(** * sarima.py, prophet_model.py, lstm_model.py: how the models are called

    The forecasting itself is done by external libraries; what is embedded
    here is the part of each adapter the combiner and the service depend
    on: the parameters of [predict] and [predict_with_intervals], the check
    that the model is fitted, and Python's binding of the arguments of a
    call to those parameters. *)

Module adapters.

Local Open Scope string_scope.
Local Open Scope result_scope.

(** An argument of a call. *)
Inductive value : Type :=
| VSeries (a : ndarray)
| VInt (n : Z)
| VFloat (x : Qc).

(** Python's [TypeError], raised by a call that does not fit the
    signature.  Its callers here catch it with [except Exception]. *)
Definition TypeError (msg : string) : exn := ModelFailure msg.

(** A parameter (after [self]): its name, and whether it has a default. *)
Definition Param : Type := (string * bool)%type.

(** Positional arguments go to the parameters in order. *)
Fixpoint bind_positional (params : list Param) (args : list value)
    (bound : dict value) : result (dict value) :=
  match args, params with
  | [], _ => Ok bound
  | v :: args', (p, _) :: params' =>
      bind_positional params' args' (bound ++ [(p, v)])%list
  | _ :: _, [] => Raise (TypeError "too many positional arguments")
  end.

(** Keyword arguments go to the parameters they name; a name that is no
    parameter, or a parameter that already has a value, is an error. *)
Fixpoint bind_keywords (params : list Param) (kwargs : list (string * value))
    (bound : dict value) : result (dict value) :=
  match kwargs with
  | [] => Ok bound
  | (k, v) :: kwargs' =>
      if negb (existsb (fun p => String.eqb k (fst p)) params)
      then Raise (TypeError "got an unexpected keyword argument")
      else if dict_mem k bound
      then Raise (TypeError "got multiple values for argument")
      else bind_keywords params kwargs' (bound ++ [(k, v)])%list
  end.

(** A parameter without a default must have received a value. *)
Fixpoint check_required (params : list Param) (bound : dict value)
  : result unit :=
  match params with
  | [] => Ok tt
  | (p, has_default) :: params' =>
      if has_default || dict_mem p bound
      then check_required params' bound
      else Raise (TypeError "missing a required positional argument")
  end.

(** A call of a method with the given parameters, on positional and
    keyword arguments. *)
Definition call {A} (params : list Param) (body : dict value -> result A)
    (args : list value) (kwargs : list (string * value)) : result A :=
  let? bound := bind_positional params args [] in
  let? bound := bind_keywords params kwargs bound in
  let? _ := check_required params bound in
  body bound.

(** An integer parameter, with its default. *)
Definition int_param (name : string) (default : Z) (bound : dict value) : Z :=
  match dict_get name bound with
  | Some (VInt n) => n
  | _ => default
  end.

Definition float_param (name : string) (default : Qc) (bound : dict value)
  : Qc :=
  match dict_get name bound with
  | Some (VFloat x) => x
  | _ => default
  end.

Definition series_param (name : string) (bound : dict value) : ndarray :=
  match dict_get name bound with
  | Some (VSeries a) => a
  | _ => []
  end.

Definition not_fitted : exn :=
  ValueError "Model must be fitted before making predictions".

(** [SARIMAVolumeModel]: [model_fit] is [None] until [fit] has run; then it
    is the statsmodels result, of which the adapter uses [forecast(steps)]
    and [get_forecast(steps).summary_frame(alpha)]. *)
Record FittedSARIMA : Type := {
  sarima_forecast : Z -> result ndarray;
  sarima_summary_frame : Z -> Qc -> result ensemble.IntervalForecast
}.

Record SARIMAVolumeModel : Type := {
  model_fit : option FittedSARIMA
}.

(** [def predict(self, steps: int = 1)]. *)
Definition sarima_predict (self : SARIMAVolumeModel)
  : list value -> list (string * value) -> result ndarray :=
  call [("steps", true)] (fun bound =>
    match model_fit self with
    | None => Raise not_fitted
    | Some fit => sarima_forecast fit (int_param "steps" 1 bound)
    end).

(** [def predict_with_intervals(self, steps: int = 1, alpha: float = 0.05)]. *)
Definition sarima_predict_with_intervals (self : SARIMAVolumeModel)
  : list value -> list (string * value)
    -> result ensemble.IntervalForecast :=
  call [("steps", true); ("alpha", true)] (fun bound =>
    match model_fit self with
    | None => Raise not_fitted
    | Some fit =>
        sarima_summary_frame fit (int_param "steps" 1 bound)
                             (float_param "alpha" (dec 5 100) bound)
    end).

(** [ProphetVolumeModel]: [is_fitted], and the Prophet model, of which the
    adapter uses the prediction over [periods] future quarters. *)
Record ProphetVolumeModel : Type := {
  prophet_is_fitted : bool;
  prophet_forecast : Z -> result ensemble.IntervalForecast
}.

(** [def predict(self, periods: int = 1)]. *)
Definition prophet_predict (self : ProphetVolumeModel)
  : list value -> list (string * value) -> result ndarray :=
  call [("periods", true)] (fun bound =>
    if negb (prophet_is_fitted self) then Raise not_fitted
    else let? r := prophet_forecast self (int_param "periods" 1 bound) in
         Ok (ensemble.forecast r)).

(** [def predict_with_intervals(self, periods: int = 1)]. *)
Definition prophet_predict_with_intervals (self : ProphetVolumeModel)
  : list value -> list (string * value)
    -> result ensemble.IntervalForecast :=
  call [("periods", true)] (fun bound =>
    if negb (prophet_is_fitted self) then Raise not_fitted
    else prophet_forecast self (int_param "periods" 1 bound)).

(** [LSTMVolumeModel]: [is_fitted], and the network with its scaler, of
    which [predict] uses the roll-forward forecast from a series, and
    [predict_with_intervals] the statistics of repeated forecasts. *)
Record LSTMVolumeModel : Type := {
  lstm_is_fitted : bool;
  lstm_roll_forward : ndarray -> Z -> result ndarray;
  lstm_simulate : ndarray -> Z -> Z -> result ensemble.IntervalForecast
}.

(** [def predict(self, y_train: pd.Series, steps: int = 1)]. *)
Definition lstm_predict (self : LSTMVolumeModel)
  : list value -> list (string * value) -> result ndarray :=
  call [("y_train", false); ("steps", true)] (fun bound =>
    if negb (lstm_is_fitted self) then Raise not_fitted
    else lstm_roll_forward self (series_param "y_train" bound)
                           (int_param "steps" 1 bound)).

(** [def predict_with_intervals(self, y_train, steps=1, n_simulations=100)]:
    every simulation is a call of [predict], which raises when the model
    is not fitted. *)
Definition lstm_predict_with_intervals (self : LSTMVolumeModel)
  : list value -> list (string * value)
    -> result ensemble.IntervalForecast :=
  call [("y_train", false); ("steps", true); ("n_simulations", true)]
    (fun bound =>
       if negb (lstm_is_fitted self) then Raise not_fitted
       else lstm_simulate self (series_param "y_train" bound)
                          (int_param "steps" 1 bound)
                          (int_param "n_simulations" 100 bound)).

(** The two call sites of the combiner and of the service, as a
    [ensemble.Model] presents them: with a series, the call is
    [method(series, steps=steps)]; without, [method(steps=steps)] or
    [method(steps=steps, alpha=alpha)]. *)
Definition positional (data : option ndarray) : list value :=
  match data with
  | Some a => [VSeries a]
  | None => []
  end.

Definition keywords (steps : Z) (alpha : option Qc)
  : list (string * value) :=
  ("steps", VInt steps)
  :: match alpha with
     | Some a => [("alpha", VFloat a)]
     | None => []
     end.

Definition as_model
    (predict : list value -> list (string * value) -> result ndarray)
    (predict_with_intervals :
       list value -> list (string * value)
       -> result ensemble.IntervalForecast) : ensemble.Model :=
  {| ensemble.predict :=
       Some (fun data steps => predict (positional data) (keywords steps None));
     ensemble.predict_with_intervals :=
       Some (fun data steps alpha =>
               predict_with_intervals (positional data)
                                      (keywords steps alpha)) |}.

Definition sarima (self : SARIMAVolumeModel) : ensemble.Model :=
  as_model (sarima_predict self) (sarima_predict_with_intervals self).

Definition prophet (self : ProphetVolumeModel) : ensemble.Model :=
  as_model (prophet_predict self) (prophet_predict_with_intervals self).

Definition lstm (self : LSTMVolumeModel) : ensemble.Model :=
  as_model (lstm_predict self) (lstm_predict_with_intervals self).

End adapters.

(* ------------------------------------------------------------------ *)
(** * Strings, timestamps and data frames *)

Local Open Scope string_scope.

Definition digit_of (c : ascii) : option Z :=
  let n := nat_of_ascii c in
  if Nat.leb 48 n && Nat.leb n 57 then Some (Z.of_nat (n - 48)) else None.

Fixpoint parse_digits (s : string) (acc : Z) : option Z :=
  match s with
  | EmptyString => Some acc
  | String c s' =>
      match digit_of c with
      | Some d => parse_digits s' (10 * acc + d)
      | None => None
      end
  end.

(** [int(s)] on a string of decimal digits (the only strings the catalog
    feeds it); anything else is a [ValueError] here. *)
Definition py_int (s : string) : result Z :=
  match s with
  | EmptyString => Raise (ValueError "invalid literal for int()")
  | _ => match parse_digits s 0 with
         | Some n => Ok n
         | None => Raise (ValueError "invalid literal for int()")
         end
  end.

(** [s.replace(c, "")] for a one-character [c]. *)
Fixpoint remove_char (c : ascii) (s : string) : string :=
  match s with
  | EmptyString => EmptyString
  | String c' s' =>
      if Ascii.eqb c c' then remove_char c s' else String c' (remove_char c s')
  end.

(** A [pandas.Timestamp]: a calendar date and the time elapsed since
    midnight (in nanoseconds). *)
Record Timestamp : Type := {
  year : Z;
  month : Z;
  day : Z;
  nanos : Z
}.

Definition ts_compare (a b : Timestamp) : comparison :=
  match (year a ?= year b)%Z with
  | Eq => match (month a ?= month b)%Z with
          | Eq => match (day a ?= day b)%Z with
                  | Eq => (nanos a ?= nanos b)%Z
                  | c => c
                  end
          | c => c
          end
  | c => c
  end.

Definition ts_geb (a b : Timestamp) : bool :=
  match ts_compare a b with Lt => false | _ => true end.
Definition ts_leb (a b : Timestamp) : bool :=
  match ts_compare a b with Gt => false | _ => true end.

(** [Timestamp.quarter]. *)
Definition quarter (t : Timestamp) : Z := ((month t - 1) / 3 + 1)%Z.

(** [pd.to_datetime(s)] on a string of the form [YYYY-MM], the form of every
    bound in the catalog: the first day of that month at midnight.  Any
    other string is a [ValueError] here. *)
Definition to_datetime (s : string) : result Timestamp :=
  match s with
  | String y1 (String y2 (String y3 (String y4 (String sep
      (String m1 (String m2 EmptyString)))))) =>
      match parse_digits (String y1 (String y2 (String y3 (String y4 ""))))
                         0,
            parse_digits (String m1 (String m2 "")) 0 with
      | Some y, Some m =>
          if Ascii.eqb sep "-" && (1 <=? m)%Z && (m <=? 12)%Z
          then Ok {| year := y; month := m; day := 1; nanos := 0 |}
          else Raise (ValueError "Unknown datetime string format")
      | _, _ => Raise (ValueError "Unknown datetime string format")
      end
  | _ => Raise (ValueError "Unknown datetime string format")
  end.

(** A [pandas.DataFrame] of float columns over a [DatetimeIndex]. *)
Record DataFrame : Type := {
  index : list Timestamp;
  columns : dict ndarray
}.

(** [pd.DataFrame(index=date_range)]. *)
Definition df_new (date_range : list Timestamp) : DataFrame :=
  {| index := date_range; columns := [] |}.

(** [df[name] = c] for a scalar [c]. *)
Definition df_set_scalar (name : string) (c : Qc) (df : DataFrame)
  : DataFrame :=
  {| index := index df;
     columns := dict_set name (repeat c (List.length (index df)))
                         (columns df) |}.

(** Assignment under a boolean mask. *)
Fixpoint mask_assign (mask : list bool) (c : Qc) (col : ndarray) : ndarray :=
  match mask, col with
  | m :: mask', x :: col' => (if m then c else x) :: mask_assign mask' c col'
  | _, _ => col
  end.

(** [df.loc[mask, name] = c]. *)
Definition df_loc_set (mask : list bool) (name : string) (c : Qc)
    (df : DataFrame) : result DataFrame :=
  (let? col := dict_index name (columns df) in
   Ok {| index := index df;
         columns := dict_set name (mask_assign mask c col) (columns df) |}
  )%result.

(** [df.sum(axis=1).values]: one sum per row, over all columns. *)
Definition df_sum_rows (df : DataFrame) : ndarray :=
  fold_left (zip_with Qcplus) (dict_values (columns df))
            (repeat 0 (List.length (index df))).

(** [np.mean]; on an empty array NumPy yields NaN with a warning, here the
    value is [0] (the division by zero of [Qc]). *)
Definition np_mean (a : ndarray) : Qc :=
  py_sum a / Q2Qc (inject_Z (Z.of_nat (List.length a))).

Definition qmin (x y : Qc) : Qc := if leb x y then x else y.
Definition qmax (x y : Qc) : Qc := if geb x y then x else y.

(** [np.min] and [np.max]: an empty array raises. *)
Definition np_min (a : ndarray) : result Qc :=
  match a with
  | [] => Raise (ValueError "zero-size array to reduction operation minimum")
  | x :: a' => Ok (fold_left qmin a' x)
  end.

Definition np_max (a : ndarray) : result Qc :=
  match a with
  | [] => Raise (ValueError "zero-size array to reduction operation maximum")
  | x :: a' => Ok (fold_left qmax a' x)
  end.

(* ------------------------------------------------------------------ *)
(** * exogenous.py *)

Module exogenous.

Local Open Scope string_scope.

Inductive ExogenousEventType : Type :=
| COVID_19
| WILDFIRE
| EXTREME_WEATHER
| ECONOMIC_RECESSION
| MAJOR_EVENT
| REGULATORY_CHANGE.

(** [event_type.value]. *)
Definition value (e : ExogenousEventType) : string :=
  match e with
  | COVID_19 => "covid_19"
  | WILDFIRE => "wildfire"
  | EXTREME_WEATHER => "extreme_weather"
  | ECONOMIC_RECESSION => "economic_recession"
  | MAJOR_EVENT => "major_event"
  | REGULATORY_CHANGE => "regulatory_change"
  end.

Definition event_eqb (a b : ExogenousEventType) : bool :=
  String.eqb (value a) (value b).

Record HistoricalPeriod : Type := {
  start : string;
  end_ : string;
  severity : Qc
}.

(** One entry of the catalog; a key the source leaves out of an entry is
    [None]. *)
Record EventDef : Type := {
  name : string;
  description : string;
  historical_periods : option (list HistoricalPeriod);
  seasonal_pattern : option (dict Qc);
  impact_multiplier : Qc;
  affected_neighborhoods : option (list string)
}.

Definition Catalog : Type := list (ExogenousEventType * EventDef).

Definition hp (s e : string) (sev : Qc) : HistoricalPeriod :=
  {| start := s; end_ := e; severity := sev |}.

(** [ExogenousVariableManager._define_events]. *)
Definition _define_events : Catalog :=
  [ (COVID_19,
     {| name := "COVID-19 Pandemic";
        description := "Impact of COVID-19 on travel and short-term rentals";
        historical_periods :=
          Some [ hp "2020-03" "2021-06" (dec 8 10);
                 hp "2021-07" "2022-12" (dec 4 10) ];
        seasonal_pattern := None;
        impact_multiplier := dec (-6) 10;
        affected_neighborhoods := None |});
    (WILDFIRE,
     {| name := "LA Wildfires";
        description := "Major wildfire events affecting LA area";
        historical_periods :=
          Some [ hp "2020-08" "2020-10" (dec 6 10);
                 hp "2023-07" "2023-08" (dec 4 10) ];
        seasonal_pattern := None;
        impact_multiplier := dec (-3) 10;
        affected_neighborhoods :=
          Some ["Malibu"; "Topanga"; "Hollywood Hills"] |});
    (EXTREME_WEATHER,
     {| name := "Extreme Weather Events";
        description := "Heat waves, storms, atmospheric rivers";
        historical_periods := None;
        seasonal_pattern :=
          Some [ ("Q1", dec 3 10); ("Q2", dec 2 10);
                 ("Q3", dec 5 10); ("Q4", dec 2 10) ];
        impact_multiplier := dec (-15) 100;
        affected_neighborhoods := None |});
    (ECONOMIC_RECESSION,
     {| name := "Economic Recession";
        description := "Economic downturn affecting travel spending";
        historical_periods :=
          Some [ hp "2008-01" "2009-12" (dec 9 10);
                 hp "2020-03" "2020-06" (dec 7 10) ];
        seasonal_pattern := None;
        impact_multiplier := dec (-4) 10;
        affected_neighborhoods := None |});
    (MAJOR_EVENT,
     {| name := "Major Events (Olympics, Concerts, etc.)";
        description := "Large events driving tourism";
        historical_periods := Some [ hp "2028-07" "2028-08" 1 ];
        seasonal_pattern := None;
        impact_multiplier := dec 5 10;
        affected_neighborhoods := None |});
    (REGULATORY_CHANGE,
     {| name := "Airbnb Regulation Changes";
        description :=
          "New laws restricting or enabling short-term rentals";
        historical_periods := Some [ hp "2019-01" "2019-12" (dec 6 10) ];
        seasonal_pattern := None;
        impact_multiplier := dec (-25) 100;
        affected_neighborhoods := None |}) ].

(** [self.event_definitions[event_type]]. *)
Fixpoint lookup_event (e : ExogenousEventType) (defs : Catalog)
  : option EventDef :=
  match defs with
  | [] => None
  | (e', d) :: defs' => if event_eqb e e' then Some d else lookup_event e defs'
  end.

(** The world a call of the manager runs in: the manager's own attribute
    and the NumPy arrays alive, each under the reference that names it.
    Allocation appends; nothing is ever freed. *)
Definition ref : Type := nat.

Record Store : Type := {
  event_definitions : Catalog;
  heap : list ndarray
}.

Definition with_heap (s : Store) (h : list ndarray) : Store :=
  {| event_definitions := event_definitions s; heap := h |}.

(** [ExogenousVariableManager.__init__] in a world holding the arrays [h]. *)
Definition __init__ (h : list ndarray) : Store :=
  {| event_definitions := _define_events; heap := h |}.

Fixpoint list_set {A} (i : nat) (a : A) (l : list A) : list A :=
  match l, i with
  | [], _ => []
  | _ :: l', O => a :: l'
  | x :: l', S i' => x :: list_set i' a l'
  end.

Definition dangling : exn := ValueError "dangling array reference".

(** A fresh array. *)
Definition np_new (a : ndarray) : M Store ref :=
  fun s => (Ok (List.length (heap s)), with_heap s (heap s ++ [a])).

(** Reading an array. *)
Definition np_read (r : ref) : M Store ndarray :=
  fun s => match nth_error (heap s) r with
           | Some a => (Ok a, s)
           | None => (Raise dangling, s)
           end.

(** Overwriting an array in place. *)
Definition np_write (r : ref) (a : ndarray) : M Store unit :=
  fun s => match nth_error (heap s) r with
           | Some _ => (Ok tt, with_heap s (list_set r a (heap s)))
           | None => (Raise dangling, s)
           end.

Local Open Scope result_scope.

(** The body of the loop over [historical_periods]. *)
Definition apply_period (feature_name : string) (multiplier : Qc)
    (df : DataFrame) (period : HistoricalPeriod) : result DataFrame :=
  let? start_ts := to_datetime (start period) in
  let? end_ts := to_datetime (end_ period) in
  (* Mark affected dates *)
  let mask := map (fun d => ts_geb d start_ts && ts_leb d end_ts) (index df) in
  df_loc_set mask feature_name (severity period * multiplier) df.

(** The body of the loop over [seasonal_pattern]. *)
Definition apply_quarter (feature_name : string) (multiplier : Qc)
    (df : DataFrame) (entry : string * Qc) : result DataFrame :=
  let '(quarter_key, intensity) := entry in
  let? quarter_num := py_int (remove_char "Q" quarter_key) in
  (* Find matching quarters *)
  let mask := map (fun d => Z.eqb (quarter d) quarter_num) (index df) in
  if existsb (fun b => b) mask
  then df_loc_set mask feature_name (intensity * multiplier) df
  else Ok df.

(** The body of the loop over [enabled_events]. *)
Definition add_event (defs : Catalog) (df : DataFrame)
    (event_type : ExogenousEventType) : result DataFrame :=
  let? event_def :=
    match lookup_event event_type defs with
    | Some d => Ok d
    | None => Raise (KeyError (value event_type))
    end in
  let feature_name := "exog_" ++ value event_type in
  (* Initialize with zeros *)
  let df := df_set_scalar feature_name 0 df in
  (* Apply historical periods *)
  let? df :=
    match historical_periods event_def with
    | Some periods =>
        fold_result (apply_period feature_name (impact_multiplier event_def))
                    periods df
    | None => Ok df
    end in
  (* Apply seasonal patterns *)
  match seasonal_pattern event_def with
  | Some pattern =>
      fold_result (apply_quarter feature_name (impact_multiplier event_def))
                  pattern df
  | None => Ok df
  end.

Local Open Scope monad_scope.

(** [ExogenousVariableManager.create_exogenous_features]. *)
Definition create_exogenous_features (date_range : list Timestamp)
    (enabled_events : list ExogenousEventType) : M Store DataFrame :=
  self <- get ;;
  lift (fold_result (add_event (event_definitions self)) enabled_events
                    (df_new date_range)).

Record CustomShock : Type := {
  period : string;
  impact : Qc
}.

(** A scenario dictionary; [id] and [description] are present in the
    predefined templates only, and any key may be missing from a caller's
    dictionary. *)
Record Scenario : Type := {
  sc_id : option string;
  sc_name : option string;
  sc_description : option string;
  events : option (list ExogenousEventType);
  custom_shocks : option (list CustomShock)
}.

Record Summary : Type := {
  avg_impact_pct : Qc;
  max_negative_impact_pct : Qc;
  max_positive_impact_pct : Qc;
  events_included : list string
}.

(** The dictionary [simulate_scenario] returns. *)
Record Simulation : Type := {
  scenario_name : string;
  base_forecast : list Qc;
  adjusted_forecast : list Qc;
  total_impact_pct : list Qc;
  summary : Summary;
  exogenous_features : DataFrame
}.

(** [scenario.get(key, default)]. *)
Definition get_or {A} (field : option A) (default : A) : A :=
  match field with Some a => a | None => default end.

(** [ExogenousVariableManager.simulate_scenario].  [base] names the array
    passed as [base_forecast]. *)
Definition simulate_scenario (base : ref) (date_range : list Timestamp)
    (scenario : Scenario) : M Store Simulation :=
  (* Create exogenous features *)
  exog_df <- create_exogenous_features date_range
               (get_or (events scenario) []) ;;
  (* Calculate total impact *)
  total_impact <- np_new (df_sum_rows exog_df) ;;
  (* Apply custom shocks *)
  match custom_shocks scenario with
  | Some shocks =>
      for_each shocks (fun shock =>
        let impact := impact shock in
        a <- np_read total_impact ;;
        np_write total_impact (map (fun x => x + impact) a))
  | None => ret tt
  end ;;
  (* Adjust forecast *)
  t <- np_read total_impact ;;
  one_plus <- np_new (np_add_scalar 1 t) ;;
  b <- np_read base ;;
  f <- np_read one_plus ;;
  product <- lift (np_mul b f) ;;
  adjusted <- np_new product ;;
  (* Calculate impact summary *)
  t <- np_read total_impact ;;
  let avg_impact := np_mean t in
  max_negative <- lift (np_min t) ;;
  max_positive <- lift (np_max t) ;;
  b <- np_read base ;;
  a <- np_read adjusted ;;
  ret {| scenario_name := get_or (sc_name scenario) "Unnamed Scenario";
         base_forecast := b;
         adjusted_forecast := a;
         total_impact_pct := np_scale (dec 100 1) t;
         summary :=
           {| avg_impact_pct := avg_impact * dec 100 1;
              max_negative_impact_pct := max_negative * dec 100 1;
              max_positive_impact_pct := max_positive * dec 100 1;
              events_included := map value (get_or (events scenario) []) |};
         exogenous_features := exog_df |}.

Definition shock (p : string) (i : Qc) : CustomShock :=
  {| period := p; impact := i |}.

Definition template (i n d : string) (ev : list ExogenousEventType)
    (sh : list CustomShock) : Scenario :=
  {| sc_id := Some i; sc_name := Some n; sc_description := Some d;
     events := Some ev; custom_shocks := Some sh |}.

(** [ExogenousVariableManager.get_available_scenarios]. *)
Definition get_available_scenarios : list Scenario :=
  [ template "optimistic" "Optimistic Growth"
      "Major events drive tourism, no major disruptions" [MAJOR_EVENT] [];
    template "baseline" "Baseline (Status Quo)"
      "Normal market conditions" [] [];
    template "pessimistic" "Pessimistic (Multiple Disruptions)"
      "Economic downturn + wildfires + extreme weather"
      [ECONOMIC_RECESSION; WILDFIRE; EXTREME_WEATHER] [];
    template "wildfire_season" "Severe Wildfire Season"
      "Extended wildfire season affecting LA" [WILDFIRE]
      [shock "2024-Q3" (dec (-35) 100); shock "2024-Q4" (dec (-20) 100)];
    template "olympics_2028" "2028 LA Olympics"
      "Surge in demand for 2028 Olympics" [MAJOR_EVENT]
      [shock "2028-Q2" (dec 6 10); shock "2028-Q3" (dec 8 10)];
    template "regulatory_crackdown" "Strict Regulation"
      "New laws restrict short-term rentals" [REGULATORY_CHANGE]
      [shock "2024-Q1" (dec (-30) 100)] ].

End exogenous.

(* ------------------------------------------------------------------ *)
(** * inference.py *)

Module inference.

Local Open Scope string_scope.
Local Open Scope result_scope.

(** What [joblib.load] produced for a model file: an object that may or may
    not have the two prediction methods. *)
Definition Handle : Type := ensemble.Model.

(** The fields of a [ForecastService] once [load_all_models] has run. *)
Record ForecastService : Type := {
  models : dict Handle
}.

(** The dictionary [forecast_volume] returns; the bounds are absent when
    no intervals were asked for or the model has none. *)
Record Forecast : Type := {
  forecast : list Qc;
  ci_lower : option (list Qc);
  ci_upper : option (list Qc)
}.

(** [try: body  except Exception: handler]. *)
Definition try_except {A} (body : result A) (handler : exn -> result A)
  : result A :=
  match body with
  | Ok a => Ok a
  | Raise e => handler e
  end.

(** [getattr(obj, attr)] on an attribute that may be missing. *)
Definition attribute {A} (attr : string) (field : option A) : result A :=
  match field with
  | Some a => Ok a
  | None => Raise (AttributeError attr)
  end.

Definition current : Qc := dec 44594 1.
Definition growth_rate : Qc := dec 3 100.

(** [range(lo, hi)]. *)
Definition range (lo hi : Z) : list Z :=
  map (fun k => (lo + Z.of_nat k)%Z) (seq 0 (Z.to_nat (hi - lo))).

(** [x ** i] for the exponents of [_simple_projection], which are
    positive. *)
Definition pow (x : Qc) (i : Z) : Qc := Qcpower x (Z.to_nat i).

(** [ForecastService._simple_projection]. *)
Definition _simple_projection (horizon : Z) : Forecast :=
  let forecast :=
    map (fun i => current * pow (1 + growth_rate) i) (range 1 (horizon + 1)) in
  {| forecast := forecast;
     ci_lower := Some (map (fun f => f * dec 95 100) forecast);
     ci_upper := Some (map (fun f => f * dec 105 100) forecast) |}.

(** Mock historical data of [forecast_volume]. *)
Definition historical_data : ndarray :=
  [dec 40438 1; dec 42451 1; dec 44464 1; dec 44594 1].

(** The body of the [try] block of [forecast_volume]. *)
Definition dispatch (model_obj : Handle) (horizon : Z) (model : string)
    (include_intervals : bool) : result Forecast :=
  if include_intervals &&
     (match ensemble.predict_with_intervals model_obj with
      | Some _ => true
      | None => false
      end)
  then
    let? call := attribute "predict_with_intervals"
                   (ensemble.predict_with_intervals model_obj) in
    let? result :=
      if String.eqb model "lstm"
      then call (Some historical_data) horizon None
      else call None horizon None in
    Ok {| forecast := ensemble.forecast result;
          ci_lower := Some (ensemble.ci_lower result);
          ci_upper := Some (ensemble.ci_upper result) |}
  else
    let? call := attribute "predict" (ensemble.predict model_obj) in
    let? pred :=
      if String.eqb model "lstm"
      then call (Some historical_data) horizon
      else call None horizon in
    Ok {| forecast := pred; ci_lower := None; ci_upper := None |}.

(** [ForecastService.forecast_volume]. *)
Definition forecast_volume (self : ForecastService) (horizon : Z)
    (model : string) (include_intervals : bool) : result Forecast :=
  match dict_get model (models self) with
  | None =>
      (* Fallback to simple projection if model not loaded *)
      Ok (_simple_projection horizon)
  | Some model_obj =>
      try_except (dispatch model_obj horizon model include_intervals)
                 (fun _ => Ok (_simple_projection horizon))
  end.

(** The model files [load_all_models] looks for, by model name. *)
Definition model_files : dict string :=
  [ ("sarima", "sarima_volume.pkl");
    ("prophet", "prophet_volume.pkl");
    ("lstm", "lstm_volume.pkl");
    ("xgboost_price", "xgboost_price.pkl");
    ("xgboost_occupancy", "xgboost_occupancy.pkl");
    ("ensemble", "ensemble_volume.pkl") ].

(** [ForecastService.load_all_models].  [files] is the models directory:
    a file that exists is bound to what [joblib.load] does with it, the
    object it yields or the exception it raises. *)
Definition load_all_models (files : dict (result Handle))
    (self : ForecastService) : ForecastService :=
  fold_left
    (fun self entry =>
       let '(name, filename) := entry in
       match dict_get filename files with
       | Some (Ok model) =>
           {| models := dict_set name model (models self) |}
       | Some (Raise _) => self      (* Warning: Failed to load *)
       | None => self
       end)
    model_files self.

(** [ForecastService.__init__]. *)
Definition __init__ (files : dict (result Handle)) : ForecastService :=
  load_all_models files {| models := [] |}.

End inference.

(* ------------------------------------------------------------------ *)
(** * api/scenarios.py *)

Module scenarios.

Local Open Scope string_scope.
Local Open Scope list_scope.
Local Open Scope result_scope.

(** The request models.  The framework checks a request before the handler
    runs: [horizon] lies between 1 and 12 and every [impact] between -1.0
    and 2.0. *)
Record CustomShock : Type := {
  period : string;
  impact : Qc
}.

Record ScenarioRequest : Type := {
  scenario_id : option string;
  scenario_name : option string;
  events : list string;
  custom_shocks : list CustomShock;
  horizon : Z;
  base_model : string
}.

Definition validated (request : ScenarioRequest) : bool :=
  (1 <=? horizon request)%Z && (horizon request <=? 12)%Z
  && forallb (fun s => geb (impact s) (dec (-1) 1) && leb (impact s) (dec 2 1))
             (custom_shocks request).

(** The response model; its first field is [scenario_name] in the
    source. *)
Record ScenarioResponse : Type := {
  response_scenario_name : string;
  base_forecast : list Qc;
  adjusted_forecast : list Qc;
  total_impact_pct : list Qc;
  summary : exogenous.Summary;
  periods : list string
}.

(** What the body of the handler can raise: an [HTTPException] of its own,
    or any other exception coming from the code it calls.  Both are
    instances of [Exception]. *)
Inductive raised : Type :=
| HTTPException (status_code : Z)
| Exception (e : exn).

Inductive outcome (A : Type) : Type :=
| Return (a : A)
| Throw (e : raised).

Arguments Return {A} a.
Arguments Throw {A} e.

Definition of_result {A} (r : result A) : outcome A :=
  match r with
  | Ok a => Return a
  | Raise e => Throw (Exception e)
  end.

(** The handler runs in the world of the manager singleton. *)
Definition Run (A : Type) : Type :=
  exogenous.Store -> outcome A * exogenous.Store.

Definition run_ret {A} (a : A) : Run A := fun s => (Return a, s).

Definition run_bind {A B} (m : Run A) (k : A -> Run B) : Run B :=
  fun s =>
    match m s with
    | (Return a, s') => k a s'
    | (Throw e, s') => (Throw e, s')
    end.

Definition of_outcome {A} (o : outcome A) : Run A := fun s => (o, s).

Definition of_M {A} (m : M exogenous.Store A) : Run A :=
  fun s => let '(r, s') := m s in (of_result r, s').

Declare Scope run_scope.
Delimit Scope run_scope with run.
Notation "x <- m ;; k" := (run_bind m (fun x => k))
  (at level 100, m at next level, right associativity) : run_scope.

(** [str(i)] and the formatting of an integer in an f-string. *)
Definition str (i : Z) : string := NilZero.string_of_int (Z.to_int i).

(** [q[n:]]. *)
Definition slice_from (n : nat) (q : string) : string :=
  substring n (String.length q - n) q.

(** The label of the [i]-th forecast quarter. *)
Definition quarter_label (i : Z) : string :=
  if (i <=? 4)%Z then "2024Q" ++ str i else "2025Q" ++ str (i - 4).

Definition is_leap (y : Z) : bool :=
  ((y mod 4 =? 0) && negb (y mod 100 =? 0) || (y mod 400 =? 0))%Z.

Definition days_in_month (y m : Z) : Z :=
  if (m =? 2)%Z then (if is_leap y then 29 else 28)%Z
  else if ((m =? 4) || (m =? 6) || (m =? 9) || (m =? 11))%Z then 30%Z
  else 31%Z.

(** [pd.Timestamp(year=y, month=m, day=d)]: midnight of that day.  A month
    or a day that does not exist, and a date outside the range pandas can
    represent (1677-09-22 to 2262-04-11 for a midnight), raise a
    [ValueError]. *)
Definition pd_Timestamp (y m d : Z) : result Timestamp :=
  if negb ((1 <=? m) && (m <=? 12))%Z
  then Raise (ValueError "month must be in 1..12")
  else if negb ((1 <=? d) && (d <=? days_in_month y m))%Z
  then Raise (ValueError "day is out of range for month")
  else
    let t := {| year := y; month := m; day := d; nanos := 0 |} in
    if ts_geb t {| year := 1677; month := 9; day := 22; nanos := 0 |}
       && ts_leb t {| year := 2262; month := 4; day := 11; nanos := 0 |}
    then Ok t
    else Raise (ValueError "Out of bounds nanosecond timestamp").

(** The body of the loop that converts the labels to dates. *)
Definition first_day_of_quarter (q : string) : result Timestamp :=
  let? year := py_int (substring 0 4 q) in
  let? quarter := py_int (slice_from 5 q) in
  (* First month of quarter: Q1=Jan, Q2=Apr, Q3=Jul, Q4=Oct *)
  let month := ((quarter - 1) * 3 + 1)%Z in
  pd_Timestamp year month 1.

(** The members of the enumeration, in the order of their definition. *)
Definition members : list exogenous.ExogenousEventType :=
  [ exogenous.COVID_19; exogenous.WILDFIRE; exogenous.EXTREME_WEATHER;
    exogenous.ECONOMIC_RECESSION; exogenous.MAJOR_EVENT;
    exogenous.REGULATORY_CHANGE ].

(** [ExogenousEventType(event_str)]: the member with that value. *)
Definition ExogenousEventType_of (event_str : string)
  : result exogenous.ExogenousEventType :=
  match find (fun e => String.eqb (exogenous.value e) event_str) members with
  | Some e => Ok e
  | None => Raise (ValueError "is not a valid ExogenousEventType")
  end.

(** [next((s for s in scenarios if s['id'] == scenario_id), None)]. *)
Fixpoint next_with_id (id : string) (scenarios : list exogenous.Scenario)
  : result (option exogenous.Scenario) :=
  match scenarios with
  | [] => Ok None
  | s :: scenarios' =>
      match exogenous.sc_id s with
      | None => Raise (KeyError "id")
      | Some i => if String.eqb i id then Ok (Some s)
                  else next_with_id id scenarios'
      end
  end.

(** The loop that converts the event strings to members. *)
Fixpoint event_enums (events : list string)
  : outcome (list exogenous.ExogenousEventType) :=
  match events with
  | [] => Return []
  | event_str :: events' =>
      match ExogenousEventType_of event_str with
      | Ok e =>
          match event_enums events' with
          | Return es => Return (e :: es)
          | Throw x => Throw x
          end
      | Raise (ValueError _) => Throw (HTTPException 400)
      | Raise x => Throw (Exception x)
      end
  end.

(** [x or default] on an optional string. *)
Definition or_default (x : option string) (default : string) : string :=
  match x with
  | Some (String c s) => String c s
  | _ => default
  end.

(** The truth value of an optional string. *)
Definition truthy (x : option string) : bool :=
  match x with
  | Some (String _ _) => true
  | _ => false
  end.

(** The scenario configuration the handler builds. *)
Definition build_scenario (request : ScenarioRequest)
  : outcome exogenous.Scenario :=
  if truthy (scenario_id request) then
    (* Use predefined scenario *)
    match next_with_id (or_default (scenario_id request) "")
            exogenous.get_available_scenarios with
    | Raise x => Throw (Exception x)
    | Ok None => Throw (HTTPException 404)
    | Ok (Some predefined) => Return predefined
    end
  else
    (* Custom scenario *)
    match event_enums (events request) with
    | Throw x => Throw x
    | Return enums =>
        Return
          {| exogenous.sc_id := None;
             exogenous.sc_name :=
               Some (or_default (scenario_name request) "Custom Scenario");
             exogenous.sc_description := None;
             exogenous.events := Some enums;
             exogenous.custom_shocks :=
               Some (map (fun s => exogenous.shock (period s) (impact s))
                         (custom_shocks request)) |}
    end.

Local Open Scope run_scope.

(** The [try] block of the handler. *)
Definition simulate_body (forecast_service : inference.ForecastService)
    (request : ScenarioRequest) : Run ScenarioResponse :=
  (* Get base forecast (without exogenous variables) *)
  base_result <- of_outcome
                   (of_result
                      (inference.forecast_volume forecast_service
                         (horizon request) (base_model request) false)) ;;
  base_forecast <- of_M (exogenous.np_new (inference.forecast base_result)) ;;
  (* Create date range for forecast (first day of each quarter) *)
  let quarters :=
    map quarter_label (inference.range 1 (horizon request + 1)) in
  date_range <- of_outcome
                  (of_result (map_result first_day_of_quarter quarters)) ;;
  (* Build scenario configuration *)
  scenario <- of_outcome (build_scenario request) ;;
  (* Simulate scenario *)
  result <- of_M (exogenous.simulate_scenario base_forecast date_range
                    scenario) ;;
  (* Format response *)
  run_ret {| response_scenario_name := exogenous.scenario_name result;
             base_forecast := exogenous.base_forecast result;
             adjusted_forecast := exogenous.adjusted_forecast result;
             total_impact_pct := exogenous.total_impact_pct result;
             summary := exogenous.summary result;
             periods := quarters |}.

(** The handler of [POST /simulate]: whatever the body raises is answered
    with the status 500. *)
Definition simulate_scenario (forecast_service : inference.ForecastService)
    (request : ScenarioRequest) : Run ScenarioResponse :=
  fun s =>
    match simulate_body forecast_service request s with
    | (Return response, s') => (Return response, s')
    | (Throw _, s') => (Throw (HTTPException 500), s')
    end.

(** [ScenarioRequest(scenario_id=scenario_id, horizon=horizon)]: the other
    fields take their default values, and the model is validated. *)
Definition ScenarioRequest_of (scenario_id : string) (horizon : Z)
  : result ScenarioRequest :=
  let request :=
    {| scenario_id := Some scenario_id;
       scenario_name := None;
       events := [];
       custom_shocks := [];
       horizon := horizon;
       base_model := "ensemble" |} in
  if validated request then Ok request
  else Raise (ValueError "validation error for ScenarioRequest").

(** The loop of [compare_scenarios]. *)
Fixpoint compare_loop (forecast_service : inference.ForecastService)
    (scenario_ids : list string) (horizon : Z)
    (results : list ScenarioResponse) : Run (list ScenarioResponse) :=
  match scenario_ids with
  | [] => run_ret results
  | scenario_id :: scenario_ids' =>
      request <- of_outcome
                   (of_result (ScenarioRequest_of scenario_id horizon)) ;;
      result <- simulate_scenario forecast_service request ;;
      compare_loop forecast_service scenario_ids' horizon
                   (results ++ [result])
  end.

(** The handler of [POST /compare]. *)
Definition compare_scenarios (forecast_service : inference.ForecastService)
    (scenario_ids : list string) (horizon : Z)
  : Run (list ScenarioResponse) :=
  compare_loop forecast_service scenario_ids horizon [].

End scenarios.

(* ------------------------------------------------------------------ *)
(** * api/forecast.py *)

Module forecast.

Local Open Scope string_scope.
Local Open Scope list_scope.
Local Open Scope result_scope.

(** [schemas.forecast.ModelType] and its [value]. *)
Inductive ModelType : Type :=
| SARIMA
| PROPHET
| LSTM
| XGBOOST
| ENSEMBLE.

Definition ModelType_value (m : ModelType) : string :=
  match m with
  | SARIMA => "sarima"
  | PROPHET => "prophet"
  | LSTM => "lstm"
  | XGBOOST => "xgboost"
  | ENSEMBLE => "ensemble"
  end.

Record VolumeForecastRequest : Type := {
  horizon : Z;
  model : ModelType;
  include_confidence : bool
}.

Record ForecastPoint : Type := {
  period : string;
  value : Qc;
  ci_lower : option Qc;
  ci_upper : option Qc
}.

Record VolumeForecastResponse : Type := {
  forecast : list ForecastPoint;
  model_used : string;
  metrics : option (dict Qc)
}.

Definition IndexError : exn := ModelFailure "list index out of range".

(** [l[i]] for an index that is not negative. *)
Definition list_index (l : list Qc) (i : nat) : result Qc :=
  match nth_error l i with
  | Some x => Ok x
  | None => Raise IndexError
  end.

(** [float(result.get(key, [None]*len(quarters))[i])] for the index of a
    quarter: without the key the element is [None], which [float]
    refuses. *)
Definition bound (field : option (list Qc)) (i : nat) : result Qc :=
  match field with
  | Some l => list_index l i
  | None => Raise (adapters.TypeError "float() argument must be a number")
  end.

(** The label of the [i]-th forecast quarter. *)
Definition quarter_label (i : Z) : string :=
  if (i <=? 4)%Z then "2024Q" ++ scenarios.str i
  else "2025Q" ++ scenarios.str (i - 4).

(** [enumerate(l)]. *)
Definition enumerate {A} (l : list A) : list (nat * A) :=
  combine (seq 0 (List.length l)) l.

(** The body of the loop over the quarters. *)
Definition forecast_point (res : inference.Forecast)
    (include_confidence : bool) (entry : nat * string)
  : result ForecastPoint :=
  let '(i, quarter) := entry in
  let? v := list_index (inference.forecast res) i in
  let? lower :=
    if include_confidence
    then let? x := bound (inference.ci_lower res) i in Ok (Some x)
    else Ok None in
  let? upper :=
    if include_confidence
    then let? x := bound (inference.ci_upper res) i in Ok (Some x)
    else Ok None in
  Ok {| period := quarter; value := v;
        ci_lower := lower; ci_upper := upper |}.

(** The [try] block of the handler. *)
Definition forecast_volume_body (forecast_service : inference.ForecastService)
    (request : VolumeForecastRequest) : result VolumeForecastResponse :=
  let? res :=
    inference.forecast_volume forecast_service (horizon request)
      (ModelType_value (model request)) (include_confidence request) in
  (* Format response *)
  let quarters :=
    map quarter_label (inference.range 1 (horizon request + 1)) in
  let? forecast_points :=
    map_result (forecast_point res (include_confidence request))
               (enumerate quarters) in
  Ok {| forecast := forecast_points;
        model_used := ModelType_value (model request);
        metrics := None |}.

(** The handler of [POST /volume]: whatever the body raises is answered
    with the status 500. *)
Definition forecast_volume (forecast_service : inference.ForecastService)
    (request : VolumeForecastRequest)
  : scenarios.outcome VolumeForecastResponse :=
  match forecast_volume_body forecast_service request with
  | Ok response => scenarios.Return response
  | Raise _ => scenarios.Throw (scenarios.HTTPException 500)
  end.

End forecast.

(* ------------------------------------------------------------------ *)
(** * Properties: arithmetic and containers *)

Local Open Scope string_scope.
Local Open Scope list_scope.

(** Equality of two arrays, decided. *)
Fixpoint array_eqb (a b : ndarray) : bool :=
  match a, b with
  | [], [] => true
  | x :: a', y :: b' => Qc_eq_bool x y && array_eqb a' b'
  | _, _ => false
  end.

(** Sum of a list, from the right. *)
Definition qsum (l : list Qc) : Qc := fold_right Qcplus 0 l.

(** ** Vocabulary for the combiner *)

(** What invoking a model's point forecast yields, the way the combiner
    calls it: [None] when the model has no [predict] or the call raises. *)
Definition invoke (name : string) (model : ensemble.Model)
    (train_data : ndarray) (steps : Z) : option ndarray :=
  match ensemble.predict model with
  | None => None
  | Some call =>
      match (if String.eqb name "lstm"
             then call (Some train_data) steps
             else call None steps) with
      | Ok pred => Some pred
      | Raise _ => None
      end
  end.

(** The members that take part in a call: registered, weighted and
    invoked with success; each with its weight and its forecast. *)
Definition used_of (w : dict Qc) (train_data : ndarray) (steps : Z)
    (ms : dict ensemble.Model) : list (Qc * ndarray) :=
  flat_map (fun '(name, model) =>
              match dict_get name w, invoke name model train_data steps with
              | Some wt, Some f => [(wt, f)]
              | _, _ => []
              end) ms.

Definition used (self : ensemble.EnsembleForecaster) (train_data : ndarray)
    (steps : Z) : list (Qc * ndarray) :=
  used_of (ensemble.weights self) train_data steps (ensemble.models self).

(** [sum_i weight_i * forecast_i[j]] and [sum_i weight_i]. *)
Definition weighted_sum (us : list (Qc * ndarray)) (j : nat) : Qc :=
  qsum (map (fun '(wt, f) => wt * nth j f 0) us).

Definition total_weight (us : list (Qc * ndarray)) : Qc :=
  qsum (map fst us).

(** The predictions the first loop of [predict_volume] gathers. *)
Definition successes (w : dict Qc) (train_data : ndarray) (steps : Z)
    (ms : dict ensemble.Model) : dict ndarray :=
  flat_map (fun '(name, model) =>
              if dict_mem name w
              then match invoke name model train_data steps with
                   | Some f => [(name, f)]
                   | None => []
                   end
              else []) ms.

(** A model whose [predict] always returns [f], and one whose [predict]
    always raises. *)
Definition constant_model (f : ndarray) : ensemble.Model :=
  {| ensemble.predict := Some (fun _ _ => Ok f);
     ensemble.predict_with_intervals := None |}.

Definition failing_model : ensemble.Model :=
  {| ensemble.predict := Some (fun _ _ => Raise (ModelFailure "not fitted"));
     ensemble.predict_with_intervals := None |}.

Definition half : Qc := dec 1 2.

(** An ensemble of two members with weight 0.5 each. *)
Definition two_models (m1 m2 : ensemble.Model) : ensemble.EnsembleForecaster :=
  {| ensemble.models := [("sarima", m1); ("prophet", m2)];
     ensemble.weights := [("sarima", half); ("prophet", half)];
     ensemble.performance_metrics := [] |}.

(** [EnsembleForecaster()]. *)
Definition empty_ensemble : ensemble.EnsembleForecaster :=
  {| ensemble.models := []; ensemble.weights := [];
     ensemble.performance_metrics := [] |}.

(** The value a model's record holds for [metric] ([0] when it holds
    none). *)
Definition score (metric : string) (per_model : dict Qc) : Qc :=
  dict_get_default metric 0 per_model.

(** [sum_j 1/s_j] over a performance record. *)
Definition inverse_total (metrics : dict (dict Qc)) (metric : string) : Qc :=
  qsum (map (fun entry => 1 / score metric (snd entry)) metrics).

(** The weight map [(1/s) / sum_j (1/s_j)] over the models of a record. *)
Definition inverse_error_weights (metrics : dict (dict Qc)) (metric : string)
  : dict Qc :=
  map (fun entry =>
         (fst entry,
          (1 / score metric (snd entry)) / inverse_total metrics metric))
      metrics.

(** The record [{A: {mape: 10}, B: {mape: 20}}]. *)
Definition record_A10_B20 : dict (dict Qc) :=
  [("A", [("mape", dec 10 1)]); ("B", [("mape", dec 20 1)])].

(** The invariant of the weight map: every weighted name is registered. *)
Definition weights_registered (self : ensemble.EnsembleForecaster) : Prop :=
  forall k, In k (dict_keys (ensemble.weights self)) ->
            In k (dict_keys (ensemble.models self)).

(** What makes a proposed weight map invalid for [self]. *)
Definition invalid_weights (self : ensemble.EnsembleForecaster)
    (new_weights : dict Qc) : Prop :=
  tol < Qcabs (py_sum (dict_values new_weights) - 1)
  \/ exists k, In k (dict_keys new_weights)
               /\ ~ In k (dict_keys (ensemble.models self)).

(** The validation loop of [set_weights]. *)
Definition validate_names (names : list string)
  : M ensemble.EnsembleForecaster unit :=
  for_each names (fun name =>
    bind get (fun self =>
      when (negb (dict_mem name (ensemble.models self)))
           (raise (ValueError "Model not found in ensemble")))).

(** An ensemble holding the single model [sarima], with weight 1. *)
Definition sarima_only : ensemble.EnsembleForecaster :=
  {| ensemble.models := [("sarima", constant_model [dec 10 1])];
     ensemble.weights := [("sarima", 1)];
     ensemble.performance_metrics := [] |}.

(** A record that also lists [prophet], a model [sarima_only] does not
    hold. *)
Definition record_with_stranger : dict (dict Qc) :=
  [("sarima", [("mape", dec 10 1)]); ("prophet", [("mape", dec 20 1)])].

(** ** Vocabulary for the forecast service *)

(** The requested model is missing, or broken: it is not among the loaded
    models, or serving the request with it raises. *)
Definition model_unavailable (self : inference.ForecastService)
    (horizon : Z) (model : string) (include_intervals : bool) : Prop :=
  dict_get model (inference.models self) = None
  \/ exists model_obj e,
       dict_get model (inference.models self) = Some model_obj
       /\ inference.dispatch model_obj horizon model include_intervals
          = Raise e.

(** A service that has loaded one model, [sarima], which is not fitted. *)
Definition broken_service : inference.ForecastService :=
  {| inference.models := [("sarima", failing_model)] |}.

(** ** Vocabulary for interval forecasts *)

(** What invoking a model's interval forecast yields, the way the combiner
    calls it: [None] when the model has no [predict_with_intervals] or the
    call raises. *)
Definition invoke_intervals (name : string) (model : ensemble.Model)
    (train_data : ndarray) (steps : Z) (alpha : Qc)
  : option ensemble.IntervalForecast :=
  match ensemble.predict_with_intervals model with
  | None => None
  | Some call =>
      match (if String.eqb name "lstm"
             then call (Some train_data) steps None
             else call None steps (Some alpha)) with
      | Ok r => Some r
      | Raise _ => None
      end
  end.

(** The members that take part in an interval forecast, each with its
    weight and its result. *)
Definition used_intervals (w : dict Qc) (train_data : ndarray) (steps : Z)
    (alpha : Qc) (ms : dict ensemble.Model)
  : list (Qc * ensemble.IntervalForecast) :=
  flat_map (fun '(name, model) =>
              match dict_get name w,
                    invoke_intervals name model train_data steps alpha with
              | Some wt, Some r => [(wt, r)]
              | _, _ => []
              end) ms.

(** [sum_i weight_i * series_i[j]], for one of the three series. *)
Definition interval_sum (series : ensemble.IntervalForecast -> ndarray)
    (us : list (Qc * ensemble.IntervalForecast)) (j : nat) : Qc :=
  qsum (map (fun u => fst u * nth j (series (snd u)) 0) us).

(** All three series of a result have length [n]. *)
Definition interval_shape (n : nat) (r : ensemble.IntervalForecast) : Prop :=
  List.length (ensemble.forecast r) = n
  /\ List.length (ensemble.ci_lower r) = n
  /\ List.length (ensemble.ci_upper r) = n.

(** The lower bound is below the point forecast, and the point forecast
    below the upper bound, at each position. *)
Definition ordered_intervals (r : ensemble.IntervalForecast) : Prop :=
  forall j, (j < List.length (ensemble.forecast r))%nat ->
    nth j (ensemble.ci_lower r) 0 <= nth j (ensemble.forecast r) 0
    /\ nth j (ensemble.forecast r) 0 <= nth j (ensemble.ci_upper r) 0.

(** A model with both methods, returning the same arrays at every call. *)
Definition interval_model (r : ensemble.IntervalForecast) : ensemble.Model :=
  {| ensemble.predict := Some (fun _ _ => Ok (ensemble.forecast r));
     ensemble.predict_with_intervals := Some (fun _ _ _ => Ok r) |}.

Definition interval_10_20 : ensemble.IntervalForecast :=
  {| ensemble.forecast := [dec 10 1; dec 20 1];
     ensemble.ci_lower := [dec 8 1; dec 16 1];
     ensemble.ci_upper := [dec 12 1; dec 24 1] |}.

(** ** Vocabulary for the adapters *)

(** What the service holds for a file written by [EnsembleForecaster.save]:
    the dictionary [{weights, performance_metrics}], an object with neither
    [predict] nor [predict_with_intervals]. *)
Definition loaded_bundle (data : ensemble.Bundle) : inference.Handle :=
  {| ensemble.predict := None; ensemble.predict_with_intervals := None |}.

(** A fitted SARIMA model whose forecasts are the given arrays. *)
Definition fitted_sarima (f : ndarray) : adapters.SARIMAVolumeModel :=
  {| adapters.model_fit :=
       Some {| adapters.sarima_forecast := fun _ => Ok f;
               adapters.sarima_summary_frame := fun _ _ =>
                 Ok {| ensemble.forecast := f;
                       ensemble.ci_lower := f;
                       ensemble.ci_upper := f |} |} |}.

(** A fitted Prophet model and a fitted LSTM model, with constant
    forecasts. *)
Definition fitted_prophet (r : ensemble.IntervalForecast)
  : adapters.ProphetVolumeModel :=
  {| adapters.prophet_is_fitted := true;
     adapters.prophet_forecast := fun _ => Ok r |}.

Definition fitted_lstm (f : ndarray) : adapters.LSTMVolumeModel :=
  {| adapters.lstm_is_fitted := true;
     adapters.lstm_roll_forward := fun _ _ => Ok f;
     adapters.lstm_simulate := fun _ _ _ =>
       Ok {| ensemble.forecast := f;
             ensemble.ci_lower := f;
             ensemble.ci_upper := f |} |}.

(** ** Vocabulary for the scenario simulator *)

(** [total_impact] once every custom shock has been applied to it. *)
Definition after_shocks (shocks : list exogenous.CustomShock)
    (total_impact : ndarray) : ndarray :=
  fold_left (fun a sh => map (fun x => x + exogenous.impact sh) a)
            shocks total_impact.

(** The sum of the impacts of a list of shocks. *)
Definition shock_sum (shocks : list exogenous.CustomShock) : Qc :=
  qsum (map exogenous.impact shocks).

(** The feature frame [simulate_scenario] builds first. *)
Definition features_of (s : exogenous.Store) (date_range : list Timestamp)
    (scenario : exogenous.Scenario) : result DataFrame :=
  fold_result (exogenous.add_event (exogenous.event_definitions s))
              (exogenous.get_or (exogenous.events scenario) [])
              (df_new date_range).

(** Every column of a frame is as long as its index. *)
Definition df_wf (df : DataFrame) : Prop :=
  forall name col, In (name, col) (columns df) ->
                   List.length col = List.length (index df).

(** The shape of a frame over [date_range]. *)
Definition shaped (date_range : list Timestamp) (df : DataFrame) : Prop :=
  index df = date_range /\ df_wf df.

(** The scenario with neither events nor shocks, in its three spellings:
    empty lists, as the API layer builds it, or keys left out. *)
Definition no_events (sc : exogenous.Scenario) : Prop :=
  exogenous.get_or (exogenous.events sc) [] = [].

Definition no_shocks (sc : exogenous.Scenario) : Prop :=
  exogenous.get_or (exogenous.custom_shocks sc) [] = [].

(** First days of the four quarters of 2024. *)
Definition quarter_start (y m : Z) : Timestamp :=
  {| year := y; month := m; day := 1; nanos := 0 |}.

Definition quarters_2024 : list Timestamp :=
  [quarter_start 2024 1; quarter_start 2024 4;
   quarter_start 2024 7; quarter_start 2024 10].

(** The scenario made of the single custom shock
    [{period: "2024-Q3", impact: -0.2}]. *)
Definition single_shock : exogenous.Scenario :=
  {| exogenous.sc_id := None;
     exogenous.sc_name := Some "Custom Scenario";
     exogenous.sc_description := None;
     exogenous.events := Some [];
     exogenous.custom_shocks :=
       Some [exogenous.shock "2024-Q3" (dec (-2) 10)] |}.

(** The scenario with no event and no shock. *)
Definition empty_scenario : exogenous.Scenario :=
  {| exogenous.sc_id := None;
     exogenous.sc_name := None;
     exogenous.sc_description := None;
     exogenous.events := Some [];
     exogenous.custom_shocks := Some [] |}.

(** ** Vocabulary for the feature frame *)

(** The name of the column an event gets. *)
Definition feature_name (e : exogenous.ExogenousEventType) : string :=
  "exog_" ++ exogenous.value e.

Definition is_ok {A} (r : result A) : bool :=
  match r with Ok _ => true | Raise _ => false end.

Definition periods_of (def : exogenous.EventDef)
  : list exogenous.HistoricalPeriod :=
  exogenous.get_or (exogenous.historical_periods def) [].

Definition pattern_of (def : exogenous.EventDef) : dict Qc :=
  exogenous.get_or (exogenous.seasonal_pattern def) [].

(** The bounds of every interval are dates and the keys of the seasonal
    pattern are quarters: what the two loops need in order not to raise. *)
Definition def_parses (def : exogenous.EventDef) : bool :=
  forallb (fun p => is_ok (to_datetime (exogenous.start p))
                    && is_ok (to_datetime (exogenous.end_ p)))
          (periods_of def)
  && forallb (fun en => is_ok (py_int (remove_char "Q" (fst en))))
             (pattern_of def).

(** The date lies within the interval, bounds included. *)
Definition period_covers (p : exogenous.HistoricalPeriod) (d : Timestamp)
  : bool :=
  match to_datetime (exogenous.start p), to_datetime (exogenous.end_ p) with
  | Ok start_ts, Ok end_ts => ts_geb d start_ts && ts_leb d end_ts
  | _, _ => false
  end.

(** The date lies in the quarter the entry names. *)
Definition quarter_matches (en : string * Qc) (d : Timestamp) : bool :=
  match py_int (remove_char "Q" (fst en)) with
  | Ok q => Z.eqb (quarter d) q
  | Raise _ => false
  end.

(** The last element of a list that satisfies a test. *)
Definition last_match {A} (hit : A -> bool) (l : list A) : option A :=
  find hit (rev l).

(** The value of an event's column at a date: the last seasonal entry of
    the date's quarter decides; without one, the last historical interval
    holding the date decides; without one, the value is 0. *)
Definition cell (def : exogenous.EventDef) (d : Timestamp) : Qc :=
  match last_match (fun en => quarter_matches en d) (pattern_of def) with
  | Some en => snd en * exogenous.impact_multiplier def
  | None =>
      match last_match (fun p => period_covers p d) (periods_of def) with
      | Some p => exogenous.severity p * exogenous.impact_multiplier def
      | None => 0
      end
  end.

(** One overwriting assignment, seen at each date. *)
Definition overwrite {A} (hit : A -> Timestamp -> bool) (val : A -> Qc)
    (g : Timestamp -> Qc) (a : A) : Timestamp -> Qc :=
  fun d => if hit a d then val a else g d.

(** The column an enabled event ends up with, and the columns of the frame
    once every enabled event has been through the loop. *)
Definition column_of (defs : exogenous.Catalog) (dates : list Timestamp)
    (e : exogenous.ExogenousEventType) : ndarray :=
  match exogenous.lookup_event e defs with
  | Some def => map (cell def) dates
  | None => []
  end.

Definition columns_after (defs : exogenous.Catalog) (dates : list Timestamp)
    (enabled : list exogenous.ExogenousEventType) (cols : dict ndarray)
  : dict ndarray :=
  fold_left (fun cols e =>
               dict_set (feature_name e) (column_of defs dates e) cols)
            enabled cols.

(** Every enabled event is in the catalog, with bounds and quarters that
    parse. *)
Definition catalog_serves (defs : exogenous.Catalog)
    (enabled : list exogenous.ExogenousEventType) : Prop :=
  forall e, In e enabled ->
    exists def, exogenous.lookup_event e defs = Some def
                /\ def_parses def = true.

(** A base forecast for four quarters, and the store holding it alone. *)
Definition four_quarters : ndarray :=
  [dec 45000 1; dec 46000 1; dec 47000 1; dec 48000 1].

Definition one_forecast : list ndarray := [four_quarters].

(** An event with two overlapping intervals and a seasonal entry, to watch
    the three kinds of overwriting at once. *)
Definition overlapping_def : exogenous.EventDef :=
  {| exogenous.name := "Overlap";
     exogenous.description := "two intervals and one season";
     exogenous.historical_periods :=
       Some [ exogenous.hp "2024-01" "2024-10" (dec 8 10);
              exogenous.hp "2024-04" "2024-07" (dec 4 10) ];
     exogenous.seasonal_pattern := Some [("Q3", dec 5 10)];
     exogenous.impact_multiplier := dec (-1) 2;
     exogenous.affected_neighborhoods := None |}.

Definition overlapping_store : exogenous.Store :=
  {| exogenous.event_definitions := [(exogenous.WILDFIRE, overlapping_def)];
     exogenous.heap := [] |}.

(** ** Vocabulary for the events of the source catalog *)

(** The sum, over the enabled events, of the values of their columns at a
    date. *)
Definition impact_at (defs : exogenous.Catalog)
    (enabled : list exogenous.ExogenousEventType) (d : Timestamp) : Qc :=
  qsum (map (fun e => match exogenous.lookup_event e defs with
                      | Some def => cell def d
                      | None => 0
                      end) enabled).

(** The events the source catalog describes by historical intervals. *)
Definition interval_event (e : exogenous.ExogenousEventType) : bool :=
  match e with
  | exogenous.EXTREME_WEATHER => false
  | _ => true
  end.

(** The value of the extreme-weather column in each quarter:
    [intensity * -0.15]. *)
Definition extreme_weather_value (q : Z) : Qc :=
  if Z.eqb q 1 then dec (-45) 1000
  else if Z.eqb q 2 then dec (-30) 1000
  else if Z.eqb q 3 then dec (-75) 1000
  else dec (-30) 1000.

(** A scenario made of events only. *)
Definition events_only (ev : list exogenous.ExogenousEventType)
  : exogenous.Scenario :=
  {| exogenous.sc_id := None;
     exogenous.sc_name := None;
     exogenous.sc_description := None;
     exogenous.events := Some ev;
     exogenous.custom_shocks := Some [] |}.

(** ** Vocabulary for the handler of [POST /simulate] *)

(** The quarter of the year the [i]-th forecast period stands for, and the
    first day of that quarter. *)
Definition period_quarter (i : Z) : Z :=
  if (i <=? 4)%Z then i else (i - 4)%Z.

Definition period_date (i : Z) : Timestamp :=
  quarter_start (if (i <=? 4)%Z then 2024 else 2025)
                ((period_quarter i - 1) * 3 + 1).

(** The value of extreme weather in a quarter when it is among the enabled
    events, and 0 otherwise. *)
Definition weather_impact (enabled : list exogenous.ExogenousEventType)
    (q : Z) : Qc :=
  if existsb (fun e => negb (interval_event e)) enabled
  then extreme_weather_value q
  else 0.

(** A service that has loaded no model. *)
Definition no_models : inference.ForecastService :=
  {| inference.models := [] |}.

(** A request that names a predefined scenario, and a request that lists
    events; the other fields have their default values. *)
Definition request_by_id (id : string) (horizon : Z)
  : scenarios.ScenarioRequest :=
  {| scenarios.scenario_id := Some id;
     scenarios.scenario_name := None;
     scenarios.events := [];
     scenarios.custom_shocks := [];
     scenarios.horizon := horizon;
     scenarios.base_model := "ensemble" |}.

Definition request_by_events (events : list string) (horizon : Z)
  : scenarios.ScenarioRequest :=
  {| scenarios.scenario_id := None;
     scenarios.scenario_name := None;
     scenarios.events := events;
     scenarios.custom_shocks := [];
     scenarios.horizon := horizon;
     scenarios.base_model := "ensemble" |}.

(** The response built from what the simulator returns. *)
Definition response_of (res : exogenous.Simulation) (quarters : list string)
  : scenarios.ScenarioResponse :=
  {| scenarios.response_scenario_name := exogenous.scenario_name res;
     scenarios.base_forecast := exogenous.base_forecast res;
     scenarios.adjusted_forecast := exogenous.adjusted_forecast res;
     scenarios.total_impact_pct := exogenous.total_impact_pct res;
     scenarios.summary := exogenous.summary res;
     scenarios.periods := quarters |}.

(** ** Vocabulary for the handler of [POST /volume] *)

(** The point of the growth projection for the [i]-th quarter. *)
Definition projected_point (include_confidence : bool) (i : Z)
  : forecast.ForecastPoint :=
  let v := inference.current * inference.pow (1 + inference.growth_rate) i in
  {| forecast.period := forecast.quarter_label i;
     forecast.value := v;
     forecast.ci_lower :=
       if include_confidence then Some (v * dec 95 100) else None;
     forecast.ci_upper :=
       if include_confidence then Some (v * dec 105 100) else None |}.

(** The answer made of the growth projection, under the name of the model
    that was asked for. *)
Definition projected_response (request : forecast.VolumeForecastRequest)
  : forecast.VolumeForecastResponse :=
  {| forecast.forecast :=
       map (projected_point (forecast.include_confidence request))
           (inference.range 1 (forecast.horizon request + 1));
     forecast.model_used := forecast.ModelType_value (forecast.model request);
     forecast.metrics := None |}.

Lemma array_eqb_eq (a b : ndarray) : array_eqb a b = true -> a = b.
Proof.
  revert b; induction a as [|x a IH]; intros [|y b]; simpl; try discriminate.
  - reflexivity.
  - intros H. apply andb_prop in H as [Hx Hab].
    apply Qc_eq_bool_correct in Hx. rewrite Hx, (IH b Hab). reflexivity.
Qed.

Lemma gtb_spec (x y : Qc) : gtb x y = true <-> y < x.
Proof.
  unfold gtb. rewrite Qclt_alt. unfold Qccompare.
  rewrite <- (Qcompare_antisym x y).
  destruct (x ?= y)%Q; simpl; split; congruence.
Qed.

Lemma fold_left_plus (l : list Qc) (a : Qc) :
  fold_left Qcplus l a = a + qsum l.
Proof.
  revert a; induction l as [|x l IH]; intros a; simpl.
  - ring.
  - rewrite IH. ring.
Qed.

Lemma py_sum_qsum (l : list Qc) : py_sum l = qsum l.
Proof. unfold py_sum. rewrite fold_left_plus. ring. Qed.

Lemma zip_with_length f (a b : ndarray) :
  List.length a = List.length b ->
  List.length (zip_with f a b) = List.length a.
Proof.
  revert b; induction a as [|x a IH]; intros [|y b]; simpl; intros H;
    try discriminate; try reflexivity.
  f_equal. apply IH. congruence.
Qed.

Lemma zip_with_nth f (a b : ndarray) (j : nat) :
  List.length a = List.length b -> (j < List.length a)%nat ->
  nth j (zip_with f a b) 0 = f (nth j a 0) (nth j b 0).
Proof.
  revert b j; induction a as [|x a IH]; intros [|y b] j; simpl; intros H Hj;
    try discriminate; try lia.
  destruct j as [|j]; [reflexivity|]. apply IH; [congruence | lia].
Qed.

Lemma np_scale_length c a : List.length (np_scale c a) = List.length a.
Proof. apply length_map. Qed.

Lemma np_scale_nth c a j : nth j (np_scale c a) 0 = c * nth j a 0.
Proof.
  unfold np_scale.
  replace 0 with (c * 0) at 1 by ring.
  apply (map_nth (fun x => c * x)).
Qed.

Lemma np_iadd_same (a b : ndarray) :
  List.length b = List.length a -> np_iadd a b = Ok (zip_with Qcplus a b).
Proof. intros H. unfold np_iadd. rewrite H, Nat.eqb_refl. reflexivity. Qed.

Lemma map_seq_ext (g : nat -> Qc) (a : ndarray) :
  (forall j, (j < List.length a)%nat -> nth j a 0 = g j) ->
  a = map g (seq 0 (List.length a)).
Proof.
  intros H. apply (nth_ext _ _ 0 (g 0%nat)).
  - rewrite length_map, length_seq. reflexivity.
  - intros j Hj. rewrite (H j Hj).
    rewrite (map_nth g (seq 0 (List.length a)) 0%nat j), seq_nth by exact Hj.
    reflexivity.
Qed.

(** ** Dictionaries *)

Lemma dict_get_In V (k : string) (d : dict V) (v : V) :
  dict_get k d = Some v -> In (k, v) d.
Proof.
  induction d as [|[k' v'] d IH]; simpl; [discriminate|].
  destruct (String.eqb_spec k k') as [->|_].
  - intros [= ->]. now left.
  - intros H. right. now apply IH.
Qed.

Lemma dict_mem_keys V (k : string) (d : dict V) :
  dict_mem k d = true <-> In k (dict_keys d).
Proof.
  unfold dict_mem. induction d as [|[k' v'] d IH]; simpl.
  - split; [discriminate | tauto].
  - destruct (String.eqb_spec k k') as [->|Hne].
    + split; auto.
    + rewrite IH. split; [auto | intros [H|H]; [congruence | exact H]].
Qed.

Lemma dict_set_fresh V (k : string) (v : V) (d : dict V) :
  ~ In k (dict_keys d) -> dict_set k v d = (d ++ [(k, v)])%list.
Proof.
  induction d as [|[k' v'] d IH]; simpl; intros H; [reflexivity|].
  destruct (String.eqb_spec k k') as [->|_]; [tauto|].
  rewrite IH by tauto. reflexivity.
Qed.

Lemma dict_set_keys V (k : string) (v : V) (d : dict V) :
  forall x, In x (dict_keys (dict_set k v d)) <-> x = k \/ In x (dict_keys d).
Proof.
  intros x. induction d as [|[k' v'] d IH]; simpl.
  - intuition.
  - destruct (String.eqb_spec k k') as [->|Hne]; simpl.
    + intuition.
    + rewrite IH. intuition.
Qed.

(* ------------------------------------------------------------------ *)
(** * Properties of the ensemble combiner *)

Section PredictVolume.
Variable self : ensemble.EnsembleForecaster.
Variable train_data : ndarray.
Variable steps : Z.

Local Abbreviation w := (ensemble.weights self).

Lemma collect_prediction_fold (ms : dict ensemble.Model)
    (acc : dict ndarray) :
  NoDup (dict_keys ms) ->
  (forall k, In k (dict_keys ms) -> ~ In k (dict_keys acc)) ->
  fold_left (ensemble.collect_prediction self train_data steps) ms acc
  = (acc ++ successes w train_data steps ms)%list.
Proof.
  revert acc. induction ms as [|[name model] ms IH]; intros acc Hnd Hfresh.
  - simpl. now rewrite app_nil_r.
  - simpl in Hnd. inversion Hnd as [|? ? Hnotin Hnd']; subst.
    assert (Hname : ~ In name (dict_keys acc)) by (apply Hfresh; now left).
    cbn [fold_left successes flat_map].
    unfold ensemble.collect_prediction at 2.
    unfold invoke.
    destruct (dict_mem name w); cbn [negb].
    2:{ apply IH; [exact Hnd'|]. intros k Hk. apply Hfresh. now right. }
    destruct (ensemble.predict model) as [call|].
    2:{ apply IH; [exact Hnd'|]. intros k Hk. apply Hfresh. now right. }
    destruct (if String.eqb name "lstm" then call (Some train_data) steps
              else call None steps) as [pred|e].
    2:{ apply IH; [exact Hnd'|]. intros k Hk. apply Hfresh. now right. }
    rewrite IH.
    + rewrite dict_set_fresh by exact Hname.
      rewrite <- app_assoc. reflexivity.
    + exact Hnd'.
    + intros k Hk Hin. apply dict_set_keys in Hin as [->|Hin].
      * exact (Hnotin Hk).
      * apply (Hfresh k); [now right | exact Hin].
Qed.

Lemma successes_cons name model ms :
  successes w train_data steps ((name, model) :: ms)
  = ((match dict_get name w, invoke name model train_data steps with
      | Some _, Some f => [(name, f)]
      | _, _ => []
      end) ++ successes w train_data steps ms)%list.
Proof.
  unfold successes, dict_mem. cbn [flat_map].
  destruct (dict_get name w), (invoke name model train_data steps);
    reflexivity.
Qed.

Lemma used_of_cons name model ms :
  used_of w train_data steps ((name, model) :: ms)
  = ((match dict_get name w, invoke name model train_data steps with
      | Some wt, Some f => [(wt, f)]
      | _, _ => []
      end) ++ used_of w train_data steps ms)%list.
Proof. reflexivity. Qed.

Lemma accumulate_step (a : ndarray) (t : Qc) (name : string)
    (f : ndarray) (wt : Qc) :
  dict_get name w = Some wt -> List.length f = List.length a ->
  ensemble.accumulate self (a, t) (name, f)
  = Ok (zip_with Qcplus a (np_scale wt f), t + wt).
Proof.
  intros Hw Hf. unfold ensemble.accumulate, dict_get_default. rewrite Hw.
  rewrite np_iadd_same by (rewrite np_scale_length; exact Hf).
  reflexivity.
Qed.

Lemma accumulate_fold (n : nat) (ms : dict ensemble.Model) :
  (forall wt f, In (wt, f) (used_of w train_data steps ms) ->
                List.length f = n) ->
  forall (a : ndarray) (t : Qc), List.length a = n ->
  exists a',
    fold_result (ensemble.accumulate self)
                (successes w train_data steps ms) (a, t)
    = Ok (a', t + total_weight (used_of w train_data steps ms))
    /\ List.length a' = n
    /\ forall j, (j < n)%nat ->
         nth j a' 0
         = nth j a 0 + weighted_sum (used_of w train_data steps ms) j.
Proof.
  unfold total_weight, weighted_sum.
  induction ms as [|[name model] ms IH]; intros Hlen a t Ha.
  - exists a. simpl. repeat split; [f_equal; f_equal; ring | exact Ha |].
    intros j _. ring.
  - rewrite successes_cons, used_of_cons.
    rewrite used_of_cons in Hlen.
    destruct (dict_get name w) as [wt|] eqn:Hw.
    2:{ simpl. apply IH; assumption. }
    destruct (invoke name model train_data steps) as [f|].
    2:{ simpl. apply IH; assumption. }
    assert (Hf : List.length f = n) by (apply (Hlen wt f); now left).
    cbn [app fold_result].
    rewrite (accumulate_step a t name f Hw) by congruence.
    cbn [rbind].
    destruct (IH (fun wt' f' H => Hlen wt' f' (or_intror H))
                 (zip_with Qcplus a (np_scale wt f)) (t + wt)) as
      (a' & Hrun & Hlen' & Hnth).
    { rewrite zip_with_length; [exact Ha|].
      rewrite np_scale_length. congruence. }
    exists a'. split; [|split].
    + rewrite Hrun. cbn [map fst fold_right qsum]. f_equal. f_equal.
      unfold qsum. ring.
    + exact Hlen'.
    + intros j Hj. rewrite (Hnth j Hj).
      rewrite zip_with_nth, np_scale_nth;
        [| rewrite np_scale_length; congruence | lia].
      cbn [map fold_right qsum]. unfold qsum. ring.
Qed.
End PredictVolume.

Lemma ok_array_eq (r : result ndarray) (out : ndarray) :
  match r with Ok a => array_eqb a out | Raise _ => false end = true ->
  r = Ok out.
Proof.
  destruct r as [a|e]; [|discriminate].
  intros H. now rewrite (array_eqb_eq _ _ H).
Qed.

Lemma pair_eq A B (p : A * B) (a : A) (b : B) :
  fst p = a -> snd p = b -> p = (a, b).
Proof. destruct p; simpl; congruence. Qed.

(** A call on concrete data: the value by evaluation, the state by
    conversion. *)
Ltac run_concrete :=
  apply pair_eq; [apply ok_array_eq; vm_compute; reflexivity | reflexivity].

Lemma np_zeros_ok (steps : Z) :
  (0 <= steps)%Z -> np_zeros steps = Ok (repeat 0 (Z.to_nat steps)).
Proof.
  intros H. unfold np_zeros.
  destruct (Z.ltb_spec steps 0); [lia | reflexivity].
Qed.

Lemma predict_volume_run (self : ensemble.EnsembleForecaster)
    (train_data : ndarray) (steps : Z) :
  ensemble.weights self <> [] ->
  dict_wf (ensemble.models self) ->
  (0 <= steps)%Z ->
  (forall wt f, In (wt, f) (used self train_data steps) ->
                Z.of_nat (List.length f) = steps) ->
  let us := used self train_data steps in
  let acc := map (weighted_sum us) (seq 0 (Z.to_nat steps)) in
  let total := total_weight us in
  ensemble.predict_volume train_data steps self
  = (Ok (if gtb total 0 && gtb (Qcabs (total - 1)) tol
         then map (fun x => x / total) acc else acc), self).
Proof.
  intros Hw Hwf Hsteps Hlen us acc total.
  unfold ensemble.predict_volume, bind, get.
  destruct (ensemble.weights self) as [|w0 ws] eqn:Ew; [congruence|].
  cbn [dict_is_empty].
  rewrite collect_prediction_fold;
    [| exact Hwf | intros k _ []].
  cbn [app]. unfold lift. rewrite (np_zeros_ok Hsteps).
  destruct (accumulate_fold self train_data steps (n := Z.to_nat steps)
              (ensemble.models self)) with
    (a := repeat 0 (Z.to_nat steps)) (t := 0) as (a' & Hrun & Hlen' & Hnth).
  { intros wt f Hin. specialize (Hlen wt f Hin). lia. }
  { apply repeat_length. }
  rewrite Hrun.
  assert (Ha' : a' = acc).
  { unfold acc. rewrite <- Hlen'. apply map_seq_ext.
    intros j Hj. rewrite Hnth by lia.
    rewrite nth_repeat. unfold us, used. ring. }
  assert (Ht : 0 + total_weight (used_of (ensemble.weights self) train_data
                                   steps (ensemble.models self)) = total).
  { unfold total, us, used. ring. }
  rewrite Ht, Ha'.
  destruct (gtb total 0 && gtb (Qcabs (total - 1)) tol); reflexivity.
Qed.

Lemma survivor_forecast (f : ndarray) (wt : Qc) :
  wt <> 0 ->
  map (fun x => x / (wt + 0))
      (map (weighted_sum [(wt, f)]) (seq 0 (List.length f))) = f.
Proof.
  intros Hwt. rewrite map_map. symmetry. apply map_seq_ext.
  intros j _. unfold weighted_sum, qsum. cbn [map fold_right].
  field. intros H. apply Hwt. rewrite <- H. ring.
Qed.

(** C1.  [predict_volume] returns, position by position, the sum of
    [weight_i * forecast_i] over the members that are registered, weighted
    and invoked with success, provided each such forecast has length
    [steps]; the sum is divided by the total weight used exactly when that
    total is positive and further than 1e-6 from 1.  Two members of weight
    0.5 forecasting [10,20] and [30,40] give [20,30]; when one of two
    members of weight 0.5 fails, the result is the other's forecast. *)
Theorem C1_predict_volume_weighted_average :
  (forall (self : ensemble.EnsembleForecaster) (train_data : ndarray)
          (steps : Z),
      ensemble.weights self <> [] ->
      dict_wf (ensemble.models self) ->
      (0 <= steps)%Z ->
      (forall wt f, In (wt, f) (used self train_data steps) ->
                    Z.of_nat (List.length f) = steps) ->
      let us := used self train_data steps in
      let acc := map (weighted_sum us) (seq 0 (Z.to_nat steps)) in
      let total := total_weight us in
      exists out,
        ensemble.predict_volume train_data steps self = (Ok out, self)
        /\ (0 < total /\ tol < Qcabs (total - 1) ->
            out = map (fun x => x / total) acc)
        /\ (~ (0 < total /\ tol < Qcabs (total - 1)) -> out = acc))
  /\ (forall train_data,
        let self := two_models (constant_model [dec 10 1; dec 20 1])
                               (constant_model [dec 30 1; dec 40 1]) in
        ensemble.predict_volume train_data 2 self
        = (Ok [dec 20 1; dec 30 1], self))
  /\ (forall train_data f,
        let self := two_models (constant_model f) failing_model in
        ensemble.predict_volume train_data (Z.of_nat (List.length f)) self
        = (Ok f, self))
  /\ (forall train_data f,
        let self := two_models failing_model (constant_model f) in
        ensemble.predict_volume train_data (Z.of_nat (List.length f)) self
        = (Ok f, self)).
Proof.
  split; [|split; [|split]].
  - intros self train_data steps Hw Hwf Hsteps Hlen us acc total.
    rewrite (predict_volume_run self train_data Hw Hwf Hsteps Hlen).
    fold us. fold total. fold acc.
    destruct (gtb total 0) eqn:E1; destruct (gtb (Qcabs (total - 1)) tol) eqn:E2;
      cbn [andb]; eexists; (split; [reflexivity|]); split;
      try (intros _; reflexivity);
      try (intros [H1 H2]; apply gtb_spec in H1; apply gtb_spec in H2;
           congruence);
      try (intros H; exfalso; apply H; split; apply gtb_spec; assumption).
  - intros train_data self. run_concrete.
  - intros train_data f self.
    rewrite predict_volume_run.
    + unfold used, used_of, self, two_models, total_weight. cbn.
      rewrite Nat2Z.id.
      rewrite survivor_forecast by discriminate. reflexivity.
    + discriminate.
    + repeat constructor; simpl; intuition discriminate.
    + lia.
    + unfold used, used_of, self, two_models. cbn.
      intros wt f0 [[= _ <-]|[]]. reflexivity.
  - intros train_data f self.
    rewrite predict_volume_run.
    + unfold used, used_of, self, two_models, total_weight. cbn.
      rewrite Nat2Z.id.
      rewrite survivor_forecast by discriminate. reflexivity.
    + discriminate.
    + repeat constructor; simpl; intuition discriminate.
    + lia.
    + unfold used, used_of, self, two_models. cbn.
      intros wt f0 [[= _ <-]|[]]. reflexivity.
Qed.

Lemma map_result_ok A B (f : A -> result B) (g : A -> B) (l : list A) :
  (forall x, In x l -> f x = Ok (g x)) -> map_result f l = Ok (map g l).
Proof.
  induction l as [|a l IH]; intros H; simpl; [reflexivity|].
  rewrite (H a) by now left. cbn [rbind].
  rewrite IH by (intros x Hx; apply H; now right). reflexivity.
Qed.

Lemma py_div_ok (x y : Qc) : y <> 0 -> py_div x y = Ok (x / y).
Proof.
  intros Hy. unfold py_div.
  destruct (Qc_eq_bool y 0) eqn:E; [|reflexivity].
  apply Qc_eq_bool_correct in E. contradiction.
Qed.

Lemma qsum_div (l : list Qc) (t : Qc) :
  t <> 0 -> qsum (map (fun x => x / t) l) = qsum l / t.
Proof.
  intros Ht. induction l as [|x l IH]; simpl.
  - field. exact Ht.
  - rewrite IH. field. exact Ht.
Qed.

Lemma auto_weight_run (self : ensemble.EnsembleForecaster)
    (metrics : dict (dict Qc)) (metric : string) :
  (forall name per_model, In (name, per_model) metrics ->
     exists s, dict_get metric per_model = Some s /\ s <> 0) ->
  inverse_total metrics metric <> 0 ->
  ensemble.auto_weight_by_performance metrics metric self
  = (Ok tt, ensemble.with_weights self (inverse_error_weights metrics metric)).
Proof.
  intros Hs Ht.
  unfold ensemble.auto_weight_by_performance, bind, lift, modify.
  rewrite (map_result_ok _ (fun e => (fst e, score metric (snd e)))).
  2:{ intros [name per] Hin. destruct (Hs name per Hin) as (s & Hget & _).
      unfold dict_index, score, dict_get_default. cbn [fst snd].
      rewrite Hget. reflexivity. }
  rewrite (map_result_ok _ (fun e : string * Qc => (fst e, 1 / snd e))).
  2:{ intros [name sc] Hin. apply in_map_iff in Hin as ([n per] & [= <- <-] & Hin).
      destruct (Hs n per Hin) as (s & Hget & Hne).
      rewrite py_div_ok; [reflexivity|].
      cbn [snd]. unfold score, dict_get_default. rewrite Hget. exact Hne. }
  assert (Etot : py_sum (dict_values
            (map (fun e : string * Qc => (fst e, 1 / snd e))
               (map (fun e => (fst e, score metric (snd e))) metrics)))
          = inverse_total metrics metric).
  { rewrite py_sum_qsum. unfold dict_values, inverse_total.
    rewrite !map_map. reflexivity. }
  rewrite Etot.
  rewrite (map_result_ok _
             (fun e : string * Qc =>
                (fst e, snd e / inverse_total metrics metric))).
  2:{ intros [name inv] _. rewrite py_div_ok by exact Ht. reflexivity. }
  unfold inverse_error_weights. rewrite !map_map. reflexivity.
Qed.

Lemma some_qc_eq (o : option Qc) (y : Qc) :
  match o with Some x => Qc_eq_bool x y | None => false end = true ->
  o = Some y.
Proof.
  destruct o as [x|]; [|discriminate].
  intros H. apply Qc_eq_bool_correct in H. now subst.
Qed.

(** C2.  When every model of the record has a nonzero value
    for the metric and the inverses of these values do not sum to zero,
    [auto_weight_by_performance] succeeds and stores the weight
    [(1/s) / sum_j (1/s_j)] for each model of the record and for no other
    name, and the stored weights sum to 1.  On [{A: 10, B: 20}] it stores
    2/3 for A and 1/3 for B. *)
Theorem C2_auto_weight_inverse_error :
  (forall (self : ensemble.EnsembleForecaster) (metrics : dict (dict Qc))
          (metric : string),
      (forall name per_model, In (name, per_model) metrics ->
         exists s, dict_get metric per_model = Some s /\ s <> 0) ->
      inverse_total metrics metric <> 0 ->
      let new_weights := inverse_error_weights metrics metric in
      ensemble.auto_weight_by_performance metrics metric self
      = (Ok tt, ensemble.with_weights self new_weights)
      /\ dict_keys new_weights = dict_keys metrics
      /\ py_sum (dict_values new_weights) = 1)
  /\ (let after :=
        snd (ensemble.auto_weight_by_performance record_A10_B20 "mape"
               empty_ensemble) in
      dict_get "A" (ensemble.weights after) = Some (dec 2 3)
      /\ dict_get "B" (ensemble.weights after) = Some (dec 1 3)
      /\ dec 1 3 < dec 2 3
      /\ dec 2 3 = (1 / dec 10 1) / (1 / dec 10 1 + 1 / dec 20 1)).
Proof.
  split.
  - intros self metrics metric Hs Ht new_weights. split; [|split].
    + apply auto_weight_run; assumption.
    + unfold new_weights, inverse_error_weights, dict_keys.
      rewrite map_map. reflexivity.
    + rewrite py_sum_qsum. unfold new_weights, inverse_error_weights,
        dict_values. rewrite map_map. cbn [snd].
      rewrite <- (map_map (fun e => 1 / score metric (snd e))
                          (fun x => x / inverse_total metrics metric)).
      rewrite qsum_div by exact Ht.
      fold (inverse_total metrics metric). field. exact Ht.
  - cbv zeta. repeat split.
    + apply some_qc_eq. vm_compute. reflexivity.
    + apply some_qc_eq. vm_compute. reflexivity.
    + apply Qc_is_canon. vm_compute. reflexivity.
Qed.

(** C2 does not reach the empty record: no model is listed, the call
    succeeds, and the stored weights sum to 0. *)
Lemma C2_empty_record_counterexample :
  let r := ensemble.auto_weight_by_performance [] "mape" empty_ensemble in
  (forall name per_model, In (name, per_model) (@nil (string * dict Qc)) ->
     exists s, dict_get "mape" per_model = Some s /\ s <> 0)
  /\ fst r = Ok tt
  /\ ensemble.weights (snd r) = []
  /\ py_sum (dict_values (ensemble.weights (snd r))) <> 1.
Proof.
  cbv zeta. split; [intros ? ? []|]. split; [reflexivity|].
  split; [reflexivity|]. discriminate.
Qed.

Lemma validate_names_ok (self : ensemble.EnsembleForecaster)
    (names : list string) :
  (forall k, In k names -> In k (dict_keys (ensemble.models self))) ->
  validate_names names self = (Ok tt, self).
Proof.
  unfold validate_names.
  induction names as [|k names IH]; intros H; [reflexivity|].
  cbn [for_each]. unfold bind at 1. unfold bind at 1. unfold get at 1.
  replace (dict_mem k (ensemble.models self)) with true
    by (symmetry; apply dict_mem_keys, H; now left).
  cbn [negb when ret]. apply IH. intros k' Hk'. apply H. now right.
Qed.

Lemma validate_names_fail (self : ensemble.EnsembleForecaster)
    (names : list string) :
  (exists k, In k names /\ ~ In k (dict_keys (ensemble.models self))) ->
  validate_names names self
  = (Raise (ValueError "Model not found in ensemble"), self).
Proof.
  unfold validate_names.
  induction names as [|k names IH]; intros (k0 & Hin & Hk0); [destruct Hin|].
  cbn [for_each]. unfold bind at 1. unfold bind at 1. unfold get at 1.
  destruct (dict_mem k (ensemble.models self)) eqn:E; cbn [negb when].
  - cbn [ret]. apply IH. exists k0. split; [|exact Hk0].
    destruct Hin as [->|Hin]; [|exact Hin].
    apply dict_mem_keys in E. contradiction.
  - reflexivity.
Qed.

Lemma all_registered_dec (self : ensemble.EnsembleForecaster)
    (names : list string) :
  (forall k, In k names -> In k (dict_keys (ensemble.models self)))
  \/ (exists k, In k names /\ ~ In k (dict_keys (ensemble.models self))).
Proof.
  induction names as [|k names [IH|(k0 & Hin & Hk0)]].
  - left. intros k [].
  - destruct (in_dec string_dec k (dict_keys (ensemble.models self)))
      as [Hk|Hk].
    + left. intros k' [<-|Hk']; [exact Hk | now apply IH].
    + right. exists k. split; [now left | exact Hk].
  - right. exists k0. split; [now right | exact Hk0].
Qed.

Lemma set_weights_unfold (self : ensemble.EnsembleForecaster)
    (new_weights : dict Qc) :
  ensemble.set_weights new_weights self
  = if gtb (Qcabs (py_sum (dict_values new_weights) - 1)) tol
    then (Raise (ValueError "Weights must sum to 1.0"), self)
    else match validate_names (dict_keys new_weights) self with
         | (Ok _, s') => (Ok tt, ensemble.with_weights s' new_weights)
         | (Raise e, s') => (Raise e, s')
         end.
Proof.
  unfold ensemble.set_weights. unfold bind at 1.
  destruct (gtb (Qcabs (py_sum (dict_values new_weights) - 1)) tol);
    cbn [when raise ret]; [reflexivity|].
  unfold bind at 1. fold (validate_names (dict_keys new_weights)).
  destruct (validate_names (dict_keys new_weights) self) as [[u|e] s'];
    reflexivity.
Qed.

(** C6.  [set_weights] raises [ValueError] exactly when the proposed
    weights sum to something further than 1e-6 from 1 or name a model that
    is not registered; when it raises, the ensemble is as it was before the
    call, and when it does not, the stored weight map is the argument and
    nothing else has changed. *)
Theorem C6_set_weights_all_or_nothing
    (self : ensemble.EnsembleForecaster) (new_weights : dict Qc) :
  (invalid_weights self new_weights ->
     exists msg,
       ensemble.set_weights new_weights self = (Raise (ValueError msg), self))
  /\ (~ invalid_weights self new_weights ->
        ensemble.set_weights new_weights self
        = (Ok tt, ensemble.with_weights self new_weights)
        /\ ensemble.weights (ensemble.with_weights self new_weights)
           = new_weights).
Proof.
  rewrite set_weights_unfold. unfold invalid_weights.
  destruct (gtb (Qcabs (py_sum (dict_values new_weights) - 1)) tol) eqn:Esum.
  - apply gtb_spec in Esum. split.
    + intros _. eexists. reflexivity.
    + intros H. exfalso. apply H. now left.
  - assert (Hsum : ~ tol < Qcabs (py_sum (dict_values new_weights) - 1)).
    { intros H. apply gtb_spec in H. congruence. }
    destruct (all_registered_dec self (dict_keys new_weights)) as [Hall|Hex].
    + rewrite (validate_names_ok _ _ Hall). split.
      * intros [H|(k & Hin & Hk)]; [contradiction|].
        exfalso. apply Hk, Hall, Hin.
      * intros _. split; reflexivity.
    + rewrite (validate_names_fail _ _ Hex). split.
      * intros _. eexists. reflexivity.
      * intros H. exfalso. apply H. now right.
Qed.

Lemma collect_prediction_all_fail (self : ensemble.EnsembleForecaster)
    (train_data : ndarray) (steps : Z) (ms : dict ensemble.Model)
    (acc : dict ndarray) :
  (forall name model, In (name, model) ms ->
     dict_mem name (ensemble.weights self) = true ->
     invoke name model train_data steps = None) ->
  fold_left (ensemble.collect_prediction self train_data steps) ms acc = acc.
Proof.
  revert acc. induction ms as [|[name model] ms IH]; intros acc H;
    [reflexivity|].
  cbn [fold_left].
  assert (Hstep : ensemble.collect_prediction self train_data steps acc
                    (name, model) = acc).
  { unfold ensemble.collect_prediction.
    destruct (dict_mem name (ensemble.weights self)) eqn:E; [|reflexivity].
    specialize (H name model (or_introl eq_refl) E). unfold invoke in H.
    cbn [negb]. destruct (ensemble.predict model) as [call|]; [|reflexivity].
    destruct (if String.eqb name "lstm" then call (Some train_data) steps
              else call None steps); [discriminate | reflexivity]. }
  rewrite Hstep. apply IH. intros n m Hin. apply H. now right.
Qed.

(** C5.  With an empty weight map [predict_volume] raises [ValueError].
    With a weight map that is not empty, if every registered and weighted
    model has no [predict] or raises when invoked, [predict_volume] raises
    nothing and returns [steps] zeros ([steps] being a length, hence not
    negative). *)
Theorem C5_predict_volume_no_weights_or_all_failed :
  (forall (self : ensemble.EnsembleForecaster) (train_data : ndarray)
          (steps : Z),
      ensemble.weights self = [] ->
      ensemble.predict_volume train_data steps self
      = (Raise (ValueError "Weights must be set before prediction"), self))
  /\ (forall (self : ensemble.EnsembleForecaster) (train_data : ndarray)
             (steps : Z),
        ensemble.weights self <> [] ->
        (0 <= steps)%Z ->
        (forall name model, In (name, model) (ensemble.models self) ->
           dict_mem name (ensemble.weights self) = true ->
           invoke name model train_data steps = None) ->
        ensemble.predict_volume train_data steps self
        = (Ok (repeat 0 (Z.to_nat steps)), self)
        /\ List.length (repeat (Q2Qc 0) (Z.to_nat steps)) = Z.to_nat steps).
Proof.
  split.
  - intros self train_data steps Hw.
    unfold ensemble.predict_volume, bind, get. rewrite Hw. reflexivity.
  - intros self train_data steps Hw Hsteps Hfail. split; [|apply repeat_length].
    unfold ensemble.predict_volume, bind, get.
    destruct (ensemble.weights self) as [|w0 ws] eqn:Ew; [congruence|].
    cbn [dict_is_empty].
    rewrite collect_prediction_all_fail
      by (rewrite Ew; exact Hfail).
    unfold lift. rewrite (np_zeros_ok Hsteps). reflexivity.
Qed.

(** ** The weight map names registered models only *)

Lemma add_model_registered (self : ensemble.EnsembleForecaster)
    (name : string) (model : ensemble.Model) (weight : option Qc) :
  weights_registered self ->
  weights_registered (snd (ensemble.add_model name model weight self)).
Proof.
  unfold weights_registered. intros H k.
  unfold ensemble.add_model, bind, modify, ret.
  destruct weight as [wt|];
    unfold ensemble.with_weights, ensemble.with_models;
    cbn [snd ensemble.weights ensemble.models]; rewrite !dict_set_keys.
  - intros [->|Hk]; [now left | right; now apply H].
  - intros Hk. right. now apply H.
Qed.

Lemma set_weights_registered (self : ensemble.EnsembleForecaster)
    (new_weights : dict Qc) :
  weights_registered self ->
  weights_registered (snd (ensemble.set_weights new_weights self)).
Proof.
  intros H. rewrite set_weights_unfold.
  destruct (gtb (Qcabs (py_sum (dict_values new_weights) - 1)) tol);
    [exact H|].
  destruct (all_registered_dec self (dict_keys new_weights)) as [Hall|Hex].
  - rewrite (validate_names_ok _ _ Hall). exact Hall.
  - rewrite (validate_names_fail _ _ Hex). exact H.
Qed.

Lemma auto_weight_registered (self : ensemble.EnsembleForecaster)
    (metrics : dict (dict Qc)) (metric : string) :
  (forall k, In k (dict_keys metrics) ->
             In k (dict_keys (ensemble.models self))) ->
  (forall name per_model, In (name, per_model) metrics ->
     exists s, dict_get metric per_model = Some s /\ s <> 0) ->
  inverse_total metrics metric <> 0 ->
  weights_registered
    (snd (ensemble.auto_weight_by_performance metrics metric self)).
Proof.
  intros Hreg Hs Ht. rewrite auto_weight_run by assumption.
  intros k Hk. apply Hreg. cbn in Hk.
  unfold inverse_error_weights, dict_keys in Hk. rewrite map_map in Hk.
  exact Hk.
Qed.

Lemma predict_volume_registered (self : ensemble.EnsembleForecaster)
    (train_data : ndarray) (steps : Z) :
  snd (ensemble.predict_volume train_data steps self) = self.
Proof.
  unfold ensemble.predict_volume, bind, get, lift, raise, ret.
  destruct (dict_is_empty (ensemble.weights self)); [reflexivity|].
  destruct (np_zeros steps) as [zeros|e]; [|reflexivity].
  destruct (fold_result _ _ _) as [[p t]|e]; [|reflexivity].
  destruct (gtb t 0 && gtb (Qcabs (t - 1)) tol); reflexivity.
Qed.

(** C4.  [auto_weight_by_performance] does not keep the weight map within
    the registered models: on an ensemble holding [sarima] alone, where the
    invariant holds, a record that also lists [prophet] is accepted, and
    afterwards [prophet] has a weight and no model. *)
Theorem C4_auto_weight_breaks_registered_invariant :
  let r := ensemble.auto_weight_by_performance record_with_stranger "mape"
             sarima_only in
  weights_registered sarima_only
  /\ fst r = Ok tt
  /\ dict_keys (ensemble.weights (snd r)) = ["sarima"; "prophet"]
  /\ dict_keys (ensemble.models (snd r)) = ["sarima"]
  /\ ~ weights_registered (snd r).
Proof.
  cbv zeta. split; [|split; [|split; [|split]]].
  - intros k Hk. exact Hk.
  - reflexivity.
  - reflexivity.
  - reflexivity.
  - intros H. specialize (H "prophet").
    assert (Hin : In "prophet" ["sarima"]) by (apply H; right; now left).
    destruct Hin as [Heq|[]]. discriminate Heq.
Qed.

(* ------------------------------------------------------------------ *)
(** * Properties of the forecast service *)

Lemma nth_map_seq (g : nat -> Qc) (n i : nat) (d : Qc) :
  (i < n)%nat -> nth i (map g (seq 0 n)) d = g i.
Proof.
  intros Hi.
  rewrite (nth_indep _ d (g 0%nat)) by (rewrite length_map, length_seq; lia).
  rewrite (map_nth g (seq 0 n) 0%nat i), seq_nth by exact Hi. reflexivity.
Qed.

Lemma simple_projection_forecast (horizon : Z) :
  inference.forecast (inference._simple_projection horizon)
  = map (fun k => dec 44594 1 * Qcpower (1 + dec 3 100) (S k))
        (seq 0 (Z.to_nat horizon)).
Proof.
  unfold inference._simple_projection, inference.range.
  cbn [inference.forecast]. rewrite map_map.
  replace (Z.to_nat (horizon + 1 - 1)) with (Z.to_nat horizon)
    by (f_equal; lia).
  apply map_ext. intros k.
  unfold inference.pow, inference.current, inference.growth_rate.
  replace (Z.to_nat (1 + Z.of_nat k)) with (S k) by lia.
  reflexivity.
Qed.

Lemma simple_projection_length (horizon : Z) :
  List.length (inference.forecast (inference._simple_projection horizon))
  = Z.to_nat horizon.
Proof.
  rewrite simple_projection_forecast, length_map, length_seq. reflexivity.
Qed.

Lemma simple_projection_nth (horizon : Z) (i : nat) :
  (i < Z.to_nat horizon)%nat ->
  nth i (inference.forecast (inference._simple_projection horizon)) 0
  = dec 44594 1 * Qcpower (1 + dec 3 100) (S i).
Proof.
  intros Hi. rewrite simple_projection_forecast.
  apply (nth_map_seq
           (fun k => dec 44594 1 * Qcpower (1 + dec 3 100) (S k)) 0 Hi).
Qed.

(** C9.  When the requested model is not loaded, or serving the request
    with it raises, [forecast_volume] raises nothing and returns the
    projection [forecast[i] = 44594 * 1.03^(i+1)] for [i < horizon], with
    the bounds [0.95 * forecast[i]] and [1.05 * forecast[i]]. *)
Theorem C9_forecast_volume_falls_back
    (self : inference.ForecastService) (horizon : Z) (model : string)
    (include_intervals : bool) :
  model_unavailable self horizon model include_intervals ->
  exists fc,
    inference.forecast_volume self horizon model include_intervals = Ok fc
    /\ List.length (inference.forecast fc) = Z.to_nat horizon
    /\ (forall i, (i < Z.to_nat horizon)%nat ->
          nth i (inference.forecast fc) 0
          = dec 44594 1 * Qcpower (1 + dec 3 100) (S i))
    /\ inference.ci_lower fc
       = Some (map (fun f => f * dec 95 100) (inference.forecast fc))
    /\ inference.ci_upper fc
       = Some (map (fun f => f * dec 105 100) (inference.forecast fc)).
Proof.
  intros Hbroken. exists (inference._simple_projection horizon).
  split; [|split; [|split; [|split]]].
  - unfold inference.forecast_volume.
    destruct Hbroken as [Hnone|(model_obj & e & Hsome & Hraise)].
    + rewrite Hnone. reflexivity.
    + rewrite Hsome, Hraise. reflexivity.
  - apply simple_projection_length.
  - apply simple_projection_nth.
  - reflexivity.
  - reflexivity.
Qed.

(** [forecast_volume] never raises, whatever the request. *)
Lemma forecast_volume_total (self : inference.ForecastService)
    (horizon : Z) (model : string) (include_intervals : bool) :
  exists fc,
    inference.forecast_volume self horizon model include_intervals = Ok fc.
Proof.
  unfold inference.forecast_volume.
  destruct (dict_get model (inference.models self)) as [model_obj|];
    [|eexists; reflexivity].
  destruct (inference.dispatch model_obj horizon model include_intervals);
    eexists; reflexivity.
Qed.

Lemma C9_witness :
  exists fc,
    inference.forecast_volume broken_service 4 "sarima" true = Ok fc
    /\ List.length (inference.forecast fc) = Z.to_nat 4
    /\ (forall i, (i < Z.to_nat 4)%nat ->
          nth i (inference.forecast fc) 0
          = dec 44594 1 * Qcpower (1 + dec 3 100) (S i))
    /\ inference.ci_lower fc
       = Some (map (fun f => f * dec 95 100) (inference.forecast fc))
    /\ inference.ci_upper fc
       = Some (map (fun f => f * dec 105 100) (inference.forecast fc)).
Proof.
  apply (@C9_forecast_volume_falls_back broken_service 4 "sarima" true).
  right. exists failing_model, (ModelFailure "not fitted").
  split; reflexivity.
Defined.

(** * Properties of the scenario simulator *)

(** ** The store *)

Lemma list_set_fresh A (h : list A) (a a' : A) (rest : list A) :
  exogenous.list_set (List.length h) a' (h ++ a :: rest) = h ++ a' :: rest.
Proof. induction h as [|x h IH]; simpl; [reflexivity | now rewrite IH]. Qed.

Lemma nth_error_fresh A (h : list A) (a : A) (rest : list A) :
  nth_error (h ++ a :: rest) (List.length h) = Some a.
Proof. induction h as [|x h IH]; simpl; [reflexivity | exact IH]. Qed.

Lemma nth_error_old A (h extra : list A) (r : nat) (a : A) :
  nth_error h r = Some a -> nth_error (h ++ extra) r = Some a.
Proof.
  intros H. rewrite nth_error_app1; [exact H|].
  apply nth_error_Some. congruence.
Qed.

Lemma with_heap_twice (s : exogenous.Store) (h h' : list ndarray) :
  exogenous.with_heap (exogenous.with_heap s h) h' = exogenous.with_heap s h'.
Proof. reflexivity. Qed.

(** The loop over the custom shocks rewrites the fresh array and nothing
    else. *)
Lemma shocks_loop (defs : exogenous.Catalog) (h : list ndarray)
    (shocks : list exogenous.CustomShock) (t : ndarray) :
  for_each shocks (fun shock =>
      bind (exogenous.np_read (List.length h))
        (fun a => exogenous.np_write (List.length h)
                    (map (fun x => x + exogenous.impact shock) a)))
    {| exogenous.event_definitions := defs; exogenous.heap := h ++ [t] |}
  = (Ok tt,
     {| exogenous.event_definitions := defs;
        exogenous.heap := h ++ [after_shocks shocks t] |}).
Proof.
  revert t. induction shocks as [|sh shocks IH]; intros t; [reflexivity|].
  cbn [for_each]. unfold bind at 1. unfold bind at 1.
  unfold exogenous.np_read at 1. cbn [exogenous.heap].
  rewrite nth_error_fresh.
  unfold exogenous.np_write at 1. cbn [exogenous.heap].
  rewrite nth_error_fresh, list_set_fresh.
  unfold exogenous.with_heap. cbn [exogenous.event_definitions].
  rewrite IH. reflexivity.
Qed.

Lemma after_shocks_sum (shocks : list exogenous.CustomShock) (t : ndarray) :
  after_shocks shocks t = map (fun x => x + shock_sum shocks) t.
Proof.
  unfold after_shocks, shock_sum. revert t.
  induction shocks as [|sh shocks IH]; intros t; cbn [fold_left map].
  - rewrite <- (map_id t) at 1. apply map_ext. intros x.
    unfold qsum. cbn. ring.
  - rewrite IH, map_map. apply map_ext. intros x.
    unfold qsum. cbn [fold_right]. ring.
Qed.

(** ** Feature frames keep their shape *)

Lemma dict_set_In V (k : string) (v : V) (d : dict V) (x : string * V) :
  In x (dict_set k v d) -> snd x = v \/ In x d.
Proof.
  induction d as [|[k' v'] d IH]; simpl.
  - intros [<-|[]]. now left.
  - destruct (String.eqb_spec k k') as [->|_]; simpl.
    + intros [<-|H]; [now left | right; now right].
    + intros [<-|H]; [right; now left|].
      destruct (IH H) as [Hv|Hin]; [now left | right; now right].
Qed.

Lemma mask_assign_length (mask : list bool) (c : Qc) (col : ndarray) :
  List.length (mask_assign mask c col) = List.length col.
Proof.
  revert col; induction mask as [|m mask IH]; intros [|x col]; simpl;
    try reflexivity.
  now rewrite IH.
Qed.

Lemma fold_result_inv A B (P : A -> Prop) (f : A -> B -> result A)
    (l : list B) :
  (forall a b a', P a -> f a b = Ok a' -> P a') ->
  forall a a', P a -> fold_result f l a = Ok a' -> P a'.
Proof.
  intros Hf. induction l as [|b l IH]; intros a a' Ha; simpl.
  - intros [= <-]. exact Ha.
  - destruct (f a b) as [a1|e] eqn:E; simpl; [|discriminate].
    apply IH. exact (Hf a b a1 Ha E).
Qed.

Lemma df_new_shaped (date_range : list Timestamp) :
  shaped date_range (df_new date_range).
Proof. split; [reflexivity | intros name col []]. Qed.

Lemma df_set_scalar_shaped date_range name c df :
  shaped date_range df -> shaped date_range (df_set_scalar name c df).
Proof.
  intros [Hi Hwf]. split; [exact Hi|].
  intros n col Hin. cbn [columns index df_set_scalar] in *.
  apply dict_set_In in Hin as [Hv|Hin]; [|now apply (Hwf n)].
  cbn [snd] in Hv. subst col. apply repeat_length.
Qed.

Lemma df_loc_set_shaped date_range mask name c df df' :
  shaped date_range df -> df_loc_set mask name c df = Ok df' ->
  shaped date_range df'.
Proof.
  intros [Hi Hwf]. unfold df_loc_set, dict_index.
  destruct (dict_get name (columns df)) as [col|] eqn:E; simpl;
    [|discriminate].
  intros [= <-]. split; [exact Hi|].
  intros n col' Hin. cbn [columns index] in *.
  apply dict_set_In in Hin as [Hv|Hin]; [|now apply (Hwf n)].
  cbn [snd] in Hv. subst col'. rewrite mask_assign_length.
  apply (Hwf name). now apply dict_get_In.
Qed.

Lemma add_event_shaped date_range defs df e df' :
  shaped date_range df -> exogenous.add_event defs df e = Ok df' ->
  shaped date_range df'.
Proof.
  intros Hdf. unfold exogenous.add_event.
  destruct (exogenous.lookup_event e defs) as [def|]; cbn [rbind]; [|discriminate].
  set (name := ("exog_" ++ exogenous.value e)%string).
  pose proof (df_set_scalar_shaped name 0 Hdf) as H0.
  destruct (match exogenous.historical_periods def with
            | Some periods =>
                fold_result
                  (exogenous.apply_period name
                     (exogenous.impact_multiplier def))
                  periods (df_set_scalar name 0 df)
            | None => Ok (df_set_scalar name 0 df)
            end) as [df1|err] eqn:E1; cbn [rbind]; [|discriminate].
  assert (H1 : shaped date_range df1).
  { destruct (exogenous.historical_periods def) as [periods|].
    - revert E1. apply fold_result_inv; [|exact H0].
      intros a p a' Ha. unfold exogenous.apply_period.
      destruct (to_datetime (exogenous.start p)); cbn [rbind]; [|discriminate].
      destruct (to_datetime (exogenous.end_ p)); cbn [rbind]; [|discriminate].
      now apply df_loc_set_shaped.
    - injection E1 as <-. exact H0. }
  destruct (exogenous.seasonal_pattern def) as [pattern|].
  - apply fold_result_inv; [|exact H1].
    intros a [q intensity] a' Ha. unfold exogenous.apply_quarter.
    destruct (py_int (remove_char "Q" q)); cbn [rbind]; [|discriminate].
    destruct (existsb _ _).
    + now apply df_loc_set_shaped.
    + intros [= <-]. exact Ha.
  - intros [= <-]. exact H1.
Qed.

Lemma features_shaped (s : exogenous.Store) (date_range : list Timestamp)
    (scenario : exogenous.Scenario) (df : DataFrame) :
  features_of s date_range scenario = Ok df -> shaped date_range df.
Proof.
  unfold features_of. apply fold_result_inv.
  - intros a e a'. apply add_event_shaped.
  - apply df_new_shaped.
Qed.

Lemma sum_columns_length (cols : list ndarray) (acc : ndarray) :
  (forall col, In col cols -> List.length col = List.length acc) ->
  List.length (fold_left (zip_with Qcplus) cols acc) = List.length acc.
Proof.
  revert acc. induction cols as [|c cols IH]; intros acc H; simpl;
    [reflexivity|].
  assert (Hc : List.length (zip_with Qcplus acc c) = List.length acc).
  { apply zip_with_length. symmetry. apply H. now left. }
  rewrite IH; [exact Hc|].
  intros col Hcol. rewrite Hc. apply H. now right.
Qed.

Lemma df_sum_rows_length date_range df :
  shaped date_range df ->
  List.length (df_sum_rows df) = List.length date_range.
Proof.
  intros [Hi Hwf]. unfold df_sum_rows.
  rewrite sum_columns_length; rewrite repeat_length, ?Hi; [reflexivity|].
  intros col Hcol. unfold dict_values in Hcol.
  apply in_map_iff in Hcol as ([n c] & <- & Hin).
  rewrite <- Hi. now apply (Hwf n).
Qed.

(** ** One call of [simulate_scenario], step by step *)

(** The outcome of a call in every case: the value or the exception, and
    the store as the call leaves it.  The three arrays the call allocates
    are [total_impact], [1 + total_impact] and the adjusted forecast. *)
Lemma simulate_scenario_unfold (defs : exogenous.Catalog) (h : list ndarray)
    (base : exogenous.ref) (date_range : list Timestamp)
    (scenario : exogenous.Scenario) :
  let s := {| exogenous.event_definitions := defs; exogenous.heap := h |} in
  let st := fun h' => {| exogenous.event_definitions := defs;
                         exogenous.heap := h' |} in
  exogenous.simulate_scenario base date_range scenario s
  = match features_of s date_range scenario with
    | Raise e => (Raise e, s)
    | Ok exog_df =>
        let t := after_shocks
                   (exogenous.get_or (exogenous.custom_shocks scenario) [])
                   (df_sum_rows exog_df) in
        let f := np_add_scalar 1 t in
        match nth_error (h ++ [t; f]) base with
        | None => (Raise exogenous.dangling, st (h ++ [t; f]))
        | Some b =>
            match np_mul b f with
            | Raise e => (Raise e, st (h ++ [t; f]))
            | Ok product =>
                match np_min t, np_max t with
                | Ok mn, Ok mx =>
                    (Ok {| exogenous.scenario_name :=
                             exogenous.get_or (exogenous.sc_name scenario)
                                              "Unnamed Scenario";
                           exogenous.base_forecast := b;
                           exogenous.adjusted_forecast := product;
                           exogenous.total_impact_pct :=
                             np_scale (dec 100 1) t;
                           exogenous.summary :=
                             {| exogenous.avg_impact_pct :=
                                  np_mean t * dec 100 1;
                                exogenous.max_negative_impact_pct :=
                                  mn * dec 100 1;
                                exogenous.max_positive_impact_pct :=
                                  mx * dec 100 1;
                                exogenous.events_included :=
                                  map exogenous.value
                                    (exogenous.get_or
                                       (exogenous.events scenario) []) |};
                           exogenous.exogenous_features := exog_df |},
                     st (h ++ [t; f; product]))
                | Raise e, _ => (Raise e, st (h ++ [t; f; product]))
                | Ok _, Raise e => (Raise e, st (h ++ [t; f; product]))
                end
            end
        end
    end.
Proof.
  intros s st. unfold exogenous.simulate_scenario.
  unfold bind at 1. unfold exogenous.create_exogenous_features.
  unfold bind at 1. unfold get at 1. unfold lift at 1.
  fold (features_of s date_range scenario).
  destruct (features_of s date_range scenario) as [exog_df|e];
    [|reflexivity].
  set (shocks := exogenous.get_or (exogenous.custom_shocks scenario) []).
  set (t := after_shocks shocks (df_sum_rows exog_df)).
  set (f := np_add_scalar 1 t).
  unfold bind at 1. unfold exogenous.np_new at 1.
  unfold exogenous.with_heap. cbn [exogenous.heap exogenous.event_definitions s].
  unfold bind at 1.
  assert (Hloop :
    match exogenous.custom_shocks scenario with
    | Some shocks0 =>
        for_each shocks0 (fun shock =>
          bind (exogenous.np_read (List.length h))
            (fun a => exogenous.np_write (List.length h)
                        (map (fun x => x + exogenous.impact shock) a)))
    | None => ret tt
    end {| exogenous.event_definitions := defs;
           exogenous.heap := h ++ [df_sum_rows exog_df] |}
    = (Ok tt, st (h ++ [t]))).
  { unfold t, shocks.
    destruct (exogenous.custom_shocks scenario) as [shocks0|];
      [apply shocks_loop | reflexivity]. }
  rewrite Hloop. clear Hloop. unfold st.
  unfold bind at 1. unfold exogenous.np_read at 1. cbn [exogenous.heap].
  rewrite nth_error_fresh.
  unfold bind at 1. unfold exogenous.np_new at 1.
  unfold exogenous.with_heap. cbn [exogenous.heap exogenous.event_definitions].
  fold f. rewrite <- app_assoc. cbn [app].
  unfold bind at 1. unfold exogenous.np_read at 1. cbn [exogenous.heap].
  destruct (nth_error (h ++ [t; f]) base) as [b|] eqn:Hb; [|reflexivity].
  unfold bind at 1. unfold exogenous.np_read at 1. cbn [exogenous.heap].
  rewrite length_app. cbn [List.length].
  replace (List.length h + 1)%nat with (List.length (h ++ [t]))
    by (rewrite length_app; reflexivity).
  change (h ++ [t; f]) with (h ++ [t] ++ [f]). rewrite app_assoc.
  rewrite nth_error_fresh. rewrite <- app_assoc. cbn [app].
  unfold bind at 1. unfold lift at 1.
  destruct (np_mul b f) as [product|e]; [|reflexivity].
  unfold bind at 1. unfold exogenous.np_new at 1.
  unfold exogenous.with_heap. cbn [exogenous.heap exogenous.event_definitions].
  rewrite <- app_assoc. cbn [app].
  unfold bind at 1. unfold exogenous.np_read at 1. cbn [exogenous.heap].
  rewrite nth_error_fresh.
  unfold bind at 1. unfold lift at 1.
  destruct (np_min t) as [mn|e]; [|reflexivity].
  unfold bind at 1. unfold lift at 1.
  destruct (np_max t) as [mx|e]; [|reflexivity].
  unfold bind at 1. unfold exogenous.np_read at 1. cbn [exogenous.heap].
  change (h ++ [t; f; product]) with (h ++ [t; f] ++ [product]).
  rewrite app_assoc. rewrite (nth_error_old _ [product] _ Hb).
  unfold bind at 1. unfold exogenous.np_read at 1. cbn [exogenous.heap].
  rewrite length_app. cbn [List.length].
  replace (List.length h + 2)%nat with (List.length (h ++ [t; f]))
    by (rewrite length_app; reflexivity).
  rewrite nth_error_fresh. unfold ret. rewrite <- app_assoc. reflexivity.
Qed.

(** ** Scenarios without events *)

Lemma features_no_events (s : exogenous.Store) (date_range : list Timestamp)
    (scenario : exogenous.Scenario) :
  no_events scenario ->
  features_of s date_range scenario = Ok (df_new date_range).
Proof. unfold no_events, features_of. intros ->. reflexivity. Qed.

Lemma zip_with_mul_one (b : ndarray) (n : nat) :
  List.length b = n -> zip_with Qcmult b (repeat (1 + 0) n) = b.
Proof.
  revert n; induction b as [|x b IH]; intros [|n]; simpl; try discriminate.
  - reflexivity.
  - intros [= H]. rewrite (IH n H). f_equal. ring.
Qed.

Lemma zip_with_mul_const (b : ndarray) (n : nat) (c : Qc) :
  List.length b = n ->
  zip_with Qcmult b (repeat c n) = map (fun x => x * c) b.
Proof.
  revert n; induction b as [|x b IH]; intros [|n]; simpl; try discriminate.
  - reflexivity.
  - intros [= H]. now rewrite (IH n H).
Qed.

Lemma np_mul_same (a b : ndarray) :
  List.length a = List.length b -> np_mul a b = Ok (zip_with Qcmult a b).
Proof. intros H. unfold np_mul. rewrite H, Nat.eqb_refl. reflexivity. Qed.

Lemma np_min_ok (a : ndarray) : a <> [] -> exists m, np_min a = Ok m.
Proof. destruct a; [congruence | eexists; reflexivity]. Qed.

Lemma np_max_ok (a : ndarray) : a <> [] -> exists m, np_max a = Ok m.
Proof. destruct a; [congruence | eexists; reflexivity]. Qed.

Lemma map_repeat A B (g : A -> B) (x : A) (n : nat) :
  map g (repeat x n) = repeat (g x) n.
Proof. induction n; simpl; [reflexivity | now rewrite IHn]. Qed.

Lemma repeat_as_map A B (l : list A) (c : B) :
  repeat c (List.length l) = map (fun _ => c) l.
Proof. induction l; simpl; [reflexivity | now f_equal]. Qed.

(** What a call returns when the scenario enables no event: the total
    impact is the sum of the shocks at every period. *)
Lemma simulate_no_events (defs : exogenous.Catalog) (h : list ndarray)
    (base : exogenous.ref) (b : ndarray) (date_range : list Timestamp)
    (scenario : exogenous.Scenario) :
  let s := {| exogenous.event_definitions := defs; exogenous.heap := h |} in
  let c := shock_sum
             (exogenous.get_or (exogenous.custom_shocks scenario) []) in
  nth_error h base = Some b ->
  List.length b = List.length date_range ->
  date_range <> [] ->
  no_events scenario ->
  exists res s',
    exogenous.simulate_scenario base date_range scenario s = (Ok res, s')
    /\ exogenous.base_forecast res = b
    /\ exogenous.total_impact_pct res
       = map (fun _ => dec 100 1 * (0 + c)) date_range
    /\ exogenous.adjusted_forecast res = map (fun x => x * (1 + (0 + c))) b.
Proof.
  intros s c Hb Hlen Hne Hev.
  unfold s. rewrite simulate_scenario_unfold. cbv zeta.
  rewrite features_no_events by exact Hev.
  unfold df_sum_rows. cbn [df_new columns index dict_values map fold_left].
  rewrite after_shocks_sum. fold c.
  rewrite map_repeat. unfold np_add_scalar. rewrite map_repeat.
  rewrite (nth_error_old _ _ _ Hb).
  rewrite np_mul_same by (rewrite repeat_length; exact Hlen).
  rewrite <- Hlen, zip_with_mul_const by reflexivity.
  destruct date_range as [|d ds]; [congruence|].
  destruct b as [|x b]; [discriminate|].
  cbn [List.length repeat np_min np_max].
  eexists. eexists. split; [reflexivity|].
  cbn [exogenous.base_forecast exogenous.total_impact_pct
       exogenous.adjusted_forecast].
  split; [reflexivity|]. split; [|reflexivity].
  unfold np_scale. cbn [map]. f_equal.
  rewrite map_repeat.
  injection Hlen as Hlen. rewrite Hlen. apply repeat_as_map.
Qed.

(** C3.  Every custom shock is added to [total_impact] at every period,
    whatever period it declares: with [total_impact] the row sums of the
    feature frame plus the sum of all shock impacts, the call returns
    [100 * total_impact] and [base_forecast[i] * (1 + total_impact[i])].
    For the single shock [{period: "2024-Q3", impact: -0.2}] over the four
    quarters of 2024 and no event, the total impact is -0.2 (-20 percent)
    at all four periods. *)
Theorem C3_custom_shock_applies_to_every_period :
  (forall (defs : exogenous.Catalog) (h : list ndarray)
          (base : exogenous.ref) (b : ndarray)
          (date_range : list Timestamp) (scenario : exogenous.Scenario)
          (exog_df : DataFrame),
      let s := {| exogenous.event_definitions := defs;
                  exogenous.heap := h |} in
      let shocks := exogenous.get_or (exogenous.custom_shocks scenario) [] in
      let total_impact :=
        map (fun x => x + shock_sum shocks) (df_sum_rows exog_df) in
      nth_error h base = Some b ->
      List.length b = List.length date_range ->
      date_range <> [] ->
      features_of s date_range scenario = Ok exog_df ->
      exists res s',
        exogenous.simulate_scenario base date_range scenario s = (Ok res, s')
        /\ List.length total_impact = List.length date_range
        /\ exogenous.total_impact_pct res
           = map (fun x => dec 100 1 * x) total_impact
        /\ exogenous.adjusted_forecast res
           = zip_with Qcmult b (map (fun x => 1 + x) total_impact))
  /\ (forall (defs : exogenous.Catalog) (h : list ndarray)
             (base : exogenous.ref) (b : ndarray),
        let s := {| exogenous.event_definitions := defs;
                    exogenous.heap := h |} in
        nth_error h base = Some b ->
        List.length b = 4%nat ->
        exists res s',
          exogenous.simulate_scenario base quarters_2024 single_shock s
          = (Ok res, s')
          /\ exogenous.total_impact_pct res
             = map (fun x => dec 100 1 * x)
                   [dec (-2) 10; dec (-2) 10; dec (-2) 10; dec (-2) 10]
          /\ exogenous.adjusted_forecast res
             = map (fun x => x * (1 + dec (-2) 10)) b).
Proof.
  split.
  - intros defs h base b date_range scenario exog_df s shocks total_impact
           Hb Hlen Hne Hdf.
    assert (Ht : List.length total_impact = List.length date_range).
    { unfold total_impact. rewrite length_map.
      apply df_sum_rows_length, (features_shaped _ _ _ Hdf). }
    unfold s in *. rewrite simulate_scenario_unfold. cbv zeta.
    rewrite Hdf. rewrite after_shocks_sum.
    fold shocks. fold total_impact.
    rewrite (nth_error_old _ _ _ Hb).
    rewrite np_mul_same
      by (unfold np_add_scalar; rewrite length_map; congruence).
    destruct (np_min_ok (a := total_impact)) as [mn ->].
    { intros E. rewrite E in Ht. destruct date_range; [congruence|].
      discriminate. }
    destruct (np_max_ok (a := total_impact)) as [mx ->].
    { intros E. rewrite E in Ht. destruct date_range; [congruence|].
      discriminate. }
    eexists. eexists. split; [reflexivity|].
    split; [exact Ht|]. split; reflexivity.
  - intros defs h base b s Hb Hlen.
    destruct (@simulate_no_events defs h base b quarters_2024 single_shock)
      as (res & s' & Hrun & _ & Hpct & Hadj);
      [exact Hb | exact Hlen | discriminate | reflexivity |].
    exists res, s'. split; [exact Hrun|]. split.
    + rewrite Hpct. unfold quarters_2024, single_shock, shock_sum, qsum.
      cbn [map exogenous.get_or exogenous.custom_shocks exogenous.impact
           exogenous.shock fold_right].
      repeat (f_equal; try ring).
    + rewrite Hadj. apply map_ext. intros x.
      unfold single_shock, shock_sum, qsum.
      cbn [map exogenous.get_or exogenous.custom_shocks exogenous.impact
           exogenous.shock fold_right].
      ring.
Qed.

(** C8.  For a base forecast as long as a date range that is
    not empty, a scenario with no event and no shock returns an adjusted
    forecast equal to the base forecast. *)
Theorem C8_empty_scenario_is_identity
    (defs : exogenous.Catalog) (h : list ndarray) (base : exogenous.ref)
    (b : ndarray) (date_range : list Timestamp)
    (scenario : exogenous.Scenario) :
  nth_error h base = Some b ->
  List.length b = List.length date_range ->
  date_range <> [] ->
  no_events scenario ->
  no_shocks scenario ->
  exists res s',
    exogenous.simulate_scenario base date_range scenario
      {| exogenous.event_definitions := defs; exogenous.heap := h |}
    = (Ok res, s')
    /\ exogenous.base_forecast res = b
    /\ exogenous.adjusted_forecast res = exogenous.base_forecast res.
Proof.
  intros Hb Hlen Hne Hev Hsh.
  destruct (@simulate_no_events defs h base b date_range scenario
              Hb Hlen Hne Hev) as (res & s' & Hrun & Hbase & _ & Hadj).
  exists res, s'. split; [exact Hrun|]. split; [exact Hbase|].
  rewrite Hadj, Hbase. unfold no_shocks in Hsh. rewrite Hsh.
  rewrite <- (map_id b) at 2. apply map_ext. intros x.
  unfold shock_sum, qsum. cbn [map fold_right]. ring.
Qed.

(** C8 needs equal lengths.  A base forecast of one value over two periods
    is broadcast: the adjusted forecast has two values and is not the base
    forecast.  Over an empty date range the call raises. *)
Lemma C8_length_mismatch_counterexample :
  no_events empty_scenario /\ no_shocks empty_scenario
  /\ (exists res s',
        exogenous.simulate_scenario 0%nat
          [quarter_start 2024 1; quarter_start 2024 4] empty_scenario
          (exogenous.__init__ [[dec 100 1]])
        = (Ok res, s')
        /\ exogenous.base_forecast res = [dec 100 1]
        /\ exogenous.adjusted_forecast res = [dec 100 1; dec 100 1]
        /\ exogenous.adjusted_forecast res <> exogenous.base_forecast res)
  /\ (exists msg,
        fst (exogenous.simulate_scenario 0%nat [] empty_scenario
               (exogenous.__init__ [[]]))
        = Raise (ValueError msg)).
Proof.
  split; [reflexivity|]. split; [reflexivity|]. split.
  - unfold exogenous.__init__. rewrite simulate_scenario_unfold.
    eexists. eexists. split; [lazy; reflexivity|].
    cbn [exogenous.base_forecast exogenous.adjusted_forecast].
    split; [reflexivity|]. split.
    + apply array_eqb_eq. vm_compute. reflexivity.
    + discriminate.
  - unfold exogenous.__init__. rewrite simulate_scenario_unfold.
    eexists. lazy. reflexivity.
Qed.

(** C10.  Whatever its arguments and whether it returns or raises, a call
    of [simulate_scenario] leaves the catalog as it was and rewrites no
    array that was alive before the call (the base forecast among them): it
    only allocates.  The [base_forecast] it returns is the content of the
    input array, and the frame it returns is indexed by the date range it
    was given (a pandas index is immutable: the model passes it by
    value). *)
Theorem C10_simulate_scenario_frame
    (s : exogenous.Store) (base : exogenous.ref)
    (date_range : list Timestamp) (scenario : exogenous.Scenario) :
  let r := exogenous.simulate_scenario base date_range scenario s in
  exogenous.event_definitions (snd r) = exogenous.event_definitions s
  /\ (exists fresh, exogenous.heap (snd r) = exogenous.heap s ++ fresh)
  /\ (forall ref a, nth_error (exogenous.heap s) ref = Some a ->
                    nth_error (exogenous.heap (snd r)) ref = Some a)
  /\ (forall res, fst r = Ok res ->
        index (exogenous.exogenous_features res) = date_range
        /\ forall b, nth_error (exogenous.heap s) base = Some b ->
                     exogenous.base_forecast res = b).
Proof.
  destruct s as [defs h]. cbv zeta. rewrite simulate_scenario_unfold.
  cbv zeta. cbn [exogenous.heap exogenous.event_definitions].
  destruct (features_of _ date_range scenario) as [exog_df|e] eqn:Hdf.
  2:{ cbn [fst snd exogenous.heap exogenous.event_definitions].
      repeat split; try discriminate.
      - exists []. now rewrite app_nil_r.
      - intros ref a H. exact H. }
  set (t := after_shocks _ _). set (f := np_add_scalar 1 t).
  assert (Hold : forall fresh ref a, nth_error h ref = Some a ->
                   nth_error (h ++ fresh) ref = Some a)
    by (intros fresh ref a; apply nth_error_old).
  destruct (nth_error (h ++ [t; f]) base) as [b|] eqn:Hb.
  2:{ cbn [fst snd exogenous.heap exogenous.event_definitions].
      repeat split; try discriminate; eauto. }
  destruct (np_mul b f) as [product|e].
  2:{ cbn [fst snd exogenous.heap exogenous.event_definitions].
      repeat split; try discriminate; eauto. }
  destruct (np_min t) as [mn|e].
  2:{ cbn [fst snd exogenous.heap exogenous.event_definitions].
      repeat split; try discriminate; eauto. }
  destruct (np_max t) as [mx|e].
  2:{ cbn [fst snd exogenous.heap exogenous.event_definitions].
      repeat split; try discriminate; eauto. }
  cbn [fst snd exogenous.heap exogenous.event_definitions].
  split; [reflexivity|]. split; [eauto|]. split; [eauto|].
  intros res [= <-].
  cbn [exogenous.exogenous_features exogenous.base_forecast].
  split.
  - apply (features_shaped _ _ _ Hdf).
  - intros b' Hb'. rewrite (Hold _ _ _ Hb') in Hb. congruence.
Qed.

(** ** The column of one event *)

Lemma dict_get_set_same V (k : string) (v : V) (d : dict V) :
  dict_get k (dict_set k v d) = Some v.
Proof.
  induction d as [|[k' v'] d IH]; simpl.
  - now rewrite String.eqb_refl.
  - destruct (String.eqb k k') eqn:E; simpl; rewrite E; [reflexivity|exact IH].
Qed.

Lemma dict_get_set_other V (k k' : string) (v : V) (d : dict V) :
  k' <> k -> dict_get k' (dict_set k v d) = dict_get k' d.
Proof.
  intros Hne. induction d as [|[k0 v0] d IH]; simpl.
  - destruct (String.eqb_spec k' k); [contradiction | reflexivity].
  - destruct (String.eqb_spec k k0) as [->|Hk]; simpl.
    + destruct (String.eqb_spec k' k0); [contradiction | reflexivity].
    + destruct (String.eqb k' k0); [reflexivity | exact IH].
Qed.

Lemma dict_set_set V (k : string) (v1 v2 : V) (d : dict V) :
  dict_set k v2 (dict_set k v1 d) = dict_set k v2 d.
Proof.
  induction d as [|[k' v'] d IH]; simpl.
  - now rewrite String.eqb_refl.
  - destruct (String.eqb k k') eqn:E; simpl; rewrite E;
      [reflexivity | now rewrite IH].
Qed.

Lemma mask_assign_map (hit : Timestamp -> bool) (c : Qc)
    (g : Timestamp -> Qc) (dates : list Timestamp) :
  mask_assign (map hit dates) c (map g dates)
  = map (fun d => if hit d then c else g d) dates.
Proof. induction dates as [|d ds IH]; simpl; [reflexivity | now rewrite IH]. Qed.

Lemma df_loc_set_column (dates : list Timestamp) (cols : dict ndarray)
    (name : string) (hit : Timestamp -> bool) (c : Qc)
    (g : Timestamp -> Qc) :
  df_loc_set (map hit dates) name c
    {| index := dates; columns := dict_set name (map g dates) cols |}
  = Ok {| index := dates;
          columns := dict_set name
                       (map (fun d => if hit d then c else g d) dates)
                       cols |}.
Proof.
  unfold df_loc_set, dict_index. cbn [columns index].
  rewrite dict_get_set_same. cbn [rbind].
  now rewrite mask_assign_map, dict_set_set.
Qed.

Lemma find_app A (hit : A -> bool) (l1 l2 : list A) :
  find hit (l1 ++ l2)
  = match find hit l1 with Some a => Some a | None => find hit l2 end.
Proof.
  induction l1 as [|a l1 IH]; simpl; [reflexivity|].
  destruct (hit a); [reflexivity | exact IH].
Qed.

Lemma overwrite_last A (hit : A -> Timestamp -> bool) (val : A -> Qc)
    (l : list A) (g : Timestamp -> Qc) (d : Timestamp) :
  fold_left (overwrite hit val) l g d
  = match last_match (fun a => hit a d) l with
    | Some a => val a
    | None => g d
    end.
Proof.
  unfold last_match. revert g. induction l as [|a l IH]; intros g;
    [reflexivity|].
  cbn [fold_left rev]. rewrite IH, find_app.
  destruct (find (fun a0 => hit a0 d) (rev l)); [reflexivity|].
  unfold overwrite. cbn [find]. destruct (hit a d); reflexivity.
Qed.

Section Column.
Variable dates : list Timestamp.
Variable cols : dict ndarray.
Variable name : string.
Variable multiplier : Qc.

Local Abbreviation frame g :=
  {| index := dates; columns := dict_set name (map g dates) cols |}.

Lemma apply_period_column (g : Timestamp -> Qc)
    (p : exogenous.HistoricalPeriod) :
  is_ok (to_datetime (exogenous.start p))
  && is_ok (to_datetime (exogenous.end_ p)) = true ->
  exogenous.apply_period name multiplier (frame g) p
  = Ok (frame (overwrite period_covers
                 (fun p => exogenous.severity p * multiplier) g p)).
Proof.
  intros Hp. unfold exogenous.apply_period, overwrite, period_covers.
  destruct (to_datetime (exogenous.start p)) as [start_ts|];
    [|discriminate].
  destruct (to_datetime (exogenous.end_ p)) as [end_ts|]; [|discriminate].
  cbn [rbind index]. apply df_loc_set_column.
Qed.

Lemma apply_quarter_column (g : Timestamp -> Qc) (en : string * Qc) :
  is_ok (py_int (remove_char "Q" (fst en))) = true ->
  exogenous.apply_quarter name multiplier (frame g) en
  = Ok (frame (overwrite quarter_matches
                 (fun en => snd en * multiplier) g en)).
Proof.
  destruct en as [key intensity]. cbn [fst snd].
  intros Hq. unfold exogenous.apply_quarter, overwrite, quarter_matches.
  cbn [fst snd].
  destruct (py_int (remove_char "Q" key)) as [q|]; [|discriminate].
  cbn [rbind index].
  destruct (existsb (fun b => b) (map (fun d => Z.eqb (quarter d) q) dates))
    eqn:E.
  - apply df_loc_set_column.
  - do 2 f_equal. f_equal. apply map_ext_in. intros d Hd.
    destruct (Z.eqb (quarter d) q) eqn:Ed; [|reflexivity].
    exfalso. assert (Hex : existsb (fun b => b)
                             (map (fun d => Z.eqb (quarter d) q) dates)
                           = true).
    { apply existsb_exists. exists true. split; [|reflexivity].
      apply in_map_iff. exists d. now split. }
    congruence.
Qed.

Lemma periods_column (periods : list exogenous.HistoricalPeriod)
    (g : Timestamp -> Qc) :
  forallb (fun p => is_ok (to_datetime (exogenous.start p))
                    && is_ok (to_datetime (exogenous.end_ p))) periods
  = true ->
  fold_result (exogenous.apply_period name multiplier) periods (frame g)
  = Ok (frame (fold_left
                 (overwrite period_covers
                    (fun p => exogenous.severity p * multiplier))
                 periods g)).
Proof.
  revert g. induction periods as [|p periods IH]; intros g H;
    [reflexivity|].
  cbn [forallb] in H. apply andb_prop in H as [Hp Hrest].
  cbn [fold_result fold_left]. rewrite (apply_period_column g p Hp).
  cbn [rbind]. apply IH, Hrest.
Qed.

Lemma pattern_column (pattern : dict Qc) (g : Timestamp -> Qc) :
  forallb (fun en => is_ok (py_int (remove_char "Q" (fst en)))) pattern
  = true ->
  fold_result (exogenous.apply_quarter name multiplier) pattern (frame g)
  = Ok (frame (fold_left
                 (overwrite quarter_matches
                    (fun en => snd en * multiplier))
                 pattern g)).
Proof.
  revert g. induction pattern as [|en pattern IH]; intros g H;
    [reflexivity|].
  cbn [forallb] in H. apply andb_prop in H as [Hq Hrest].
  cbn [fold_result fold_left]. rewrite (apply_quarter_column g en Hq).
  cbn [rbind]. apply IH, Hrest.
Qed.
End Column.

Lemma add_event_run (defs : exogenous.Catalog) (df : DataFrame)
    (e : exogenous.ExogenousEventType) (def : exogenous.EventDef) :
  exogenous.lookup_event e defs = Some def ->
  def_parses def = true ->
  exogenous.add_event defs df e
  = Ok {| index := index df;
          columns := dict_set (feature_name e) (map (cell def) (index df))
                              (columns df) |}.
Proof.
  intros Hdef Hparse. unfold exogenous.add_event. rewrite Hdef.
  cbn [rbind]. fold (feature_name e).
  unfold df_set_scalar. rewrite (repeat_as_map (index df) (Q2Qc 0)).
  unfold def_parses in Hparse. apply andb_prop in Hparse as [Hper Hpat].
  set (m := exogenous.impact_multiplier def) in *.
  set (g0 := fun _ : Timestamp => 0).
  set (g1 := fold_left
               (overwrite period_covers
                  (fun p => exogenous.severity p * m))
               (periods_of def) g0).
  assert (H1 : match exogenous.historical_periods def with
               | Some periods =>
                   fold_result (exogenous.apply_period (feature_name e) m)
                     periods
                     {| index := index df;
                        columns := dict_set (feature_name e)
                                     (map g0 (index df)) (columns df) |}
               | None =>
                   Ok {| index := index df;
                         columns := dict_set (feature_name e)
                                      (map g0 (index df)) (columns df) |}
               end
               = Ok {| index := index df;
                       columns := dict_set (feature_name e)
                                    (map g1 (index df)) (columns df) |}).
  { unfold g1, periods_of in *.
    destruct (exogenous.historical_periods def) as [periods|];
      cbn [exogenous.get_or] in *; [|reflexivity].
    apply periods_column, Hper. }
  rewrite H1. cbn [rbind].
  set (g2 := fold_left
               (overwrite quarter_matches (fun en => snd en * m))
               (pattern_of def) g1).
  assert (H2 : match exogenous.seasonal_pattern def with
               | Some pattern =>
                   fold_result (exogenous.apply_quarter (feature_name e) m)
                     pattern
                     {| index := index df;
                        columns := dict_set (feature_name e)
                                     (map g1 (index df)) (columns df) |}
               | None =>
                   Ok {| index := index df;
                         columns := dict_set (feature_name e)
                                      (map g1 (index df)) (columns df) |}
               end
               = Ok {| index := index df;
                       columns := dict_set (feature_name e)
                                    (map g2 (index df)) (columns df) |}).
  { unfold g2, pattern_of in *.
    destruct (exogenous.seasonal_pattern def) as [pattern|];
      cbn [exogenous.get_or] in *; [|reflexivity].
    apply pattern_column, Hpat. }
  rewrite H2. do 2 f_equal. f_equal. apply map_ext. intros d.
  unfold g2, g1, g0, cell. rewrite !overwrite_last. reflexivity.
Qed.

Lemma feature_name_inj (e e' : exogenous.ExogenousEventType) :
  feature_name e = feature_name e' -> e = e'.
Proof. destruct e, e'; intros H; try reflexivity; discriminate H. Qed.

Lemma lookup_event_name (defs : exogenous.Catalog)
    (e e' : exogenous.ExogenousEventType) :
  feature_name e = feature_name e' ->
  exogenous.lookup_event e defs = exogenous.lookup_event e' defs.
Proof. intros H. now rewrite (feature_name_inj H). Qed.

(** ** The frame of all enabled events *)

Section Frame.
Variable defs : exogenous.Catalog.
Variable dates : list Timestamp.

Lemma features_run (enabled : list exogenous.ExogenousEventType) :
  catalog_serves defs enabled ->
  forall df, index df = dates ->
  fold_result (exogenous.add_event defs) enabled df
  = Ok {| index := dates;
          columns := columns_after defs dates enabled (columns df) |}.
Proof.
  unfold columns_after.
  induction enabled as [|e enabled IH]; intros Hserve df Hidx.
  - cbn. destruct df as [i c]. cbn in *. now subst.
  - destruct (Hserve e (or_introl eq_refl)) as (def & Hdef & Hparse).
    cbn [fold_result fold_left].
    rewrite (@add_event_run defs df e def Hdef Hparse). cbn [rbind].
    rewrite IH.
    + cbn [columns]. unfold column_of. rewrite Hdef, Hidx. reflexivity.
    + intros e' He'. apply Hserve. now right.
    + exact Hidx.
Qed.

Lemma columns_after_keys (enabled : list exogenous.ExogenousEventType)
    (cols : dict ndarray) (name : string) :
  In name (dict_keys (columns_after defs dates enabled cols))
  <-> In name (dict_keys cols)
      \/ exists e, In e enabled /\ name = feature_name e.
Proof.
  unfold columns_after. revert cols.
  induction enabled as [|e enabled IH]; intros cols; cbn [fold_left].
  - split; [now left | intros [H|(e & [] & _)]; exact H].
  - rewrite IH, dict_set_keys. split.
    + intros [[->|H]|(e' & He' & ->)].
      * right. exists e. split; [now left | reflexivity].
      * now left.
      * right. exists e'. split; [now right | reflexivity].
    + intros [H|(e' & [<-|He'] & ->)].
      * left. now right.
      * left. now left.
      * right. exists e'. now split.
Qed.

Lemma columns_after_keep (enabled : list exogenous.ExogenousEventType)
    (cols : dict ndarray) (e : exogenous.ExogenousEventType) :
  dict_get (feature_name e) cols = Some (column_of defs dates e) ->
  dict_get (feature_name e) (columns_after defs dates enabled cols)
  = Some (column_of defs dates e).
Proof.
  unfold columns_after. revert cols.
  induction enabled as [|e' enabled IH]; intros cols H; [exact H|].
  cbn [fold_left]. apply IH.
  destruct (string_dec (feature_name e) (feature_name e')) as [Heq|Hne].
  - rewrite Heq, dict_get_set_same.
    now rewrite (feature_name_inj Heq).
  - rewrite dict_get_set_other by exact Hne. exact H.
Qed.

Lemma columns_after_get (enabled : list exogenous.ExogenousEventType)
    (cols : dict ndarray) (e : exogenous.ExogenousEventType) :
  In e enabled ->
  dict_get (feature_name e) (columns_after defs dates enabled cols)
  = Some (column_of defs dates e).
Proof.
  revert cols. induction enabled as [|e' enabled IH]; intros cols He;
    [destruct He|].
  destruct He as [<-|He].
  - apply (columns_after_keep enabled). apply dict_get_set_same.
  - apply IH, He.
Qed.
End Frame.

(** C7.  For enabled events the catalog serves,
    [create_exogenous_features] returns a frame over the date range with
    one column per enabled event and none for any other event.  The column
    of an event holds, at each date: the value [intensity * multiplier] of
    the last seasonal entry naming the date's quarter, if any; otherwise
    the value [severity * multiplier] of the last historical interval
    holding the date, if any; otherwise 0.  Values are never added up.  On
    an event with the intervals 2024-01..2024-10 (0.8) and 2024-04..2024-07
    (0.4), the season Q3 (0.5) and the multiplier -0.5, the four quarters
    of 2024 get -0.4, -0.2, -0.25 and -0.4. *)
Theorem C7_event_columns_are_overwritten :
  (forall (s : exogenous.Store) (date_range : list Timestamp)
          (enabled_events : list exogenous.ExogenousEventType),
      catalog_serves (exogenous.event_definitions s) enabled_events ->
      exists df,
        exogenous.create_exogenous_features date_range enabled_events s
        = (Ok df, s)
        /\ index df = date_range
        /\ (forall name,
              In name (dict_keys (columns df))
              <-> exists e, In e enabled_events /\ name = feature_name e)
        /\ (forall e def,
              In e enabled_events ->
              exogenous.lookup_event e (exogenous.event_definitions s)
              = Some def ->
              dict_get (feature_name e) (columns df)
              = Some (map (cell def) date_range)))
  /\ (exists df,
        exogenous.create_exogenous_features quarters_2024
          [exogenous.WILDFIRE] overlapping_store
        = (Ok df, overlapping_store)
        /\ dict_get "exog_wildfire" (columns df)
           = Some [dec (-4) 10; dec (-2) 10; dec (-25) 100; dec (-4) 10]).
Proof.
  assert (Hgen : forall (s : exogenous.Store) (date_range : list Timestamp)
          (enabled_events : list exogenous.ExogenousEventType),
      catalog_serves (exogenous.event_definitions s) enabled_events ->
      exists df,
        exogenous.create_exogenous_features date_range enabled_events s
        = (Ok df, s)
        /\ index df = date_range
        /\ (forall name,
              In name (dict_keys (columns df))
              <-> exists e, In e enabled_events /\ name = feature_name e)
        /\ (forall e def,
              In e enabled_events ->
              exogenous.lookup_event e (exogenous.event_definitions s)
              = Some def ->
              dict_get (feature_name e) (columns df)
              = Some (map (cell def) date_range))).
  { intros s date_range enabled Hserve.
    eexists. split; [|split; [|split]].
    - unfold exogenous.create_exogenous_features, bind, get, lift.
      rewrite (features_run (dates := date_range) Hserve (df_new date_range))
        by reflexivity.
      reflexivity.
    - reflexivity.
    - intros name. cbn [columns df_new]. rewrite columns_after_keys.
      split; [intros [[]|H]; exact H | intros H; now right].
    - intros e def He Hdef. cbn [columns df_new].
      rewrite columns_after_get by exact He.
      unfold column_of. now rewrite Hdef. }
  split; [exact Hgen|].
  destruct (Hgen overlapping_store quarters_2024 [exogenous.WILDFIRE])
    as (df & Hrun & _ & _ & Hcol).
  { intros e [<-|[]]. exists overlapping_def. split; reflexivity. }
  exists df. split; [exact Hrun|].
  change "exog_wildfire" with (feature_name exogenous.WILDFIRE).
  rewrite (Hcol exogenous.WILDFIRE overlapping_def);
    [| now left | reflexivity].
  f_equal. apply array_eqb_eq. vm_compute. reflexivity.
Qed.

(** The catalog of the source serves every event. *)
Lemma define_events_serves (enabled : list exogenous.ExogenousEventType) :
  catalog_serves exogenous._define_events enabled.
Proof.
  intros e _. destruct e; eexists; (split; [reflexivity|]);
    vm_compute; reflexivity.
Qed.

(* ------------------------------------------------------------------ *)
(** * The statements at concrete inputs *)

Ltac qc_neq :=
  let H := fresh in
  intros H; apply (f_equal this) in H; vm_compute in H; discriminate H.

Lemma C1_witness :
  let self := two_models (constant_model [dec 10 1; dec 20 1])
                         (constant_model [dec 30 1; dec 40 1]) in
  let us := used self [] 2 in
  let acc := map (weighted_sum us) (seq 0 (Z.to_nat 2)) in
  let total := total_weight us in
  exists out,
    ensemble.predict_volume [] 2 self = (Ok out, self)
    /\ (0 < total /\ tol < Qcabs (total - 1) ->
        out = map (fun x => x / total) acc)
    /\ (~ (0 < total /\ tol < Qcabs (total - 1)) -> out = acc).
Proof.
  apply (proj1 C1_predict_volume_weighted_average).
  - discriminate.
  - repeat constructor; simpl; intuition discriminate.
  - lia.
  - intros wt f [H|[H|[]]]; inversion H; reflexivity.
Defined.

Lemma C2_witness :
  let new_weights := inverse_error_weights record_A10_B20 "mape" in
  ensemble.auto_weight_by_performance record_A10_B20 "mape" empty_ensemble
  = (Ok tt, ensemble.with_weights empty_ensemble new_weights)
  /\ dict_keys new_weights = dict_keys record_A10_B20
  /\ py_sum (dict_values new_weights) = 1.
Proof.
  apply (proj1 C2_auto_weight_inverse_error).
  - intros name per_model [H|[H|[]]]; inversion H; subst;
      eexists; (split; [reflexivity | qc_neq]).
  - qc_neq.
Defined.

Lemma C5_witness :
  let self := two_models failing_model failing_model in
  ensemble.predict_volume [] 2 self = (Ok (repeat 0 (Z.to_nat 2)), self)
  /\ List.length (repeat (Q2Qc 0) (Z.to_nat 2)) = Z.to_nat 2.
Proof.
  apply (proj2 C5_predict_volume_no_weights_or_all_failed).
  - discriminate.
  - lia.
  - intros name model [H|[H|[]]] _; inversion H; reflexivity.
Defined.

Lemma C6_witness :
  ensemble.set_weights [("sarima", 1)] sarima_only
  = (Ok tt, ensemble.with_weights sarima_only [("sarima", 1)])
  /\ ensemble.weights (ensemble.with_weights sarima_only [("sarima", 1)])
     = [("sarima", 1)].
Proof.
  apply (proj2 (C6_set_weights_all_or_nothing sarima_only [("sarima", 1)])).
  intros [H|(k & [<-|[]] & Hk)].
  - vm_compute in H. discriminate H.
  - apply Hk. simpl. now left.
Defined.

Lemma C3_witness :
  let s := {| exogenous.event_definitions := exogenous._define_events;
              exogenous.heap := one_forecast |} in
  let shocks := exogenous.get_or (exogenous.custom_shocks single_shock) [] in
  let total_impact :=
    map (fun x => x + shock_sum shocks)
        (df_sum_rows (df_new quarters_2024)) in
  exists res s',
    exogenous.simulate_scenario 0%nat quarters_2024 single_shock s
    = (Ok res, s')
    /\ List.length total_impact = List.length quarters_2024
    /\ exogenous.total_impact_pct res
       = map (fun x => dec 100 1 * x) total_impact
    /\ exogenous.adjusted_forecast res
       = zip_with Qcmult four_quarters (map (fun x => 1 + x) total_impact).
Proof.
  apply (proj1 C3_custom_shock_applies_to_every_period
           exogenous._define_events one_forecast 0%nat four_quarters
           quarters_2024 single_shock (df_new quarters_2024)).
  - reflexivity.
  - reflexivity.
  - discriminate.
  - reflexivity.
Defined.

Lemma C7_witness :
  exists df,
    exogenous.create_exogenous_features quarters_2024
      [exogenous.COVID_19; exogenous.EXTREME_WEATHER]
      (exogenous.__init__ [])
    = (Ok df, exogenous.__init__ [])
    /\ index df = quarters_2024
    /\ (forall name,
          In name (dict_keys (columns df))
          <-> exists e,
                In e [exogenous.COVID_19; exogenous.EXTREME_WEATHER]
                /\ name = feature_name e)
    /\ (forall e def,
          In e [exogenous.COVID_19; exogenous.EXTREME_WEATHER] ->
          exogenous.lookup_event e
            (exogenous.event_definitions (exogenous.__init__ []))
          = Some def ->
          dict_get (feature_name e) (columns df)
          = Some (map (cell def) quarters_2024)).
Proof.
  apply (proj1 C7_event_columns_are_overwritten (exogenous.__init__ [])
           quarters_2024 [exogenous.COVID_19; exogenous.EXTREME_WEATHER]).
  intros e _. destruct e; eexists; (split; [reflexivity|]);
    vm_compute; reflexivity.
Defined.

Lemma C8_witness :
  exists res s',
    exogenous.simulate_scenario 0%nat quarters_2024 empty_scenario
      {| exogenous.event_definitions := exogenous._define_events;
         exogenous.heap := one_forecast |}
    = (Ok res, s')
    /\ exogenous.base_forecast res = four_quarters
    /\ exogenous.adjusted_forecast res = exogenous.base_forecast res.
Proof.
  apply (@C8_empty_scenario_is_identity exogenous._define_events
           one_forecast 0%nat four_quarters quarters_2024 empty_scenario).
  - reflexivity.
  - reflexivity.
  - discriminate.
  - reflexivity.
  - reflexivity.
Defined.

Lemma C10_witness :
  let s := exogenous.__init__ one_forecast in
  let r := exogenous.simulate_scenario 0%nat quarters_2024 single_shock s in
  exogenous.event_definitions (snd r) = exogenous.event_definitions s
  /\ (exists fresh, exogenous.heap (snd r) = exogenous.heap s ++ fresh)
  /\ (forall ref a, nth_error (exogenous.heap s) ref = Some a ->
                    nth_error (exogenous.heap (snd r)) ref = Some a)
  /\ (forall res, fst r = Ok res ->
        index (exogenous.exogenous_features res) = quarters_2024
        /\ forall b, nth_error (exogenous.heap s) 0%nat = Some b ->
                     exogenous.base_forecast res = b).
Proof.
  exact (C10_simulate_scenario_frame (exogenous.__init__ one_forecast)
           0%nat quarters_2024 single_shock).
Defined.

(* ------------------------------------------------------------------ *)
(** * Further properties of the ensemble combiner *)

Section PredictWithIntervals.
Variable self : ensemble.EnsembleForecaster.
Variable train_data : ndarray.
Variable steps : Z.
Variable alpha : Qc.

Local Abbreviation us_of ms :=
  (used_intervals (ensemble.weights self) train_data steps alpha ms).

Lemma collect_intervals_fold (ms : dict ensemble.Model)
    (lists : ensemble.IntervalLists) :
  fold_left (ensemble.collect_intervals self train_data steps alpha) ms lists
  = {| ensemble.all_forecasts :=
         ensemble.all_forecasts lists
         ++ map (fun u => np_scale (fst u) (ensemble.forecast (snd u)))
                (us_of ms);
       ensemble.all_lowers :=
         ensemble.all_lowers lists
         ++ map (fun u => np_scale (fst u) (ensemble.ci_lower (snd u)))
                (us_of ms);
       ensemble.all_uppers :=
         ensemble.all_uppers lists
         ++ map (fun u => np_scale (fst u) (ensemble.ci_upper (snd u)))
                (us_of ms) |}.
Proof.
  revert lists. induction ms as [|[name model] ms IH]; intros lists.
  - cbn. rewrite !app_nil_r. now destruct lists.
  - cbn [fold_left]. rewrite IH. clear IH.
    unfold used_intervals at 4 5 6. cbn [flat_map].
    fold (us_of ms).
    unfold ensemble.collect_intervals, invoke_intervals, dict_mem, dict_index.
    destruct (dict_get name (ensemble.weights self)) as [wt|]; cbn [negb];
      [|reflexivity].
    destruct (ensemble.predict_with_intervals model) as [call|];
      [|reflexivity].
    destruct (if String.eqb name "lstm"
              then call (Some train_data) steps None
              else call None steps (Some alpha)) as [r|e]; [|reflexivity].
    cbn [ensemble.all_forecasts ensemble.all_lowers ensemble.all_uppers
         app map fst snd].
    rewrite <- !app_assoc. reflexivity.
Qed.
End PredictWithIntervals.

Lemma sum_columns_nth (cols : list ndarray) (acc : ndarray) (j : nat) :
  (forall col, In col cols -> List.length col = List.length acc) ->
  (j < List.length acc)%nat ->
  nth j (fold_left (zip_with Qcplus) cols acc) 0
  = nth j acc 0 + qsum (map (fun col => nth j col 0) cols).
Proof.
  revert acc. induction cols as [|c cols IH]; intros acc H Hj; simpl.
  - unfold qsum. simpl. ring.
  - assert (Hc : List.length c = List.length acc) by (apply H; now left).
    assert (Hz : List.length (zip_with Qcplus acc c) = List.length acc)
      by (apply zip_with_length; congruence).
    rewrite IH.
    + rewrite zip_with_nth by congruence. unfold qsum. simpl. ring.
    + intros col Hcol. rewrite Hz. apply H. now right.
    + rewrite Hz. exact Hj.
Qed.

(** Summing the scaled series of the members, position by position. *)
Lemma np_sum_scaled (series : ensemble.IntervalForecast -> ndarray)
    (us : list (Qc * ensemble.IntervalForecast)) (n : nat) :
  us <> [] ->
  (forall u, In u us -> List.length (series (snd u)) = n) ->
  np_sum_axis0 (map (fun u => np_scale (fst u) (series (snd u))) us)
  = Ok (map (interval_sum series us) (seq 0 n)).
Proof.
  destruct us as [|u us]; [congruence|]. intros _ Hlen.
  cbn [map np_sum_axis0].
  assert (Hu : List.length (np_scale (fst u) (series (snd u))) = n)
    by (rewrite np_scale_length; apply Hlen; now left).
  assert (Hall : forall col,
             In col (map (fun u0 => np_scale (fst u0) (series (snd u0))) us) ->
             List.length col
             = List.length (np_scale (fst u) (series (snd u)))).
  { intros col Hcol. apply in_map_iff in Hcol as (u0 & <- & Hin).
    rewrite Hu, np_scale_length. apply Hlen. now right. }
  replace (forallb _ _) with true.
  2:{ symmetry. apply forallb_forall. intros col Hcol.
      apply Nat.eqb_eq, Hall, Hcol. }
  f_equal. rewrite <- Hu.
  rewrite <- (sum_columns_length _ _ Hall). apply map_seq_ext.
  intros j Hj. rewrite sum_columns_length in Hj by exact Hall.
  rewrite sum_columns_nth by (exact Hall || exact Hj).
  rewrite np_scale_nth, map_map. unfold interval_sum, qsum. cbn [map fold_right].
  f_equal. f_equal. apply map_ext. intros u0. apply np_scale_nth.
Qed.

Lemma predict_with_intervals_run (self : ensemble.EnsembleForecaster)
    (train_data : ndarray) (steps : Z) (alpha : Qc) (n : nat) :
  let us := used_intervals (ensemble.weights self) train_data steps alpha
              (ensemble.models self) in
  us <> [] ->
  (forall u, In u us -> interval_shape n (snd u)) ->
  ensemble.ensemble_predict_with_intervals train_data steps alpha self
  = (Ok {| ensemble.forecast :=
             map (interval_sum ensemble.forecast us) (seq 0 n);
           ensemble.ci_lower :=
             map (interval_sum ensemble.ci_lower us) (seq 0 n);
           ensemble.ci_upper :=
             map (interval_sum ensemble.ci_upper us) (seq 0 n) |}, self).
Proof.
  intros us Hne Hshape.
  unfold ensemble.ensemble_predict_with_intervals, bind, get.
  rewrite collect_intervals_fold.
  cbn [ensemble.all_forecasts ensemble.all_lowers ensemble.all_uppers app].
  fold us.
  destruct (map (fun u => np_scale (fst u) (ensemble.forecast (snd u))) us)
    as [|a rest] eqn:E.
  { destruct us; [congruence | discriminate]. }
  rewrite <- E. unfold lift, ret.
  rewrite (np_sum_scaled ensemble.forecast Hne (n := n))
    by (intros u Hu; apply (Hshape u Hu)).
  rewrite (np_sum_scaled ensemble.ci_lower Hne (n := n))
    by (intros u Hu; apply (Hshape u Hu)).
  rewrite (np_sum_scaled ensemble.ci_upper Hne (n := n))
    by (intros u Hu; apply (Hshape u Hu)).
  reflexivity.
Qed.

(** X1.  When no registered and weighted model yields an interval forecast
    (none is registered, none is weighted, or every call fails),
    [predict_with_intervals] raises [ValueError] and leaves the ensemble as
    it was. *)
Theorem X1_predict_with_intervals_nothing_usable
    (self : ensemble.EnsembleForecaster) (train_data : ndarray) (steps : Z)
    (alpha : Qc) :
  used_intervals (ensemble.weights self) train_data steps alpha
    (ensemble.models self) = [] ->
  ensemble.ensemble_predict_with_intervals train_data steps alpha self
  = (Raise (ValueError "No valid interval predictions obtained"), self).
Proof.
  intros Hus.
  unfold ensemble.ensemble_predict_with_intervals, bind, get.
  rewrite collect_intervals_fold, Hus. reflexivity.
Qed.

(** X2.  When at least one member yields an interval forecast and all the
    series yielded have one length [n], [predict_with_intervals] returns,
    for each of the three series and at each position, the sum of
    [weight_i * series_i] over the members that yielded: the sums are not
    divided by the total weight. *)
Theorem X2_predict_with_intervals_weighted_sums
    (self : ensemble.EnsembleForecaster) (train_data : ndarray) (steps : Z)
    (alpha : Qc) (n : nat) :
  let us := used_intervals (ensemble.weights self) train_data steps alpha
              (ensemble.models self) in
  us <> [] ->
  (forall u, In u us -> interval_shape n (snd u)) ->
  ensemble.ensemble_predict_with_intervals train_data steps alpha self
  = (Ok {| ensemble.forecast :=
             map (interval_sum ensemble.forecast us) (seq 0 n);
           ensemble.ci_lower :=
             map (interval_sum ensemble.ci_lower us) (seq 0 n);
           ensemble.ci_upper :=
             map (interval_sum ensemble.ci_upper us) (seq 0 n) |}, self).
Proof. apply predict_with_intervals_run. Qed.

Lemma interval_sum_le (s1 s2 : ensemble.IntervalForecast -> ndarray)
    (us : list (Qc * ensemble.IntervalForecast)) (j : nat) :
  (forall u, In u us ->
     0 <= fst u /\ nth j (s1 (snd u)) 0 <= nth j (s2 (snd u)) 0) ->
  interval_sum s1 us j <= interval_sum s2 us j.
Proof.
  unfold interval_sum, qsum. induction us as [|u us IH]; intros H.
  - apply Qcle_refl.
  - cbn [map fold_right]. apply Qcplus_le_compat.
    + destruct (H u (or_introl eq_refl)) as [Hw Hle].
      rewrite !(Qcmult_comm (fst u)). now apply Qcmult_le_compat_r.
    + apply IH. intros u0 Hu0. apply H. now right.
Qed.

(** X3.  With weights that are not negative, [predict_with_intervals]
    keeps the order of the bounds: if each member's lower bound is below
    its point forecast and its point forecast below its upper bound, at
    each position, so are the combined ones. *)
Theorem X3_predict_with_intervals_keeps_bounds_ordered
    (self : ensemble.EnsembleForecaster) (train_data : ndarray) (steps : Z)
    (alpha : Qc) (n : nat) :
  let us := used_intervals (ensemble.weights self) train_data steps alpha
              (ensemble.models self) in
  us <> [] ->
  (forall u, In u us ->
     interval_shape n (snd u) /\ 0 <= fst u /\ ordered_intervals (snd u)) ->
  exists r,
    ensemble.ensemble_predict_with_intervals train_data steps alpha self
    = (Ok r, self)
    /\ interval_shape n r
    /\ ordered_intervals r.
Proof.
  intros us Hne H. eexists. split; [|split].
  - apply (predict_with_intervals_run self train_data steps alpha (n := n)).
    + exact Hne.
    + intros u Hu. apply (H u Hu).
  - unfold interval_shape. cbn. rewrite !length_map, !length_seq. auto.
  - intros j Hj. cbn [ensemble.forecast ensemble.ci_lower ensemble.ci_upper]
      in *.
    rewrite length_map, length_seq in Hj.
    rewrite !nth_map_seq by exact Hj. fold us.
    split; apply interval_sum_le; intros u Hu;
      destruct (H u Hu) as ((Hf & Hl & Hup) & Hw & Hord);
      (split; [exact Hw|]); apply Hord; rewrite Hf; exact Hj.
Qed.

Lemma interval_sum_single (series : ensemble.IntervalForecast -> ndarray)
    (wt : Qc) (r : ensemble.IntervalForecast) (n : nat) :
  List.length (series r) = n ->
  map (interval_sum series [(wt, r)]) (seq 0 n) = np_scale wt (series r).
Proof.
  intros Hn. symmetry. rewrite <- Hn, <- (np_scale_length wt (series r)).
  apply map_seq_ext. intros j _.
  rewrite np_scale_nth. unfold interval_sum, qsum. cbn. ring.
Qed.

(** X4.  The two forecasting methods treat a failed member differently.
    In an ensemble of two members of weight 0.5 of which the second fails,
    [predict_volume] returns the first member's forecast, while
    [predict_with_intervals] returns half of it, and half of its bounds. *)
Theorem X4_failed_member_halves_interval_forecast
    (train_data : ndarray) (alpha : Qc) (r : ensemble.IntervalForecast) :
  interval_shape (List.length (ensemble.forecast r)) r ->
  let self := two_models (interval_model r) failing_model in
  let steps := Z.of_nat (List.length (ensemble.forecast r)) in
  ensemble.predict_volume train_data steps self
  = (Ok (ensemble.forecast r), self)
  /\ ensemble.ensemble_predict_with_intervals train_data steps alpha self
     = (Ok {| ensemble.forecast := np_scale half (ensemble.forecast r);
              ensemble.ci_lower := np_scale half (ensemble.ci_lower r);
              ensemble.ci_upper := np_scale half (ensemble.ci_upper r) |},
        self).
Proof.
  intros (Hf & Hl & Hu) self steps. split.
  - unfold steps. rewrite predict_volume_run.
    + unfold used, used_of, self, two_models, total_weight. cbn.
      rewrite Nat2Z.id.
      rewrite survivor_forecast by discriminate. reflexivity.
    + discriminate.
    + repeat constructor; simpl; intuition discriminate.
    + lia.
    + unfold used, used_of, self, two_models. cbn.
      intros wt f0 [[= _ <-]|[]]. reflexivity.
  - rewrite (predict_with_intervals_run self train_data steps alpha
               (n := List.length (ensemble.forecast r))).
    + unfold self, two_models, used_intervals. cbn [flat_map].
      cbn. rewrite !interval_sum_single by assumption. reflexivity.
    + unfold self, two_models, used_intervals. cbn. discriminate.
    + unfold self, two_models, used_intervals. cbn.
      intros u [<-|[]]. repeat split; assumption.
Qed.

(** ** Order on the rationals *)

Lemma Qc_inv_pos (x : Qc) : 0 < x -> 0 < / x.
Proof.
  unfold Qclt. intros H. cbn [this Qcinv Q2Qc] in *.
  pose proof (Qred_correct (/ this x)) as E.
  pose proof (Qred_correct 0) as E0.
  pose proof (Qinv_lt_0_compat (this x)) as P.
  lra.
Qed.

Lemma Qc_plus_pos (x y : Qc) : 0 < x -> 0 <= y -> 0 < x + y.
Proof.
  unfold Qclt, Qcle. intros Hx Hy. cbn [this Qcplus Q2Qc] in *.
  pose proof (Qred_correct (this x + this y)) as E.
  pose proof (Qred_correct 0) as E0.
  lra.
Qed.

Lemma Qc_pos_neq (a : Qc) : 0 < a -> a <> 0.
Proof.
  intros Ha E. rewrite E in Ha. exact (Qclt_not_le _ _ Ha (Qcle_refl _)).
Qed.

Lemma Qc_inv_anti (a b : Qc) : 0 < a -> a < b -> / b < / a.
Proof.
  intros Ha Hab.
  assert (Hb : 0 < b) by (eapply Qclt_trans; eassumption).
  assert (Hia := Qc_inv_pos Ha). assert (Hib := Qc_inv_pos Hb).
  assert (Hane := Qc_pos_neq Ha). assert (Hbne := Qc_pos_neq Hb).
  assert (Hp : 0 < / a * / b).
  { rewrite <- (Qcmult_0_l (/ b)). apply Qcmult_lt_compat_r; assumption. }
  replace (/ b) with (a * (/ a * / b)) by (field; split; assumption).
  replace (/ a) with (b * (/ a * / b)) at 2 by (field; split; assumption).
  apply Qcmult_lt_compat_r; assumption.
Qed.

Lemma qsum_pos (l : list Qc) :
  l <> [] -> (forall x, In x l -> 0 < x) -> 0 < qsum l.
Proof.
  unfold qsum. induction l as [|x l IH]; [congruence|]. intros _ H.
  cbn [fold_right]. apply Qc_plus_pos; [apply H; now left|].
  destruct l as [|y l]; [apply Qcle_refl|].
  apply Qclt_le_weak, IH; [discriminate|].
  intros z Hz. apply H. now right.
Qed.

(** ** [auto_weight_by_performance]: errors and order *)




Lemma Qc_div_pos (x t : Qc) : 0 < x -> 0 < t -> 0 < x / t.
Proof.
  intros Hx Ht. unfold Qcdiv. rewrite <- (Qcmult_0_l (/ t)).
  apply Qcmult_lt_compat_r; [now apply Qc_inv_pos | exact Hx].
Qed.

Lemma Qc_one_over_pos (s : Qc) : 0 < s -> 0 < 1 / s.
Proof.
  intros Hs. unfold Qcdiv. rewrite Qcmult_1_l. now apply Qc_inv_pos.
Qed.

Lemma inverse_total_pos (metrics : dict (dict Qc)) (metric : string) :
  metrics <> [] ->
  (forall name per_model, In (name, per_model) metrics ->
     0 < score metric per_model) ->
  0 < inverse_total metrics metric.
Proof.
  intros Hne Hpos. unfold inverse_total. apply qsum_pos.
  - destruct metrics; [congruence | discriminate].
  - intros x Hx. apply in_map_iff in Hx as ([n p] & <- & Hin).
    apply Qc_one_over_pos, (Hpos n p Hin).
Qed.

(** X6.  On a record that is not empty and holds a positive value of the
    metric for every model, [auto_weight_by_performance] succeeds, every
    weight it stores is positive, and of two models the one with the
    smaller error gets the strictly larger weight. *)
Theorem X6_auto_weight_lower_error_higher_weight
    (self : ensemble.EnsembleForecaster) (metrics : dict (dict Qc))
    (metric : string) :
  metrics <> [] ->
  (forall name per_model, In (name, per_model) metrics ->
     exists s, dict_get metric per_model = Some s /\ 0 < s) ->
  let weight_of := fun per_model =>
    (1 / score metric per_model) / inverse_total metrics metric in
  ensemble.auto_weight_by_performance metrics metric self
  = (Ok tt,
     ensemble.with_weights self
       (map (fun entry => (fst entry, weight_of (snd entry))) metrics))
  /\ (forall name per_model, In (name, per_model) metrics ->
        0 < weight_of per_model)
  /\ (forall n1 p1 n2 p2,
        In (n1, p1) metrics -> In (n2, p2) metrics ->
        score metric p1 < score metric p2 ->
        weight_of p2 < weight_of p1).
Proof.
  intros Hne Hs weight_of.
  assert (Hpos : forall name per_model, In (name, per_model) metrics ->
                   0 < score metric per_model).
  { intros n p Hin. destruct (Hs n p Hin) as (s & Hget & Hlt).
    unfold score, dict_get_default. now rewrite Hget. }
  assert (Ht := inverse_total_pos metric Hne Hpos).
  split; [|split].
  - apply auto_weight_run.
    + intros n p Hin. destruct (Hs n p Hin) as (s & Hget & Hlt).
      exists s. split; [exact Hget | now apply Qc_pos_neq].
    + now apply Qc_pos_neq.
  - intros n p Hin. apply Qc_div_pos; [|exact Ht].
    apply Qc_one_over_pos, (Hpos n p Hin).
  - intros n1 p1 n2 p2 H1 H2 Hlt. unfold weight_of, Qcdiv.
    apply Qcmult_lt_compat_r; [now apply Qc_inv_pos|].
    rewrite !Qcmult_1_l. apply Qc_inv_anti; [apply (Hpos n1 p1 H1) | exact Hlt].
Qed.

(** ** [add_model] *)

Lemma dict_set_keys_eq V (k : string) (v : V) (d : dict V) :
  dict_keys (dict_set k v d)
  = if dict_mem k d then dict_keys d else dict_keys d ++ [k].
Proof.
  unfold dict_mem. induction d as [|[k' v'] d IH]; cbn; [reflexivity|].
  destruct (String.eqb k k'); cbn; [reflexivity|].
  fold (dict_keys d) (dict_keys (dict_set k v d)). rewrite IH.
  destruct (dict_get k d); reflexivity.
Qed.

Lemma dict_set_wf V (k : string) (v : V) (d : dict V) :
  dict_wf d -> dict_wf (dict_set k v d).
Proof.
  unfold dict_wf. intros H. rewrite dict_set_keys_eq.
  destruct (dict_mem k d) eqn:E; [exact H|].
  apply NoDup_app; [exact H | repeat constructor; intros [] |].
  intros x Hx [<-|[]]. apply dict_mem_keys in Hx. congruence.
Qed.

(** X7.  [add_model] never raises; afterwards the name is registered with
    the model given, every other name is registered as before, the weight
    map holds the weight given for the name (and is untouched when none is
    given), and neither dictionary holds a name twice. *)
Theorem X7_add_model_registers
    (self : ensemble.EnsembleForecaster) (name : string)
    (model : ensemble.Model) (weight : option Qc) :
  let r := ensemble.add_model name model weight self in
  fst r = Ok tt
  /\ dict_get name (ensemble.models (snd r)) = Some model
  /\ (forall other, other <> name ->
        dict_get other (ensemble.models (snd r))
        = dict_get other (ensemble.models self))
  /\ match weight with
     | Some wt =>
         dict_get name (ensemble.weights (snd r)) = Some wt
         /\ forall other, other <> name ->
              dict_get other (ensemble.weights (snd r))
              = dict_get other (ensemble.weights self)
     | None => ensemble.weights (snd r) = ensemble.weights self
     end
  /\ (dict_wf (ensemble.models self) -> dict_wf (ensemble.models (snd r)))
  /\ (dict_wf (ensemble.weights self) ->
      dict_wf (ensemble.weights (snd r))).
Proof.
  unfold ensemble.add_model, bind, modify, ret.
  destruct weight as [wt|];
    unfold ensemble.with_weights, ensemble.with_models;
    cbn [fst snd ensemble.weights ensemble.models].
  - repeat split.
    + apply dict_get_set_same.
    + intros other Hne. now apply dict_get_set_other.
    + apply dict_get_set_same.
    + intros other Hne. now apply dict_get_set_other.
    + apply dict_set_wf.
    + apply dict_set_wf.
  - repeat split.
    + apply dict_get_set_same.
    + intros other Hne. now apply dict_get_set_other.
    + apply dict_set_wf.
    + auto.
Qed.

Lemma collect_prediction_unweighted (self : ensemble.EnsembleForecaster)
    (train_data : ndarray) (steps : Z) (acc : dict ndarray)
    (name : string) (model : ensemble.Model) :
  dict_mem name (ensemble.weights self) = false ->
  ensemble.collect_prediction self train_data steps acc (name, model) = acc.
Proof. intros H. unfold ensemble.collect_prediction. now rewrite H. Qed.

Lemma collect_prediction_set_unweighted (self : ensemble.EnsembleForecaster)
    (train_data : ndarray) (steps : Z) (name : string)
    (model : ensemble.Model) (ms : dict ensemble.Model) (acc : dict ndarray) :
  dict_mem name (ensemble.weights self) = false ->
  fold_left (ensemble.collect_prediction self train_data steps)
            (dict_set name model ms) acc
  = fold_left (ensemble.collect_prediction self train_data steps) ms acc.
Proof.
  intros Hw. revert acc. induction ms as [|[k m] ms IH]; intros acc.
  - cbn [dict_set fold_left]. now apply collect_prediction_unweighted.
  - cbn [dict_set]. destruct (String.eqb_spec name k) as [<-|Hne].
    + cbn [fold_left].
      now rewrite !collect_prediction_unweighted by exact Hw.
    + cbn [fold_left]. apply IH.
Qed.

Lemma fold_left_pointwise A B (f g : A -> B -> A) (l : list B) (a : A) :
  (forall x y, f x y = g x y) -> fold_left f l a = fold_left g l a.
Proof.
  intros H. revert a. induction l as [|b l IH]; intros a; [reflexivity|].
  cbn [fold_left]. now rewrite H, IH.
Qed.

Lemma fold_result_pointwise A B (f g : A -> B -> result A) (l : list B)
    (a : A) :
  (forall x y, f x y = g x y) -> fold_result f l a = fold_result g l a.
Proof.
  intros H. revert a. induction l as [|b l IH]; intros a; [reflexivity|].
  cbn [fold_result]. rewrite H. destruct (g a b); [apply IH | reflexivity].
Qed.

(** X8.  Registering a model without a weight, under a name that has no
    weight, changes nothing to what [predict_volume] returns or raises:
    a model without a weight takes no part in the combination. *)
Theorem X8_unweighted_model_is_ignored
    (self : ensemble.EnsembleForecaster) (name : string)
    (model : ensemble.Model) (train_data : ndarray) (steps : Z) :
  dict_mem name (ensemble.weights self) = false ->
  fst (ensemble.predict_volume train_data steps
         (snd (ensemble.add_model name model None self)))
  = fst (ensemble.predict_volume train_data steps self).
Proof.
  intros Hw.
  set (after := snd (ensemble.add_model name model None self)).
  assert (Hweights : ensemble.weights after = ensemble.weights self)
    by reflexivity.
  assert (Hmodels : ensemble.models after
                    = dict_set name model (ensemble.models self))
    by reflexivity.
  unfold ensemble.predict_volume, bind, get. rewrite Hweights, Hmodels.
  destruct (dict_is_empty (ensemble.weights self)); [reflexivity|].
  rewrite (fold_left_pointwise
             (ensemble.collect_prediction after train_data steps)
             (ensemble.collect_prediction self train_data steps))
    by reflexivity.
  rewrite collect_prediction_set_unweighted by exact Hw.
  unfold lift.
  destruct (np_zeros steps) as [zeros|e]; [|reflexivity].
  rewrite (fold_result_pointwise (ensemble.accumulate after)
             (ensemble.accumulate self)) by reflexivity.
  destruct (fold_result _ _ _) as [[p t]|e]; [|reflexivity].
  destruct (gtb t 0 && gtb (Qcabs (t - 1)) tol); reflexivity.
Qed.

(** ** [predict_volume] and forecasts of the wrong length *)

Lemma np_iadd_outcome (a b : ndarray) :
  (exists a', np_iadd a b = Ok a' /\ List.length a' = List.length a)
  \/ np_iadd a b = Raise broadcast_error.
Proof.
  unfold np_iadd.
  destruct (Nat.eqb_spec (List.length b) (List.length a)) as [E|E].
  - left. eexists. split; [reflexivity|]. apply zip_with_length. congruence.
  - destruct b as [|y [|z b]]; [now right | | now right].
    left. eexists. split; [reflexivity|]. apply length_map.
Qed.

Lemma np_iadd_bad (a b : ndarray) :
  List.length b <> List.length a -> List.length b <> 1%nat ->
  np_iadd a b = Raise broadcast_error.
Proof.
  intros H1 H2. unfold np_iadd.
  destruct (Nat.eqb_spec (List.length b) (List.length a)); [contradiction|].
  destruct b as [|y [|z b]]; [reflexivity | | reflexivity].
  exfalso. now apply H2.
Qed.

Lemma accumulate_bad_fold (self : ensemble.EnsembleForecaster)
    (preds : dict ndarray) (acc : ndarray) (t : Qc) :
  (exists name f, In (name, f) preds
                  /\ List.length f <> List.length acc
                  /\ List.length f <> 1%nat) ->
  fold_result (ensemble.accumulate self) preds (acc, t)
  = Raise broadcast_error.
Proof.
  revert acc t. induction preds as [|[name0 f0] preds IH];
    intros acc t (name & f & Hin & Hlen & Hone); [destruct Hin|].
  cbn [fold_result]. unfold ensemble.accumulate at 1.
  set (wt := dict_get_default name0 0 (ensemble.weights self)).
  destruct Hin as [[= -> ->]|Hin].
  - rewrite np_iadd_bad by (rewrite np_scale_length; assumption).
    reflexivity.
  - destruct (np_iadd_outcome acc (np_scale wt f0)) as [(a' & -> & Ha') | ->];
      [|reflexivity].
    cbn [rbind]. apply IH. exists name, f. rewrite Ha'. auto.
Qed.

Lemma successes_forecasts (w : dict Qc) (train_data : ndarray) (steps : Z)
    (ms : dict ensemble.Model) :
  map snd (successes w train_data steps ms)
  = map snd (used_of w train_data steps ms).
Proof.
  induction ms as [|[name model] ms IH]; [reflexivity|].
  unfold successes, used_of in *. cbn [flat_map].
  rewrite !map_app, IH. f_equal. unfold dict_mem.
  destruct (dict_get name w), (invoke name model train_data steps);
    reflexivity.
Qed.

(** X9.  A member whose forecast has neither [steps] values nor a single
    value is not skipped: [predict_volume] raises [ValueError] (the shapes
    cannot be broadcast), whatever the other members return. *)
Theorem X9_predict_volume_wrong_length_raises
    (self : ensemble.EnsembleForecaster) (train_data : ndarray) (steps : Z) :
  ensemble.weights self <> [] ->
  dict_wf (ensemble.models self) ->
  (0 <= steps)%Z ->
  (exists wt f, In (wt, f) (used self train_data steps)
                /\ List.length f <> Z.to_nat steps
                /\ List.length f <> 1%nat) ->
  ensemble.predict_volume train_data steps self
  = (Raise broadcast_error, self).
Proof.
  intros Hw Hwf Hsteps (wt & f & Hin & Hlen & Hone).
  unfold ensemble.predict_volume, bind, get.
  destruct (ensemble.weights self) as [|w0 ws] eqn:Ew; [congruence|].
  cbn [dict_is_empty]. rewrite <- Ew in *.
  rewrite collect_prediction_fold; [| exact Hwf | intros k _ []].
  cbn [app]. unfold lift. rewrite (np_zeros_ok Hsteps).
  rewrite accumulate_bad_fold; [reflexivity|].
  assert (Hf : In f (map snd (successes (ensemble.weights self) train_data
                                 steps (ensemble.models self)))).
  { rewrite successes_forecasts. apply in_map_iff.
    exists (wt, f). split; [reflexivity | exact Hin]. }
  apply in_map_iff in Hf as ([name f'] & Hsnd & Hin').
  cbn [snd] in Hsnd. subst f'.
  exists name, f. rewrite repeat_length. auto.
Qed.

(** ** The statements above at concrete inputs *)

Ltac qc_le := unfold Qcle, Qle; vm_compute; discriminate.
Ltac qc_lt := unfold Qclt, Qlt; vm_compute; reflexivity.

Lemma interval_10_20_ordered : ordered_intervals interval_10_20.
Proof.
  intros j Hj. cbn in Hj.
  destruct j as [|[|j]]; [split; qc_le | split; qc_le | lia].
Defined.

Lemma X1_witness :
  ensemble.ensemble_predict_with_intervals [] 2 (dec 5 100)
    (two_models failing_model failing_model)
  = (Raise (ValueError "No valid interval predictions obtained"),
     two_models failing_model failing_model).
Proof.
  apply (@X1_predict_with_intervals_nothing_usable
           (two_models failing_model failing_model) [] 2 (dec 5 100)).
  reflexivity.
Defined.

Lemma X2_witness :
  let self := two_models (interval_model interval_10_20)
                         (interval_model interval_10_20) in
  let us := used_intervals (ensemble.weights self) [] 2 (dec 5 100)
              (ensemble.models self) in
  ensemble.ensemble_predict_with_intervals [] 2 (dec 5 100) self
  = (Ok {| ensemble.forecast :=
             map (interval_sum ensemble.forecast us) (seq 0 2);
           ensemble.ci_lower :=
             map (interval_sum ensemble.ci_lower us) (seq 0 2);
           ensemble.ci_upper :=
             map (interval_sum ensemble.ci_upper us) (seq 0 2) |}, self).
Proof.
  apply (@X2_predict_with_intervals_weighted_sums
           (two_models (interval_model interval_10_20)
                       (interval_model interval_10_20))
           [] 2 (dec 5 100) 2%nat).
  - discriminate.
  - intros u [<-|[<-|[]]]; repeat split.
Defined.

Lemma X3_witness :
  let self := two_models (interval_model interval_10_20)
                         (interval_model interval_10_20) in
  exists r,
    ensemble.ensemble_predict_with_intervals [] 2 (dec 5 100) self
    = (Ok r, self)
    /\ interval_shape 2 r
    /\ ordered_intervals r.
Proof.
  apply (@X3_predict_with_intervals_keeps_bounds_ordered
           (two_models (interval_model interval_10_20)
                       (interval_model interval_10_20))
           [] 2 (dec 5 100) 2%nat).
  - discriminate.
  - intros u [<-|[<-|[]]];
      (split; [repeat split | split; [qc_le | exact interval_10_20_ordered]]).
Defined.

Lemma X4_witness :
  let self := two_models (interval_model interval_10_20) failing_model in
  ensemble.predict_volume [] 2 self
  = (Ok (ensemble.forecast interval_10_20), self)
  /\ ensemble.ensemble_predict_with_intervals [] 2 (dec 5 100) self
     = (Ok {| ensemble.forecast :=
                np_scale half (ensemble.forecast interval_10_20);
              ensemble.ci_lower :=
                np_scale half (ensemble.ci_lower interval_10_20);
              ensemble.ci_upper :=
                np_scale half (ensemble.ci_upper interval_10_20) |},
        self).
Proof.
  apply (@X4_failed_member_halves_interval_forecast [] (dec 5 100)
           interval_10_20).
  repeat split.
Defined.


Lemma X6_witness :
  let weight_of := fun per_model =>
    (1 / score "mape" per_model) / inverse_total record_A10_B20 "mape" in
  ensemble.auto_weight_by_performance record_A10_B20 "mape" empty_ensemble
  = (Ok tt,
     ensemble.with_weights empty_ensemble
       (map (fun entry => (fst entry, weight_of (snd entry)))
            record_A10_B20))
  /\ (forall name per_model, In (name, per_model) record_A10_B20 ->
        0 < weight_of per_model)
  /\ (forall n1 p1 n2 p2,
        In (n1, p1) record_A10_B20 -> In (n2, p2) record_A10_B20 ->
        score "mape" p1 < score "mape" p2 ->
        weight_of p2 < weight_of p1).
Proof.
  apply (@X6_auto_weight_lower_error_higher_weight empty_ensemble
           record_A10_B20 "mape").
  - discriminate.
  - intros name per_model [H|[H|[]]]; inversion H; subst;
      eexists; (split; [reflexivity | qc_lt]).
Defined.

Lemma X8_witness :
  fst (ensemble.predict_volume [] 1
         (snd (ensemble.add_model "prophet" failing_model None sarima_only)))
  = fst (ensemble.predict_volume [] 1 sarima_only).
Proof.
  apply (@X8_unweighted_model_is_ignored sarima_only "prophet" failing_model
           [] 1).
  reflexivity.
Defined.

Lemma X9_witness :
  let self := two_models (constant_model [dec 10 1; dec 20 1])
                         (constant_model [dec 1 1; dec 2 1; dec 3 1]) in
  ensemble.predict_volume [] 2 self = (Raise broadcast_error, self).
Proof.
  apply (@X9_predict_volume_wrong_length_raises
           (two_models (constant_model [dec 10 1; dec 20 1])
                       (constant_model [dec 1 1; dec 2 1; dec 3 1])) [] 2).
  - discriminate.
  - repeat constructor; simpl; intuition discriminate.
  - lia.
  - exists half, [dec 1 1; dec 2 1; dec 3 1].
    split; [right; now left | split; discriminate].
Defined.

(* ------------------------------------------------------------------ *)
(** * How the adapters answer the combiner and the service *)

Lemma prophet_predict_raises (m : adapters.ProphetVolumeModel)
    (data : option ndarray) (steps : Z) :
  exists e,
    adapters.prophet_predict m (adapters.positional data)
      (adapters.keywords steps None) = Raise e.
Proof. destruct data; eexists; reflexivity. Qed.

Lemma prophet_intervals_raises (m : adapters.ProphetVolumeModel)
    (data : option ndarray) (steps : Z) (alpha : option Qc) :
  exists e,
    adapters.prophet_predict_with_intervals m (adapters.positional data)
      (adapters.keywords steps alpha) = Raise e.
Proof. destruct data, alpha; eexists; reflexivity. Qed.

Lemma invoke_prophet (m : adapters.ProphetVolumeModel) (name : string)
    (train_data : ndarray) (steps : Z) :
  invoke name (adapters.prophet m) train_data steps = None.
Proof.
  unfold invoke, adapters.prophet, adapters.as_model. cbn [ensemble.predict].
  destruct (String.eqb name "lstm").
  - destruct (prophet_predict_raises m (Some train_data) steps) as [e ->].
    reflexivity.
  - destruct (prophet_predict_raises m None steps) as [e ->]. reflexivity.
Qed.

(** X10.  A [ProphetVolumeModel] never takes part in an ensemble forecast:
    both loops of the combiner call it with the keyword [steps], its
    methods take [periods], the call raises and the model is skipped,
    whatever its name, its weight and its state. *)
Theorem X10_prophet_is_always_skipped
    (m : adapters.ProphetVolumeModel) (self : ensemble.EnsembleForecaster)
    (name : string) (train_data : ndarray) (steps : Z) (alpha : Qc)
    (predictions : dict ndarray) (lists : ensemble.IntervalLists) :
  ensemble.collect_prediction self train_data steps predictions
    (name, adapters.prophet m) = predictions
  /\ ensemble.collect_intervals self train_data steps alpha lists
       (name, adapters.prophet m) = lists.
Proof.
  split.
  - unfold ensemble.collect_prediction, adapters.prophet, adapters.as_model.
    cbn [ensemble.predict].
    destruct (negb (dict_mem name (ensemble.weights self))); [reflexivity|].
    destruct (String.eqb name "lstm").
    + destruct (prophet_predict_raises m (Some train_data) steps) as [e ->].
      reflexivity.
    + destruct (prophet_predict_raises m None steps) as [e ->]. reflexivity.
  - unfold ensemble.collect_intervals, adapters.prophet, adapters.as_model.
    cbn [ensemble.predict_with_intervals].
    destruct (negb (dict_mem name (ensemble.weights self))); [reflexivity|].
    destruct (String.eqb name "lstm").
    + destruct (prophet_intervals_raises m (Some train_data) steps None)
        as [e ->]. reflexivity.
    + destruct (prophet_intervals_raises m None steps (Some alpha))
        as [e ->]. reflexivity.
Qed.

(** X11.  In an ensemble of a fitted SARIMA model and a Prophet model, of
    weight 0.5 each, [predict_volume] returns the SARIMA forecast alone:
    the Prophet model, fitted or not, adds nothing. *)
Theorem X11_sarima_and_prophet_is_sarima_alone
    (fit : adapters.FittedSARIMA) (m : adapters.ProphetVolumeModel)
    (train_data : ndarray) (steps : Z) (f : ndarray) :
  adapters.sarima_forecast fit steps = Ok f ->
  Z.of_nat (List.length f) = steps ->
  let self := two_models
                (adapters.sarima {| adapters.model_fit := Some fit |})
                (adapters.prophet m) in
  ensemble.predict_volume train_data steps self = (Ok f, self).
Proof.
  intros Hf Hlen self.
  assert (Hused : used self train_data steps = [(half, f)]).
  { unfold used, used_of, self, two_models.
    cbn [ensemble.models ensemble.weights flat_map].
    rewrite invoke_prophet.
    unfold invoke, adapters.sarima, adapters.as_model.
    cbn [ensemble.predict String.eqb Ascii.eqb Bool.eqb].
    unfold adapters.sarima_predict, adapters.call. cbn.
    rewrite Hf. reflexivity. }
  rewrite predict_volume_run.
  - rewrite Hused. unfold total_weight. cbn [map fst qsum fold_right].
    replace (gtb (half + 0) 0 && gtb (Qcabs (half + 0 - 1)) tol) with true
      by (vm_compute; reflexivity).
    rewrite <- Hlen, Nat2Z.id.
    rewrite survivor_forecast by discriminate. reflexivity.
  - discriminate.
  - repeat constructor; simpl; intuition discriminate.
  - lia.
  - rewrite Hused. intros wt f0 [[= _ <-]|[]]. exact Hlen.
Qed.

(** X12.  The service never serves a Prophet forecast: for the model
    [prophet], loaded as a [ProphetVolumeModel], [forecast_volume] returns
    the growth projection, with or without intervals. *)
Theorem X12_service_falls_back_for_prophet
    (self : inference.ForecastService) (m : adapters.ProphetVolumeModel)
    (horizon : Z) (include_intervals : bool) :
  dict_get "prophet" (inference.models self) = Some (adapters.prophet m) ->
  inference.forecast_volume self horizon "prophet" include_intervals
  = Ok (inference._simple_projection horizon).
Proof.
  intros Hm. unfold inference.forecast_volume. rewrite Hm.
  unfold inference.dispatch, adapters.prophet, adapters.as_model.
  cbn [ensemble.predict ensemble.predict_with_intervals inference.attribute
       rbind String.eqb Ascii.eqb Bool.eqb].
  destruct include_intervals; cbn [andb rbind inference.attribute].
  - destruct (prophet_intervals_raises m None horizon None) as [e ->].
    reflexivity.
  - destruct (prophet_predict_raises m None horizon) as [e ->]. reflexivity.
Qed.

(** X13.  The adapters answer under their conventional names only.  An
    LSTM model is invoked with the series, which its [predict] requires:
    under the name [lstm] it forecasts when fitted, under any other name
    the call raises and it is skipped.  A SARIMA model takes no series:
    under the name [lstm] the call raises and it is skipped, under any
    other name it forecasts when fitted. *)
Theorem X13_adapters_depend_on_their_name
    (name : string) (train_data : ndarray) (steps : Z) :
  name <> "lstm" ->
  (forall m : adapters.LSTMVolumeModel,
      invoke name (adapters.lstm m) train_data steps = None
      /\ invoke "lstm" (adapters.lstm m) train_data steps
         = if adapters.lstm_is_fitted m
           then match adapters.lstm_roll_forward m train_data steps with
                | Ok f => Some f
                | Raise _ => None
                end
           else None)
  /\ (forall m : adapters.SARIMAVolumeModel,
        invoke "lstm" (adapters.sarima m) train_data steps = None
        /\ invoke name (adapters.sarima m) train_data steps
           = match adapters.model_fit m with
             | Some fit =>
                 match adapters.sarima_forecast fit steps with
                 | Ok f => Some f
                 | Raise _ => None
                 end
             | None => None
             end).
Proof.
  intros Hname. apply String.eqb_neq in Hname. split; intros m; split.
  - unfold invoke, adapters.lstm, adapters.as_model. cbn [ensemble.predict].
    rewrite Hname. reflexivity.
  - unfold invoke, adapters.lstm, adapters.as_model, adapters.lstm_predict,
      adapters.call.
    cbn. destruct (adapters.lstm_is_fitted m); reflexivity.
  - reflexivity.
  - unfold invoke, adapters.sarima, adapters.as_model,
      adapters.sarima_predict, adapters.call.
    cbn [ensemble.predict]. rewrite Hname. cbn.
    destruct (adapters.model_fit m); reflexivity.
Qed.

(** X14.  The service never serves an ensemble forecast from a saved
    ensemble: what [EnsembleForecaster.save] writes is a dictionary, which
    has no prediction method, so for the model [ensemble], the default,
    [forecast_volume] returns the growth projection. *)
Theorem X14_service_falls_back_for_saved_ensemble
    (self : inference.ForecastService) (e : ensemble.EnsembleForecaster)
    (horizon : Z) (include_intervals : bool) :
  dict_get "ensemble" (inference.models self)
  = Some (loaded_bundle (ensemble.save e)) ->
  inference.forecast_volume self horizon "ensemble" include_intervals
  = Ok (inference._simple_projection horizon).
Proof.
  intros Hm. unfold inference.forecast_volume. rewrite Hm.
  destruct include_intervals; reflexivity.
Qed.

Lemma X11_witness :
  let self := two_models (adapters.sarima (fitted_sarima [dec 10 1; dec 20 1]))
                (adapters.prophet (fitted_prophet interval_10_20)) in
  ensemble.predict_volume [] 2 self = (Ok [dec 10 1; dec 20 1], self).
Proof.
  apply (@X11_sarima_and_prophet_is_sarima_alone
           {| adapters.sarima_forecast := fun _ => Ok [dec 10 1; dec 20 1];
              adapters.sarima_summary_frame := fun _ _ =>
                Ok {| ensemble.forecast := [dec 10 1; dec 20 1];
                      ensemble.ci_lower := [dec 10 1; dec 20 1];
                      ensemble.ci_upper := [dec 10 1; dec 20 1] |} |}
           (fitted_prophet interval_10_20) [] 2 [dec 10 1; dec 20 1]).
  - reflexivity.
  - reflexivity.
Defined.

Lemma X12_witness :
  inference.forecast_volume
    {| inference.models :=
         [("prophet", adapters.prophet (fitted_prophet interval_10_20))] |}
    4 "prophet" true
  = Ok (inference._simple_projection 4).
Proof.
  apply (@X12_service_falls_back_for_prophet
           {| inference.models :=
                [("prophet",
                  adapters.prophet (fitted_prophet interval_10_20))] |}
           (fitted_prophet interval_10_20) 4 true).
  reflexivity.
Defined.

Lemma X13_witness :
  (forall m : adapters.LSTMVolumeModel,
      invoke "sarima" (adapters.lstm m) [] 2 = None
      /\ invoke "lstm" (adapters.lstm m) [] 2
         = if adapters.lstm_is_fitted m
           then match adapters.lstm_roll_forward m [] 2 with
                | Ok f => Some f
                | Raise _ => None
                end
           else None)
  /\ (forall m : adapters.SARIMAVolumeModel,
        invoke "lstm" (adapters.sarima m) [] 2 = None
        /\ invoke "sarima" (adapters.sarima m) [] 2
           = match adapters.model_fit m with
             | Some fit =>
                 match adapters.sarima_forecast fit 2 with
                 | Ok f => Some f
                 | Raise _ => None
                 end
             | None => None
             end).
Proof.
  apply (@X13_adapters_depend_on_their_name "sarima" [] 2).
  discriminate.
Defined.

Lemma X14_witness :
  inference.forecast_volume
    {| inference.models :=
         [("ensemble", loaded_bundle (ensemble.save sarima_only))] |}
    4 "ensemble" true
  = Ok (inference._simple_projection 4).
Proof.
  apply (@X14_service_falls_back_for_saved_ensemble
           {| inference.models :=
                [("ensemble", loaded_bundle (ensemble.save sarima_only))] |}
           sarima_only 4 true).
  reflexivity.
Defined.

(* ------------------------------------------------------------------ *)
(** * Further properties of the scenario simulator *)

(** What a call returns once the feature frame is built. *)
Lemma simulate_scenario_run (defs : exogenous.Catalog) (h : list ndarray)
    (base : exogenous.ref) (b : ndarray) (date_range : list Timestamp)
    (scenario : exogenous.Scenario) (exog_df : DataFrame) :
  let s := {| exogenous.event_definitions := defs; exogenous.heap := h |} in
  let total_impact :=
    map (fun x => x + shock_sum
                        (exogenous.get_or (exogenous.custom_shocks scenario)
                                          []))
        (df_sum_rows exog_df) in
  nth_error h base = Some b ->
  List.length b = List.length date_range ->
  date_range <> [] ->
  features_of s date_range scenario = Ok exog_df ->
  exists res s',
    exogenous.simulate_scenario base date_range scenario s = (Ok res, s')
    /\ exogenous.base_forecast res = b
    /\ exogenous.total_impact_pct res = np_scale (dec 100 1) total_impact
    /\ exogenous.adjusted_forecast res
       = zip_with Qcmult b (np_add_scalar 1 total_impact)
    /\ exogenous.exogenous_features res = exog_df
    /\ List.length total_impact = List.length date_range.
Proof.
  intros s total_impact Hb Hlen Hne Hdf.
  assert (Ht : List.length total_impact = List.length date_range).
  { unfold total_impact. rewrite length_map.
    apply df_sum_rows_length, (features_shaped _ _ _ Hdf). }
  unfold s in *. rewrite simulate_scenario_unfold. cbv zeta.
  rewrite Hdf. rewrite after_shocks_sum. fold total_impact.
  rewrite (nth_error_old _ _ _ Hb).
  rewrite np_mul_same
    by (unfold np_add_scalar; rewrite length_map; congruence).
  destruct (np_min_ok (a := total_impact)) as [mn ->].
  { intros E. rewrite E in Ht. destruct date_range; [congruence|].
    discriminate. }
  destruct (np_max_ok (a := total_impact)) as [mx ->].
  { intros E. rewrite E in Ht. destruct date_range; [congruence|].
    discriminate. }
  eexists. eexists. split; [reflexivity|].
  repeat split; try reflexivity. exact Ht.
Qed.

Lemma features_of_catalog (h : list ndarray) (date_range : list Timestamp)
    (scenario : exogenous.Scenario) :
  features_of (exogenous.__init__ h) date_range scenario
  = Ok {| index := date_range;
          columns := columns_after exogenous._define_events date_range
                       (exogenous.get_or (exogenous.events scenario) [])
                       [] |}.
Proof.
  unfold features_of. cbn [exogenous.event_definitions exogenous.__init__].
  rewrite (features_run (dates := date_range)
             (define_events_serves _) (df_new date_range))
    by reflexivity.
  reflexivity.
Qed.

(** X15.  With the catalog of the source, [simulate_scenario] does not
    raise, whatever the events and the shocks of the scenario, when the
    base forecast is as long as the date range and the range is not empty;
    the adjusted forecast and the impacts it returns then have one value
    per period. *)
Theorem X15_simulate_scenario_returns
    (h : list ndarray) (base : exogenous.ref) (b : ndarray)
    (date_range : list Timestamp) (scenario : exogenous.Scenario) :
  nth_error h base = Some b ->
  List.length b = List.length date_range ->
  date_range <> [] ->
  exists res s',
    exogenous.simulate_scenario base date_range scenario
      (exogenous.__init__ h) = (Ok res, s')
    /\ exogenous.base_forecast res = b
    /\ List.length (exogenous.adjusted_forecast res)
       = List.length date_range
    /\ List.length (exogenous.total_impact_pct res)
       = List.length date_range.
Proof.
  intros Hb Hlen Hne.
  destruct (@simulate_scenario_run exogenous._define_events h base b
              date_range scenario _ Hb Hlen Hne
              (features_of_catalog h date_range scenario))
    as (res & s' & Hrun & Hbase & Hpct & Hadj & _ & Ht).
  exists res, s'. split; [exact Hrun|]. split; [exact Hbase|]. split.
  - rewrite Hadj, zip_with_length; [exact Hlen|].
    unfold np_add_scalar. rewrite length_map. congruence.
  - rewrite Hpct, np_scale_length. exact Ht.
Qed.

(** ** Events add up *)

Lemma nth_map_dates (g : Timestamp -> Qc) (dates : list Timestamp)
    (j : nat) (d : Timestamp) :
  nth_error dates j = Some d -> nth j (map g dates) 0 = g d.
Proof.
  revert j. induction dates as [|d0 dates IH]; intros [|j]; simpl;
    try discriminate.
  - now intros [= ->].
  - apply IH.
Qed.

Lemma list_eq_by_dates (g : Timestamp -> Qc) (dates : list Timestamp)
    (l : ndarray) :
  List.length l = List.length dates ->
  (forall j d, nth_error dates j = Some d -> nth j l 0 = g d) ->
  l = map g dates.
Proof.
  revert l. induction dates as [|d0 dates IH]; intros [|x l]; simpl;
    try discriminate; intros Hlen H; [reflexivity|].
  f_equal.
  - apply (H 0%nat d0). reflexivity.
  - apply IH; [congruence|]. intros j d Hj. apply (H (S j) d Hj).
Qed.

Lemma columns_after_nodup (defs : exogenous.Catalog)
    (dates : list Timestamp) (enabled : list exogenous.ExogenousEventType)
    (cols : dict ndarray) :
  NoDup enabled ->
  (forall e, In e enabled -> ~ In (feature_name e) (dict_keys cols)) ->
  columns_after defs dates enabled cols
  = cols ++ map (fun e => (feature_name e, column_of defs dates e)) enabled.
Proof.
  unfold columns_after. revert cols.
  induction enabled as [|e enabled IH]; intros cols Hnd Hfresh.
  - cbn. now rewrite app_nil_r.
  - inversion Hnd as [|? ? Hnotin Hnd']; subst.
    cbn [fold_left map].
    rewrite dict_set_fresh by (apply Hfresh; now left).
    rewrite IH; [now rewrite <- app_assoc | exact Hnd' |].
    intros e' He' Hin. unfold dict_keys in Hin.
    rewrite map_app in Hin. apply in_app_or in Hin as [Hin|[Heq|[]]].
    + apply (Hfresh e'); [now right | exact Hin].
    + cbn in Heq. apply feature_name_inj in Heq. subst. contradiction.
Qed.

Lemma sum_rows_of_events (defs : exogenous.Catalog)
    (dates : list Timestamp) (enabled : list exogenous.ExogenousEventType) :
  NoDup enabled ->
  catalog_serves defs enabled ->
  df_sum_rows {| index := dates;
                 columns := columns_after defs dates enabled [] |}
  = map (impact_at defs enabled) dates.
Proof.
  intros Hnd Hserve.
  rewrite columns_after_nodup; [| exact Hnd | intros e _ []].
  cbn [app]. unfold df_sum_rows. cbn [index columns].
  unfold dict_values. rewrite map_map. cbn [snd].
  assert (Hcols : forall col,
             In col (map (column_of defs dates) enabled) ->
             List.length col = List.length (repeat (Q2Qc 0)
                                               (List.length dates))).
  { intros col Hcol. apply in_map_iff in Hcol as (e & <- & He).
    destruct (Hserve e He) as (def & Hdef & _).
    unfold column_of. rewrite Hdef, length_map, repeat_length. reflexivity. }
  apply list_eq_by_dates.
  - rewrite sum_columns_length by exact Hcols. apply repeat_length.
  - intros j d Hj.
    assert (Hlt : (j < List.length dates)%nat)
      by (apply nth_error_Some; congruence).
    rewrite sum_columns_nth;
      [| exact Hcols | rewrite repeat_length; exact Hlt].
    rewrite nth_repeat, map_map. unfold impact_at.
    replace (map (fun e => nth j (column_of defs dates e) 0) enabled)
      with (map (fun e => match exogenous.lookup_event e defs with
                          | Some def => cell def d
                          | None => 0
                          end) enabled).
    + ring.
    + apply map_ext_in. intros e He.
      destruct (Hserve e He) as (def & Hdef & _).
      unfold column_of. rewrite Hdef. symmetry.
      now apply nth_map_dates.
Qed.

(** X16.  Events compose by addition.  For a scenario whose enabled events
    are all different and served by the catalog, the total impact at a
    period is the sum of the values of the enabled events at that date plus
    the sum of all the custom shocks; the call returns it as a percentage,
    and [base_forecast * (1 + total impact)] as the adjusted forecast. *)
Theorem X16_events_add_up
    (defs : exogenous.Catalog) (h : list ndarray) (base : exogenous.ref)
    (b : ndarray) (date_range : list Timestamp)
    (scenario : exogenous.Scenario) :
  let enabled := exogenous.get_or (exogenous.events scenario) [] in
  let shocks := exogenous.get_or (exogenous.custom_shocks scenario) [] in
  let total := fun d => impact_at defs enabled d + shock_sum shocks in
  NoDup enabled ->
  catalog_serves defs enabled ->
  nth_error h base = Some b ->
  List.length b = List.length date_range ->
  date_range <> [] ->
  exists res s',
    exogenous.simulate_scenario base date_range scenario
      {| exogenous.event_definitions := defs; exogenous.heap := h |}
    = (Ok res, s')
    /\ exogenous.total_impact_pct res
       = map (fun d => dec 100 1 * total d) date_range
    /\ exogenous.adjusted_forecast res
       = zip_with Qcmult b (map (fun d => 1 + total d) date_range).
Proof.
  intros enabled shocks total Hnd Hserve Hb Hlen Hne.
  assert (Hdf : features_of
                  {| exogenous.event_definitions := defs;
                     exogenous.heap := h |} date_range scenario
                = Ok {| index := date_range;
                        columns := columns_after defs date_range enabled
                                     [] |}).
  { unfold features_of. cbn [exogenous.event_definitions].
    fold enabled.
    rewrite (features_run (dates := date_range) Hserve (df_new date_range))
      by reflexivity.
    reflexivity. }
  destruct (@simulate_scenario_run defs h base b date_range scenario _
              Hb Hlen Hne Hdf)
    as (res & s' & Hrun & _ & Hpct & Hadj & _ & _).
  exists res, s'. split; [exact Hrun|].
  rewrite (sum_rows_of_events _ Hnd Hserve) in Hpct, Hadj.
  fold shocks in Hpct, Hadj. rewrite map_map in Hpct, Hadj.
  split.
  - rewrite Hpct. unfold np_scale. rewrite map_map. reflexivity.
  - rewrite Hadj. unfold np_add_scalar. rewrite map_map. reflexivity.
Qed.

(** ** An event enabled twice *)

Lemma dict_set_same V (k : string) (v : V) (d : dict V) :
  dict_get k d = Some v -> dict_set k v d = d.
Proof.
  induction d as [|[k' v'] d IH]; simpl; [discriminate|].
  destruct (String.eqb k k').
  - now intros [= ->].
  - intros H. now rewrite IH.
Qed.

(** X17.  Enabling again an event that is already enabled changes nothing:
    [create_exogenous_features] resets the column and fills it with the
    same values, so the frame, and with it the total impact, counts the
    event once. *)
Theorem X17_event_enabled_twice_counts_once
    (s : exogenous.Store) (date_range : list Timestamp)
    (enabled_events : list exogenous.ExogenousEventType)
    (e : exogenous.ExogenousEventType) :
  catalog_serves (exogenous.event_definitions s) enabled_events ->
  In e enabled_events ->
  exogenous.create_exogenous_features date_range (enabled_events ++ [e]) s
  = exogenous.create_exogenous_features date_range enabled_events s.
Proof.
  intros Hserve He.
  assert (Hserve' : catalog_serves (exogenous.event_definitions s)
                      (enabled_events ++ [e])).
  { intros e' He'. apply in_app_or in He' as [He'|[<-|[]]];
      now apply Hserve. }
  unfold exogenous.create_exogenous_features, bind, get, lift.
  rewrite (features_run (dates := date_range) Hserve (df_new date_range))
    by reflexivity.
  rewrite (features_run (dates := date_range) Hserve' (df_new date_range))
    by reflexivity.
  do 3 f_equal. unfold columns_after. rewrite fold_left_app.
  cbn [fold_left]. apply dict_set_same.
  apply (@columns_after_get (exogenous.event_definitions s) date_range
           enabled_events [] e He).
Qed.

(** ** The interval events outside their intervals *)

Lemma period_covers_outside (p : exogenous.HistoricalPeriod)
    (d start_ts end_ts : Timestamp) :
  to_datetime (exogenous.start p) = Ok start_ts ->
  to_datetime (exogenous.end_ p) = Ok end_ts ->
  (year end_ts < year d \/ year d < year start_ts)%Z ->
  period_covers p d = false.
Proof.
  intros Hs He Hout. unfold period_covers. rewrite Hs, He.
  unfold ts_geb, ts_leb, ts_compare. destruct Hout as [H|H].
  - apply Z.compare_gt_iff in H. rewrite H.
    apply andb_false_r.
  - apply Z.compare_lt_iff in H. rewrite H. reflexivity.
Qed.

Lemma find_all_false A (f : A -> bool) (l : list A) :
  (forall x, In x l -> f x = false) -> find f l = None.
Proof.
  induction l as [|a l IH]; intros H; [reflexivity|]. cbn [find].
  rewrite (H a) by now left. apply IH. intros x Hx. apply H. now right.
Qed.

Lemma cell_uncovered (def : exogenous.EventDef) (d : Timestamp) :
  pattern_of def = [] ->
  (forall p, In p (periods_of def) -> period_covers p d = false) ->
  cell def d = 0.
Proof.
  intros Hpat Hper. unfold cell, last_match. rewrite Hpat. cbn [rev find].
  rewrite find_all_false; [reflexivity|].
  intros p Hp. apply Hper. now apply in_rev.
Qed.

Ltac outside_period :=
  eapply period_covers_outside;
    [lazy; reflexivity | lazy; reflexivity | cbn [year]; lia].

Lemma interval_event_cell (e : exogenous.ExogenousEventType)
    (d : Timestamp) :
  interval_event e = true ->
  (2024 <= year d <= 2027)%Z ->
  exists def,
    exogenous.lookup_event e exogenous._define_events = Some def
    /\ cell def d = 0.
Proof.
  intros He Hd.
  destruct e; try discriminate He; eexists; (split; [reflexivity|]);
    (apply cell_uncovered; [reflexivity|]);
    intros p Hp; cbn in Hp;
    repeat (destruct Hp as [<-|Hp]; [outside_period|]); destruct Hp.
Qed.

Lemma columns_after_all (P : ndarray -> Prop) (defs : exogenous.Catalog)
    (dates : list Timestamp) (enabled : list exogenous.ExogenousEventType)
    (cols : dict ndarray) :
  (forall e, In e enabled -> P (column_of defs dates e)) ->
  (forall x, In x cols -> P (snd x)) ->
  forall x, In x (columns_after defs dates enabled cols) -> P (snd x).
Proof.
  unfold columns_after. revert cols.
  induction enabled as [|e enabled IH]; intros cols He Hcols;
    [exact Hcols|].
  cbn [fold_left]. apply IH.
  - intros e' He'. apply He. now right.
  - intros x Hx. apply dict_set_In in Hx as [-> | Hx].
    + apply He. now left.
    + now apply Hcols.
Qed.

Lemma sum_zero_columns (cols : list ndarray) (n : nat) :
  (forall c, In c cols -> c = repeat 0 n) ->
  fold_left (zip_with Qcplus) cols (repeat 0 n) = repeat 0 n.
Proof.
  induction cols as [|c cols IH]; intros H; [reflexivity|].
  cbn [fold_left]. rewrite (H c) by now left.
  assert (Hz : zip_with Qcplus (repeat 0 n) (repeat 0 n) = repeat 0 n).
  { clear. induction n as [|n IHn]; [reflexivity|]. cbn [repeat zip_with].
    rewrite IHn. f_equal; ring. }
  rewrite Hz. apply IH. intros c' Hc'. apply H. now right.
Qed.

(** X18.  With the catalog of the source, the five events described by
    historical intervals (COVID-19, wildfire, recession, major event,
    regulatory change) have no effect on a forecast whose dates all lie in
    the years 2024 to 2027: no interval of the catalog reaches these years,
    so a scenario made of such events and no shock returns the base
    forecast, with a total impact of 0 at every period. *)
Theorem X18_interval_events_do_nothing_in_2024_2027
    (h : list ndarray) (base : exogenous.ref) (b : ndarray)
    (date_range : list Timestamp) (scenario : exogenous.Scenario) :
  nth_error h base = Some b ->
  List.length b = List.length date_range ->
  date_range <> [] ->
  (forall d, In d date_range -> (2024 <= year d <= 2027)%Z) ->
  (forall e, In e (exogenous.get_or (exogenous.events scenario) []) ->
             interval_event e = true) ->
  no_shocks scenario ->
  exists res s',
    exogenous.simulate_scenario base date_range scenario
      (exogenous.__init__ h) = (Ok res, s')
    /\ exogenous.adjusted_forecast res = b
    /\ exogenous.total_impact_pct res = map (fun _ => 0) date_range.
Proof.
  intros Hb Hlen Hne Hyears Hev Hsh.
  destruct (@simulate_scenario_run exogenous._define_events h base b
              date_range scenario _ Hb Hlen Hne
              (features_of_catalog h date_range scenario))
    as (res & s' & Hrun & _ & Hpct & Hadj & _ & _).
  exists res, s'. split; [exact Hrun|].
  assert (Hrows :
    df_sum_rows
      {| index := date_range;
         columns := columns_after exogenous._define_events date_range
                      (exogenous.get_or (exogenous.events scenario) [])
                      [] |}
    = repeat 0 (List.length date_range)).
  { unfold df_sum_rows. cbn [index columns]. apply sum_zero_columns.
    intros c Hc. unfold dict_values in Hc.
    apply in_map_iff in Hc as (x & <- & Hx). revert x Hx.
    apply (columns_after_all
             (fun c => c = repeat (Q2Qc 0) (List.length date_range)));
      [|intros x []].
    intros e He. unfold column_of.
    rewrite repeat_as_map.
    destruct (exogenous.lookup_event e exogenous._define_events)
      as [def|] eqn:Hdef.
    - apply map_ext_in. intros d Hd.
      destruct (interval_event_cell e d (Hev e He) (Hyears d Hd))
        as (def' & Hdef' & Hcell).
      congruence.
    - destruct e; discriminate Hdef. }
  rewrite Hrows in Hpct, Hadj. unfold no_shocks in Hsh.
  rewrite Hsh in Hpct, Hadj. rewrite map_repeat in Hpct, Hadj.
  split.
  - rewrite Hadj. unfold np_add_scalar. rewrite map_repeat.
    rewrite zip_with_mul_const by exact Hlen.
    rewrite <- (map_id b) at 2. apply map_ext. intros x.
    unfold shock_sum, qsum. cbn [map fold_right]. ring.
  - rewrite Hpct. unfold np_scale. rewrite map_repeat, repeat_as_map.
    apply map_ext. intros _. unfold shock_sum, qsum. cbn [map fold_right].
    ring.
Qed.

(** ** Extreme weather, the seasonal event *)

Lemma quarter_range (d : Timestamp) :
  (1 <= month d <= 12)%Z ->
  quarter d = 1%Z \/ quarter d = 2%Z \/ quarter d = 3%Z \/ quarter d = 4%Z.
Proof.
  intros Hm. unfold quarter.
  assert (H : (0 <= (month d - 1) / 3 < 4)%Z).
  { split; [apply Z.div_pos; lia|].
    apply Z.div_lt_upper_bound; lia. }
  lia.
Qed.

Lemma extreme_weather_cell (def : exogenous.EventDef) (d : Timestamp) :
  exogenous.lookup_event exogenous.EXTREME_WEATHER exogenous._define_events
  = Some def ->
  (1 <= month d <= 12)%Z ->
  cell def d = extreme_weather_value (quarter d).
Proof.
  intros Hdef Hm. cbn in Hdef. injection Hdef as <-.
  unfold cell, last_match, quarter_matches, extreme_weather_value.
  cbn -[quarter Z.eqb Qcmult dec].
  destruct (quarter_range d Hm) as [-> | [-> | [-> | ->]]];
    cbn -[Qcmult dec]; apply Qc_is_canon; reflexivity.
Qed.

(** X19.  With the catalog of the source, extreme weather weighs on every
    period, by an amount that depends on the quarter of the date alone:
    -4.5 percent in the first quarter, -3 in the second, -7.5 in the third
    and -3 in the fourth.  A scenario made of this event and no shock
    returns the base forecast reduced accordingly. *)
Theorem X19_extreme_weather_by_quarter
    (h : list ndarray) (base : exogenous.ref) (b : ndarray)
    (date_range : list Timestamp) :
  nth_error h base = Some b ->
  List.length b = List.length date_range ->
  date_range <> [] ->
  (forall d, In d date_range -> (1 <= month d <= 12)%Z) ->
  exists res s',
    exogenous.simulate_scenario base date_range
      (events_only [exogenous.EXTREME_WEATHER]) (exogenous.__init__ h)
    = (Ok res, s')
    /\ exogenous.total_impact_pct res
       = map (fun d => dec 100 1 * extreme_weather_value (quarter d))
             date_range
    /\ exogenous.adjusted_forecast res
       = zip_with Qcmult b
           (map (fun d => 1 + extreme_weather_value (quarter d)) date_range).
Proof.
  intros Hb Hlen Hne Hmonths.
  destruct (@simulate_scenario_run exogenous._define_events h base b
              date_range (events_only [exogenous.EXTREME_WEATHER]) _
              Hb Hlen Hne
              (features_of_catalog h date_range
                 (events_only [exogenous.EXTREME_WEATHER])))
    as (res & s' & Hrun & _ & Hpct & Hadj & _ & _).
  exists res, s'. split; [exact Hrun|].
  cbn [events_only exogenous.events exogenous.custom_shocks exogenous.get_or]
    in Hpct, Hadj.
  rewrite sum_rows_of_events in Hpct, Hadj;
    [| repeat constructor; intros []
     | apply define_events_serves
     | repeat constructor; intros []
     | apply define_events_serves ].
  rewrite map_map in Hpct, Hadj.
  assert (Hval : forall d, In d date_range ->
            impact_at exogenous._define_events [exogenous.EXTREME_WEATHER] d
            + shock_sum [] = extreme_weather_value (quarter d)).
  { intros d Hd. unfold impact_at, shock_sum, qsum.
    cbn [map fold_right].
    destruct (exogenous.lookup_event exogenous.EXTREME_WEATHER
                exogenous._define_events) as [def|] eqn:Hdef;
      [|discriminate Hdef].
    rewrite (extreme_weather_cell d Hdef (Hmonths d Hd)). ring. }
  split.
  - rewrite Hpct. unfold np_scale. rewrite map_map.
    apply map_ext_in. intros d Hd. now rewrite Hval.
  - rewrite Hadj. unfold np_add_scalar. rewrite map_map. f_equal.
    apply map_ext_in. intros d Hd. now rewrite Hval.
Qed.

(** ** Where an interval ends *)

Lemma to_datetime_first_instant (str : string) (t : Timestamp) :
  to_datetime str = Ok t -> day t = 1%Z /\ nanos t = 0%Z.
Proof.
  unfold to_datetime.
  repeat (destruct str as [|? str]; try discriminate).
  destruct (parse_digits _ 0); try discriminate.
  destruct (parse_digits _ 0); try discriminate.
  destruct (_ && _ && _); try discriminate.
  intros [= <-]. split; reflexivity.
Qed.

Lemma nth_mask_assign (mask : list bool) (c : Qc) (col : ndarray) (i : nat)
    (m : bool) :
  nth_error mask i = Some m -> (i < List.length col)%nat ->
  nth i (mask_assign mask c col) 0 = if m then c else nth i col 0.
Proof.
  revert col i. induction mask as [|m0 mask IH]; intros [|x col] [|i];
    simpl; try discriminate; try lia.
  - now intros [= ->].
  - intros H Hi. apply IH; [exact H | lia].
Qed.

Lemma ts_leb_later_in_month (d e : Timestamp) :
  year d = year e -> month d = month e ->
  (day e < day d \/ (day d = day e /\ nanos e < nanos d))%Z ->
  ts_leb d e = false.
Proof.
  intros Hy Hm Hlater. unfold ts_leb, ts_compare.
  rewrite Hy, Hm, !Z.compare_refl.
  destruct Hlater as [H | [Hd H]].
  - apply Z.compare_gt_iff in H. now rewrite H.
  - rewrite Hd, Z.compare_refl. apply Z.compare_gt_iff in H. now rewrite H.
Qed.

(** X20.  An interval stops at the first instant of its end month.  The
    bounds of an interval are months, read as the first day of the month at
    midnight: applying an interval leaves the column as it was at every
    date of the end month that comes later than that instant, and sets it
    to [severity * multiplier] at that instant itself (when the interval
    starts no later). *)
Theorem X20_interval_ends_with_first_instant_of_end_month
    (name : string) (multiplier : Qc) (df : DataFrame)
    (p : exogenous.HistoricalPeriod) (col : ndarray)
    (start_ts end_ts d : Timestamp) (i : nat) :
  to_datetime (exogenous.start p) = Ok start_ts ->
  to_datetime (exogenous.end_ p) = Ok end_ts ->
  dict_get name (columns df) = Some col ->
  nth_error (index df) i = Some d ->
  (i < List.length col)%nat ->
  year d = year end_ts ->
  month d = month end_ts ->
  exists df' col',
    exogenous.apply_period name multiplier df p = Ok df'
    /\ dict_get name (columns df') = Some col'
    /\ ((1 < day d \/ (day d = 1 /\ 0 < nanos d))%Z ->
        nth i col' 0 = nth i col 0)
    /\ (d = end_ts -> ts_geb end_ts start_ts = true ->
        nth i col' 0 = exogenous.severity p * multiplier).
Proof.
  intros Hs He Hcol Hd Hi Hy Hm.
  destruct (to_datetime_first_instant _ He) as [Hday Hnanos].
  unfold exogenous.apply_period. rewrite Hs, He. cbn [rbind].
  unfold df_loc_set, dict_index. rewrite Hcol. cbn [rbind].
  eexists. eexists. split; [reflexivity|].
  cbn [columns]. split; [apply dict_get_set_same|].
  assert (Hmask : nth_error
                    (map (fun d0 => ts_geb d0 start_ts && ts_leb d0 end_ts)
                         (index df)) i
                  = Some (ts_geb d start_ts && ts_leb d end_ts))
    by exact (map_nth_error
                (fun d0 => ts_geb d0 start_ts && ts_leb d0 end_ts)
                i (index df) Hd).
  rewrite (nth_mask_assign _ _ _ Hmask Hi). split.
  - intros Hlater. rewrite ts_leb_later_in_month; [| exact Hy | exact Hm |].
    + now rewrite andb_false_r.
    + rewrite Hday, Hnanos. destruct Hlater as [H|[H1 H2]];
        [left; exact H | right; split; [exact H1 | exact H2]].
  - intros -> Hstart. rewrite Hstart.
    unfold ts_leb, ts_compare. rewrite !Z.compare_refl. reflexivity.
Qed.

(* ------------------------------------------------------------------ *)
(** * The scenario properties at concrete inputs *)

Lemma X15_witness :
  exists res s',
    exogenous.simulate_scenario 0%nat quarters_2024 single_shock
      (exogenous.__init__ one_forecast) = (Ok res, s')
    /\ exogenous.base_forecast res = four_quarters
    /\ List.length (exogenous.adjusted_forecast res)
       = List.length quarters_2024
    /\ List.length (exogenous.total_impact_pct res)
       = List.length quarters_2024.
Proof.
  apply (@X15_simulate_scenario_returns one_forecast 0%nat four_quarters
           quarters_2024 single_shock).
  - reflexivity.
  - reflexivity.
  - discriminate.
Defined.

Lemma X16_witness :
  let scenario :=
    {| exogenous.sc_id := None;
       exogenous.sc_name := None;
       exogenous.sc_description := None;
       exogenous.events :=
         Some [exogenous.COVID_19; exogenous.EXTREME_WEATHER];
       exogenous.custom_shocks :=
         Some [exogenous.shock "2024-Q3" (dec (-2) 10)] |} in
  let total := fun d =>
    impact_at exogenous._define_events
              [exogenous.COVID_19; exogenous.EXTREME_WEATHER] d
    + shock_sum [exogenous.shock "2024-Q3" (dec (-2) 10)] in
  exists res s',
    exogenous.simulate_scenario 0%nat quarters_2024 scenario
      {| exogenous.event_definitions := exogenous._define_events;
         exogenous.heap := one_forecast |}
    = (Ok res, s')
    /\ exogenous.total_impact_pct res
       = map (fun d => dec 100 1 * total d) quarters_2024
    /\ exogenous.adjusted_forecast res
       = zip_with Qcmult four_quarters
           (map (fun d => 1 + total d) quarters_2024).
Proof.
  intros scenario total.
  apply (@X16_events_add_up exogenous._define_events one_forecast 0%nat
           four_quarters quarters_2024 scenario).
  - repeat constructor; simpl; intuition discriminate.
  - apply define_events_serves.
  - reflexivity.
  - reflexivity.
  - discriminate.
Defined.

Lemma X17_witness :
  exogenous.create_exogenous_features quarters_2024
    ([exogenous.WILDFIRE; exogenous.EXTREME_WEATHER] ++ [exogenous.WILDFIRE])
    (exogenous.__init__ one_forecast)
  = exogenous.create_exogenous_features quarters_2024
      [exogenous.WILDFIRE; exogenous.EXTREME_WEATHER]
      (exogenous.__init__ one_forecast).
Proof.
  apply (@X17_event_enabled_twice_counts_once
           (exogenous.__init__ one_forecast) quarters_2024
           [exogenous.WILDFIRE; exogenous.EXTREME_WEATHER]
           exogenous.WILDFIRE).
  - apply define_events_serves.
  - left; reflexivity.
Defined.

Lemma X18_witness :
  exists res s',
    exogenous.simulate_scenario 0%nat quarters_2024
      (events_only [exogenous.MAJOR_EVENT; exogenous.COVID_19])
      (exogenous.__init__ one_forecast) = (Ok res, s')
    /\ exogenous.adjusted_forecast res = four_quarters
    /\ exogenous.total_impact_pct res = map (fun _ => 0) quarters_2024.
Proof.
  apply (@X18_interval_events_do_nothing_in_2024_2027 one_forecast 0%nat
           four_quarters quarters_2024
           (events_only [exogenous.MAJOR_EVENT; exogenous.COVID_19])).
  - reflexivity.
  - reflexivity.
  - discriminate.
  - intros d Hd; simpl in Hd.
    destruct Hd as [<-|[<-|[<-|[<-|[]]]]]; simpl; lia.
  - intros e He; simpl in He.
    destruct He as [<-|[<-|[]]]; reflexivity.
  - reflexivity.
Defined.

Lemma X19_witness :
  exists res s',
    exogenous.simulate_scenario 0%nat quarters_2024
      (events_only [exogenous.EXTREME_WEATHER])
      (exogenous.__init__ one_forecast)
    = (Ok res, s')
    /\ exogenous.total_impact_pct res
       = map (fun d => dec 100 1 * extreme_weather_value (quarter d))
             quarters_2024
    /\ exogenous.adjusted_forecast res
       = zip_with Qcmult four_quarters
           (map (fun d => 1 + extreme_weather_value (quarter d))
                quarters_2024).
Proof.
  apply (@X19_extreme_weather_by_quarter one_forecast 0%nat four_quarters
           quarters_2024).
  - reflexivity.
  - reflexivity.
  - discriminate.
  - intros d Hd; simpl in Hd.
    destruct Hd as [<-|[<-|[<-|[<-|[]]]]]; simpl; lia.
Defined.

Lemma X20_witness :
  let mid_june := {| year := 2021; month := 6; day := 15; nanos := 0 |} in
  let df := {| index := [mid_june];
               columns := [("exog_covid_19"%string, [0])] |} in
  let p := exogenous.hp "2020-03" "2021-06" (dec 8 10) in
  exists df' col',
    exogenous.apply_period "exog_covid_19" (dec (-6) 10) df p = Ok df'
    /\ dict_get "exog_covid_19"%string (columns df') = Some col'
    /\ ((1 < day mid_june
         \/ (day mid_june = 1 /\ 0 < nanos mid_june))%Z ->
        nth 0 col' 0 = nth 0 [0] 0)
    /\ (mid_june = quarter_start 2021 6 ->
        ts_geb (quarter_start 2021 6) (quarter_start 2020 3) = true ->
        nth 0 col' 0 = exogenous.severity p * dec (-6) 10).
Proof.
  intros mid_june df p.
  apply (@X20_interval_ends_with_first_instant_of_end_month
           "exog_covid_19" (dec (-6) 10) df p [0]
           (quarter_start 2020 3) (quarter_start 2021 6) mid_june 0%nat).
  - reflexivity.
  - reflexivity.
  - reflexivity.
  - reflexivity.
  - simpl; lia.
  - reflexivity.
  - reflexivity.
Defined.

(* ------------------------------------------------------------------ *)
(** * The handler of [POST /simulate] *)

Lemma map_result_app A B (f : A -> result B) (l1 l2 : list A) :
  map_result f (l1 ++ l2)
  = rbind (map_result f l1) (fun b1 =>
      rbind (map_result f l2) (fun b2 => Ok (b1 ++ b2))).
Proof.
  induction l1 as [|a l1 IH]; cbn [app map_result].
  - destruct (map_result f l2); reflexivity.
  - destruct (f a) as [b|e]; [|reflexivity]. cbn [rbind]. rewrite IH.
    destruct (map_result f l1) as [b1|e]; [|reflexivity]. cbn [rbind].
    destruct (map_result f l2); reflexivity.
Qed.

(** The dates of the periods, for the horizons that have dates. *)
Lemma dates_up_to_eight (h : Z) :
  (h <= 8)%Z ->
  map_result scenarios.first_day_of_quarter
    (map scenarios.quarter_label (inference.range 1 (h + 1)))
  = Ok (map period_date (inference.range 1 (h + 1))).
Proof.
  intros Hh. destruct (Z_le_gt_dec h 0) as [Hneg|Hpos].
  - unfold inference.range.
    replace (Z.to_nat (h + 1 - 1)) with 0%nat by lia. reflexivity.
  - assert (Hcases : (h = 1 \/ h = 2 \/ h = 3 \/ h = 4 \/ h = 5 \/ h = 6
                      \/ h = 7 \/ h = 8)%Z) by lia.
    destruct Hcases as [->|[->|[->|[->|[->|[->|[->| ->]]]]]]];
      vm_compute; reflexivity.
Qed.

Lemma dates_beyond_eight (h : Z) :
  (9 <= h)%Z ->
  map_result scenarios.first_day_of_quarter
    (map scenarios.quarter_label (inference.range 1 (h + 1)))
  = Raise (ValueError "month must be in 1..12").
Proof.
  intros Hh. unfold inference.range.
  replace (Z.to_nat (h + 1 - 1)) with (8 + S (Z.to_nat h - 9))%nat by lia.
  rewrite seq_app, !map_app, map_result_app.
  change (map (fun k => (1 + Z.of_nat k)%Z) (seq 0 8))
    with (inference.range 1 (8 + 1)).
  rewrite dates_up_to_eight by lia. cbn [rbind].
  cbn [seq map map_result Nat.add].
  change (scenarios.first_day_of_quarter
            (scenarios.quarter_label (1 + Z.of_nat 8)))
    with (@Raise Timestamp (ValueError "month must be in 1..12")).
  reflexivity.
Qed.

Lemma period_date_years (h : Z) (d : Timestamp) :
  In d (map period_date (inference.range 1 (h + 1))) ->
  (2024 <= year d <= 2027)%Z /\ (1 <= month d <= 12)%Z
  \/ (8 < h)%Z.
Proof.
  intros Hd. destruct (Z_le_gt_dec h 8) as [Hh|Hh]; [left | right; lia].
  apply in_map_iff in Hd as (i & <- & Hi).
  unfold inference.range in Hi. apply in_map_iff in Hi as (k & <- & Hk).
  apply in_seq in Hk.
  assert (Hcases : (k = 0 \/ k = 1 \/ k = 2 \/ k = 3 \/ k = 4 \/ k = 5
                    \/ k = 6 \/ k = 7)%nat) by lia.
  destruct Hcases as [->|[->|[->|[->|[->|[->|[->| ->]]]]]]];
    vm_compute; repeat split; discriminate.
Qed.

Lemma period_date_quarter (h : Z) (i : Z) :
  (h <= 8)%Z ->
  In i (inference.range 1 (h + 1)) ->
  quarter (period_date i) = period_quarter i.
Proof.
  intros Hh Hi.
  unfold inference.range in Hi. apply in_map_iff in Hi as (k & <- & Hk).
  apply in_seq in Hk.
  assert (Hcases : (k = 0 \/ k = 1 \/ k = 2 \/ k = 3 \/ k = 4 \/ k = 5
                    \/ k = 6 \/ k = 7)%nat) by lia.
  destruct Hcases as [->|[->|[->|[->|[->|[->|[->| ->]]]]]]]; reflexivity.
Qed.

Lemma range_length (lo hi : Z) :
  List.length (inference.range lo hi) = Z.to_nat (hi - lo).
Proof. unfold inference.range. now rewrite length_map, length_seq. Qed.

(** Looking up an identifier no template has. *)
Lemma next_with_id_none (id : string) (l : list exogenous.Scenario) :
  (forall t, In t l -> exists i, exogenous.sc_id t = Some i /\ i <> id) ->
  scenarios.next_with_id id l = Ok None.
Proof.
  induction l as [|t l IH]; intros H; [reflexivity|].
  cbn [scenarios.next_with_id].
  destruct (H t (or_introl eq_refl)) as (i & -> & Hi).
  apply String.eqb_neq in Hi. rewrite Hi.
  apply IH. intros t' Ht'. apply H. now right.
Qed.

Lemma next_with_id_unknown (id : string) :
  (forall t, In t exogenous.get_available_scenarios ->
             exogenous.sc_id t <> Some id) ->
  scenarios.next_with_id id exogenous.get_available_scenarios = Ok None.
Proof.
  intros Hid. apply next_with_id_none. intros t Ht.
  specialize (Hid t Ht). cbn in Ht.
  repeat (destruct Ht as [<-|Ht];
          [eexists; split; [reflexivity | intros <-; now apply Hid]|]).
  destruct Ht.
Qed.

(** Converting event names, one of which names no member. *)
Lemma ExogenousEventType_of_cases (event_str : string) :
  (exists e, scenarios.ExogenousEventType_of event_str = Ok e
             /\ exogenous.value e = event_str)
  \/ (scenarios.ExogenousEventType_of event_str
      = Raise (ValueError "is not a valid ExogenousEventType")
      /\ forall e, exogenous.value e <> event_str).
Proof.
  unfold scenarios.ExogenousEventType_of.
  destruct (find _ scenarios.members) as [e|] eqn:Hfind.
  - left. exists e. split; [reflexivity|].
    apply find_some in Hfind as [_ H]. now apply String.eqb_eq in H.
  - right. split; [reflexivity|]. intros e He.
    assert (Hin : In e scenarios.members)
      by (destruct e; cbn; tauto).
    pose proof (find_none _ _ Hfind e Hin) as H. cbn beta in H.
    apply String.eqb_neq in H. contradiction.
Qed.

Lemma event_enums_invalid (events : list string) (event_str : string) :
  In event_str events ->
  (forall e, exogenous.value e <> event_str) ->
  scenarios.event_enums events = scenarios.Throw (scenarios.HTTPException 400).
Proof.
  intros Hin Hbad. induction events as [|ev events IH]; [destruct Hin|].
  cbn [scenarios.event_enums].
  destruct (ExogenousEventType_of_cases ev) as [(e & -> & He)|[-> _]];
    [|reflexivity].
  destruct Hin as [->|Hin]; [destruct (Hbad e He)|].
  now rewrite (IH Hin).
Qed.

(** X21.  A request for more than eight quarters cannot be served.  The
    handler labels the periods [2024Q1] to [2024Q4] and then [2025Q1]
    onwards without starting a new year after [2025Q4], so the ninth
    period is quarter 5 of 2025, whose first month would be month 13:
    building that date raises a [ValueError], which the handler answers
    with the status 500, whatever the service, the scenario and the
    events.  (The request model accepts horizons up to 12.) *)
Theorem X21_simulate_fails_beyond_eight_quarters
    (forecast_service : inference.ForecastService)
    (request : scenarios.ScenarioRequest) (s : exogenous.Store) :
  (9 <= scenarios.horizon request)%Z ->
  (exists msg s',
      scenarios.simulate_body forecast_service request s
      = (scenarios.Throw (scenarios.Exception (ValueError msg)), s'))
  /\ fst (scenarios.simulate_scenario forecast_service request s)
     = scenarios.Throw (scenarios.HTTPException 500).
Proof.
  intros Hh.
  assert (Hbody : exists msg s',
             scenarios.simulate_body forecast_service request s
             = (scenarios.Throw (scenarios.Exception (ValueError msg)), s')).
  { unfold scenarios.simulate_body, scenarios.run_bind, scenarios.of_outcome,
      scenarios.of_M.
    destruct (forecast_volume_total forecast_service
                (scenarios.horizon request) (scenarios.base_model request)
                false) as [fc ->].
    cbn [scenarios.of_result exogenous.np_new].
    rewrite (dates_beyond_eight Hh). cbn [scenarios.of_result].
    eexists. eexists. reflexivity. }
  split; [exact Hbody|].
  destruct Hbody as (msg & s' & Hbody).
  unfold scenarios.simulate_scenario. now rewrite Hbody.
Qed.

(** X22.  An unknown scenario identifier is answered with the status 500,
    not 404.  For a request the handler has dates for, naming a scenario
    that is not among the predefined ones, the body raises the
    [HTTPException] 404 it means to answer with; that exception is raised
    inside the [try] block, whose handler catches every [Exception] and
    raises the status 500 in its place. *)
Theorem X22_unknown_scenario_is_answered_500
    (forecast_service : inference.ForecastService)
    (request : scenarios.ScenarioRequest) (s : exogenous.Store)
    (id : string) :
  (scenarios.horizon request <= 8)%Z ->
  scenarios.scenario_id request = Some id ->
  id <> ""%string ->
  (forall t, In t exogenous.get_available_scenarios ->
             exogenous.sc_id t <> Some id) ->
  (exists s',
      scenarios.simulate_body forecast_service request s
      = (scenarios.Throw (scenarios.HTTPException 404), s'))
  /\ fst (scenarios.simulate_scenario forecast_service request s)
     = scenarios.Throw (scenarios.HTTPException 500).
Proof.
  intros Hh Hid Hne Hunknown.
  assert (Hbody : exists s',
             scenarios.simulate_body forecast_service request s
             = (scenarios.Throw (scenarios.HTTPException 404), s')).
  { unfold scenarios.simulate_body, scenarios.run_bind, scenarios.of_outcome,
      scenarios.of_M.
    destruct (forecast_volume_total forecast_service
                (scenarios.horizon request) (scenarios.base_model request)
                false) as [fc ->].
    cbn [scenarios.of_result exogenous.np_new].
    rewrite (dates_up_to_eight Hh). cbn [scenarios.of_result].
    unfold scenarios.build_scenario. rewrite Hid.
    destruct id as [|c id]; [congruence|].
    cbn [scenarios.truthy scenarios.or_default].
    rewrite (next_with_id_unknown Hunknown).
    eexists. reflexivity. }
  split; [exact Hbody|].
  destruct Hbody as (s' & Hbody).
  unfold scenarios.simulate_scenario. now rewrite Hbody.
Qed.

(** X23.  An event name that is no member of [ExogenousEventType] is
    answered with the status 500, not 400.  For a request the handler has
    dates for, without scenario identifier, one of whose event names is
    the value of no member, the body raises the [HTTPException] 400 it
    means to answer with, and the handler of the [try] block replaces it by
    the status 500. *)
Theorem X23_invalid_event_is_answered_500
    (forecast_service : inference.ForecastService)
    (request : scenarios.ScenarioRequest) (s : exogenous.Store)
    (event_str : string) :
  (scenarios.horizon request <= 8)%Z ->
  scenarios.truthy (scenarios.scenario_id request) = false ->
  In event_str (scenarios.events request) ->
  (forall e, exogenous.value e <> event_str) ->
  (exists s',
      scenarios.simulate_body forecast_service request s
      = (scenarios.Throw (scenarios.HTTPException 400), s'))
  /\ fst (scenarios.simulate_scenario forecast_service request s)
     = scenarios.Throw (scenarios.HTTPException 500).
Proof.
  intros Hh Hid Hin Hbad.
  assert (Hbody : exists s',
             scenarios.simulate_body forecast_service request s
             = (scenarios.Throw (scenarios.HTTPException 400), s')).
  { unfold scenarios.simulate_body, scenarios.run_bind, scenarios.of_outcome,
      scenarios.of_M.
    destruct (forecast_volume_total forecast_service
                (scenarios.horizon request) (scenarios.base_model request)
                false) as [fc ->].
    cbn [scenarios.of_result exogenous.np_new].
    rewrite (dates_up_to_eight Hh). cbn [scenarios.of_result].
    unfold scenarios.build_scenario. rewrite Hid.
    rewrite (event_enums_invalid _ Hin Hbad).
    eexists. reflexivity. }
  split; [exact Hbody|].
  destruct Hbody as (s' & Hbody).
  unfold scenarios.simulate_scenario. now rewrite Hbody.
Qed.

(** ** What the events amount to at the dates of the handler *)

Lemma event_dec (a b : exogenous.ExogenousEventType) : {a = b} + {a <> b}.
Proof. decide equality. Qed.

Lemma zip_with_maps A (f : Qc -> Qc -> Qc) (g k : A -> Qc) (l : list A) :
  zip_with f (map g l) (map k l) = map (fun x => f (g x) (k x)) l.
Proof. induction l as [|x l IH]; cbn; [reflexivity | now rewrite IH]. Qed.

Lemma weather_only_once (enabled : list exogenous.ExogenousEventType) :
  ~ In exogenous.EXTREME_WEATHER enabled ->
  existsb (fun e => negb (interval_event e)) enabled = false.
Proof.
  intros Hnotin. destruct (existsb _ enabled) eqn:Hex; [|reflexivity].
  apply existsb_exists in Hex as (e & He & Hw).
  destruct e; try discriminate Hw. contradiction.
Qed.

(** In the years 2024 to 2027 the rows of the feature frame hold the value
    of extreme weather when it is enabled, and 0 otherwise, whichever
    events are enabled and however often. *)
Lemma weather_rows (dates : list Timestamp)
    (enabled : list exogenous.ExogenousEventType) :
  (forall d, In d dates ->
             (2024 <= year d <= 2027)%Z /\ (1 <= month d <= 12)%Z) ->
  df_sum_rows
    {| index := dates;
       columns := columns_after exogenous._define_events dates enabled [] |}
  = map (fun d => weather_impact enabled (quarter d)) dates.
Proof.
  intros Hdates. induction enabled as [|e enabled IH] using rev_ind.
  - unfold df_sum_rows. cbn. apply repeat_as_map.
  - destruct (in_dec event_dec e enabled) as [Hin|Hnotin].
    + assert (Hcols :
        columns_after exogenous._define_events dates (enabled ++ [e]) []
        = columns_after exogenous._define_events dates enabled []).
      { unfold columns_after. rewrite fold_left_app. cbn [fold_left].
        apply dict_set_same.
        apply (@columns_after_get exogenous._define_events dates enabled
                 [] e Hin). }
      rewrite Hcols, IH. apply map_ext. intros d.
      unfold weather_impact. rewrite existsb_app. cbn [existsb].
      rewrite orb_false_r.
      destruct (negb (interval_event e)) eqn:He.
      * replace (existsb (fun e0 => negb (interval_event e0)) enabled)
          with true; [reflexivity|].
        symmetry. apply existsb_exists. exists e. now split.
      * now rewrite orb_false_r.
    + assert (Hcols :
        columns_after exogenous._define_events dates (enabled ++ [e]) []
        = columns_after exogenous._define_events dates enabled []
          ++ [(feature_name e,
               column_of exogenous._define_events dates e)]).
      { unfold columns_after. rewrite fold_left_app. cbn [fold_left].
        apply dict_set_fresh. intros Hkey.
        apply (@columns_after_keys exogenous._define_events dates enabled
                 [] (feature_name e)) in Hkey as [[]|(e' & He' & Heq)].
        apply feature_name_inj in Heq. subst e'. contradiction. }
      rewrite Hcols. unfold df_sum_rows in *. cbn [index columns] in *.
      unfold dict_values in *. rewrite map_app, fold_left_app.
      cbn [map fold_left snd]. rewrite IH.
      destruct (exogenous.lookup_event e exogenous._define_events)
        as [def|] eqn:Hdef; [|destruct e; discriminate Hdef].
      unfold column_of. rewrite Hdef, zip_with_maps.
      apply map_ext_in. intros d Hd. destruct (Hdates d Hd) as [Hy Hm].
      unfold weather_impact. rewrite existsb_app. cbn [existsb].
      rewrite orb_false_r.
      destruct (interval_event e) eqn:He.
      * destruct (interval_event_cell e d He Hy) as (def' & Hdef' & Hcell).
        assert (def' = def) by congruence. subst def'. rewrite Hcell.
        cbn [negb]. rewrite orb_false_r.
        destruct (existsb _ enabled); ring.
      * assert (e = exogenous.EXTREME_WEATHER)
          by (destruct e; try discriminate He; reflexivity).
        subst e. rewrite (extreme_weather_cell d Hdef Hm).
        rewrite (@weather_only_once enabled Hnotin). cbn [negb orb]. ring.
Qed.

(** X24.  What the handler answers for the horizons it can serve.  For a
    horizon of one to eight quarters, a scenario that the request builds
    and a base forecast with one value per quarter, the handler returns
    the base forecast, the period labels, and an impact that is, at every
    period, the value of extreme weather in that quarter of the year if
    that event is enabled, plus the sum of all custom shocks.  The five
    other events add nothing, the dates of the handler lying in 2024 and
    2025, outside every interval of the catalog; an event enabled several
    times counts once; a shock weighs on every period whatever its
    [period]. *)
Theorem X24_simulate_through_the_handler
    (forecast_service : inference.ForecastService)
    (request : scenarios.ScenarioRequest) (h : list ndarray)
    (fc : inference.Forecast) (scenario : exogenous.Scenario) :
  let n := scenarios.horizon request in
  let enabled := exogenous.get_or (exogenous.events scenario) [] in
  let shocks := exogenous.get_or (exogenous.custom_shocks scenario) [] in
  let total := fun i =>
    weather_impact enabled (period_quarter i) + shock_sum shocks in
  (1 <= n <= 8)%Z ->
  inference.forecast_volume forecast_service n
    (scenarios.base_model request) false = Ok fc ->
  List.length (inference.forecast fc) = Z.to_nat n ->
  scenarios.build_scenario request = scenarios.Return scenario ->
  exists response s',
    scenarios.simulate_scenario forecast_service request
      (exogenous.__init__ h) = (scenarios.Return response, s')
    /\ scenarios.base_forecast response = inference.forecast fc
    /\ scenarios.total_impact_pct response
       = map (fun i => dec 100 1 * total i) (inference.range 1 (n + 1))
    /\ scenarios.adjusted_forecast response
       = zip_with Qcmult (inference.forecast fc)
           (map (fun i => 1 + total i) (inference.range 1 (n + 1)))
    /\ scenarios.periods response
       = map scenarios.quarter_label (inference.range 1 (n + 1)).
Proof.
  intros n enabled shocks total Hn Hfc Hlen Hbuild.
  set (b := inference.forecast fc) in *.
  set (dates := map period_date (inference.range 1 (n + 1))).
  assert (Hdates_len : List.length dates = Z.to_nat n).
  { unfold dates. rewrite length_map, range_length. f_equal. lia. }
  assert (Hne : dates <> []).
  { intros E. rewrite E in Hdates_len. cbn in Hdates_len. lia. }
  assert (Hb : nth_error (h ++ [b]) (List.length h) = Some b).
  { rewrite nth_error_app2 by lia. now rewrite Nat.sub_diag. }
  assert (Hbl : List.length b = List.length dates) by congruence.
  assert (Hyears : forall d, In d dates ->
            (2024 <= year d <= 2027)%Z /\ (1 <= month d <= 12)%Z).
  { intros d Hd. destruct (period_date_years n d Hd) as [H|H];
      [exact H | lia]. }
  destruct (@simulate_scenario_run exogenous._define_events (h ++ [b])
              (List.length h) b dates scenario _ Hb Hbl Hne
              (features_of_catalog (h ++ [b]) dates scenario))
    as (res & s' & Hrun & Hbase & Hpct & Hadj & _ & _).
  exists (response_of res
            (map scenarios.quarter_label (inference.range 1 (n + 1)))), s'.
  split.
  - unfold scenarios.simulate_scenario, scenarios.simulate_body,
      scenarios.run_bind, scenarios.of_outcome, scenarios.of_M.
    fold n. rewrite Hfc. cbn [scenarios.of_result exogenous.np_new].
    rewrite (dates_up_to_eight (h := n)) by lia.
    cbn [scenarios.of_result]. rewrite Hbuild.
    cbn [exogenous.with_heap exogenous.__init__ exogenous.heap
         exogenous.event_definitions].
    fold b. fold dates.
    change (exogenous.with_heap (exogenous.__init__ h) (h ++ [b]))
      with {| exogenous.event_definitions := exogenous._define_events;
              exogenous.heap := h ++ [b] |}.
    rewrite Hrun. reflexivity.
  - cbn [response_of scenarios.base_forecast scenarios.total_impact_pct
         scenarios.adjusted_forecast scenarios.periods].
    rewrite (@weather_rows dates _ Hyears) in Hpct, Hadj.
    fold enabled shocks in Hpct, Hadj.
    assert (Hval : map (fun x => x + shock_sum shocks)
                     (map (fun d => weather_impact enabled (quarter d))
                          dates)
                   = map total (inference.range 1 (n + 1))).
    { unfold dates. rewrite !map_map. apply map_ext_in. intros i Hi.
      unfold total. now rewrite (@period_date_quarter n i (proj2 Hn) Hi). }
    rewrite Hval in Hpct, Hadj.
    split; [exact Hbase|]. split; [|split; [|reflexivity]].
    + rewrite Hpct. unfold np_scale. now rewrite map_map.
    + rewrite Hadj. unfold np_add_scalar. now rewrite map_map.
Qed.

(* ------------------------------------------------------------------ *)
(** * The handler at concrete requests *)

Lemma X21_witness :
  (exists msg s',
      scenarios.simulate_body no_models (request_by_id "baseline" 9)
        (exogenous.__init__ [])
      = (scenarios.Throw (scenarios.Exception (ValueError msg)), s'))
  /\ fst (scenarios.simulate_scenario no_models (request_by_id "baseline" 9)
            (exogenous.__init__ []))
     = scenarios.Throw (scenarios.HTTPException 500).
Proof.
  apply (@X21_simulate_fails_beyond_eight_quarters no_models
           (request_by_id "baseline" 9) (exogenous.__init__ [])).
  cbn. lia.
Defined.

Lemma X22_witness :
  (exists s',
      scenarios.simulate_body no_models (request_by_id "boom" 4)
        (exogenous.__init__ [])
      = (scenarios.Throw (scenarios.HTTPException 404), s'))
  /\ fst (scenarios.simulate_scenario no_models (request_by_id "boom" 4)
            (exogenous.__init__ []))
     = scenarios.Throw (scenarios.HTTPException 500).
Proof.
  apply (@X22_unknown_scenario_is_answered_500 no_models
           (request_by_id "boom" 4) (exogenous.__init__ []) "boom").
  - cbn. lia.
  - reflexivity.
  - discriminate.
  - intros t Ht. cbn in Ht.
    repeat (destruct Ht as [<-|Ht]; [discriminate|]). destruct Ht.
Defined.

Lemma X23_witness :
  (exists s',
      scenarios.simulate_body no_models (request_by_events ["covid"] 4)
        (exogenous.__init__ [])
      = (scenarios.Throw (scenarios.HTTPException 400), s'))
  /\ fst (scenarios.simulate_scenario no_models
            (request_by_events ["covid"] 4) (exogenous.__init__ []))
     = scenarios.Throw (scenarios.HTTPException 500).
Proof.
  apply (@X23_invalid_event_is_answered_500 no_models
           (request_by_events ["covid"] 4) (exogenous.__init__ []) "covid").
  - cbn. lia.
  - reflexivity.
  - left. reflexivity.
  - intros e. destruct e; discriminate.
Defined.

Lemma X24_witness :
  let request := request_by_id "pessimistic" 8 in
  let fc := inference._simple_projection 8 in
  let total := fun i =>
    weather_impact
      [exogenous.ECONOMIC_RECESSION; exogenous.WILDFIRE;
       exogenous.EXTREME_WEATHER] (period_quarter i)
    + shock_sum [] in
  exists response s',
    scenarios.simulate_scenario no_models request (exogenous.__init__ [])
    = (scenarios.Return response, s')
    /\ scenarios.base_forecast response = inference.forecast fc
    /\ scenarios.total_impact_pct response
       = map (fun i => dec 100 1 * total i) (inference.range 1 (8 + 1))
    /\ scenarios.adjusted_forecast response
       = zip_with Qcmult (inference.forecast fc)
           (map (fun i => 1 + total i) (inference.range 1 (8 + 1)))
    /\ scenarios.periods response
       = map scenarios.quarter_label (inference.range 1 (8 + 1)).
Proof.
  intros request fc total.
  apply (@X24_simulate_through_the_handler no_models request [] fc
           (exogenous.template "pessimistic"
              "Pessimistic (Multiple Disruptions)"
              "Economic downturn + wildfires + extreme weather"
              [exogenous.ECONOMIC_RECESSION; exogenous.WILDFIRE;
               exogenous.EXTREME_WEATHER] [])).
  - cbn. lia.
  - reflexivity.
  - reflexivity.
  - reflexivity.
Defined.

(* ------------------------------------------------------------------ *)
(** * The handler of [POST /volume] *)

Lemma nth_error_map_middle A B (g : A -> B) (pre l : list A) (x : A) :
  nth_error (map g (pre ++ x :: l)) (List.length pre) = Some (g x).
Proof.
  rewrite map_app, nth_error_app2 by (rewrite length_map; lia).
  rewrite length_map, Nat.sub_diag. reflexivity.
Qed.

Lemma projected_points_run (include_confidence : bool)
    (fc : inference.Forecast) (pre l : list Z) :
  let g := fun i =>
    inference.current * inference.pow (1 + inference.growth_rate) i in
  inference.forecast fc = map g (pre ++ l) ->
  inference.ci_lower fc
  = Some (map (fun f => f * dec 95 100) (map g (pre ++ l))) ->
  inference.ci_upper fc
  = Some (map (fun f => f * dec 105 100) (map g (pre ++ l))) ->
  map_result (forecast.forecast_point fc include_confidence)
    (combine (seq (List.length pre) (List.length l))
             (map forecast.quarter_label l))
  = Ok (map (projected_point include_confidence) l).
Proof.
  intros g. revert pre. induction l as [|x l IH]; intros pre Hf Hlo Hhi;
    [reflexivity|].
  cbn [List.length seq map combine map_result].
  unfold forecast.forecast_point at 1.
  unfold forecast.bound, forecast.list_index. rewrite Hf, Hlo, Hhi.
  rewrite !map_map, !nth_error_map_middle. cbn [rbind].
  replace (S (List.length pre)) with (List.length (pre ++ [x]))
    by (rewrite length_app; cbn; lia).
  rewrite IH by (rewrite <- app_assoc; assumption).
  destruct include_confidence; reflexivity.
Qed.

(** The handler when the service falls back. *)
Lemma volume_fallback (forecast_service : inference.ForecastService)
    (request : forecast.VolumeForecastRequest) :
  inference.forecast_volume forecast_service (forecast.horizon request)
    (forecast.ModelType_value (forecast.model request))
    (forecast.include_confidence request)
  = Ok (inference._simple_projection (forecast.horizon request)) ->
  forecast.forecast_volume forecast_service request
  = scenarios.Return (projected_response request).
Proof.
  intros Hfc. unfold forecast.forecast_volume, forecast.forecast_volume_body.
  rewrite Hfc. cbn [rbind]. unfold forecast.enumerate.
  rewrite length_map.
  pose proof (@projected_points_run (forecast.include_confidence request)
                (inference._simple_projection (forecast.horizon request))
                [] (inference.range 1 (forecast.horizon request + 1))) as H.
  cbv zeta in H. cbn [app List.length] in H.
  rewrite H by reflexivity. reflexivity.
Qed.

Lemma unavailable_falls_back (self : inference.ForecastService)
    (horizon : Z) (model : string) (include_intervals : bool) :
  model_unavailable self horizon model include_intervals ->
  inference.forecast_volume self horizon model include_intervals
  = Ok (inference._simple_projection horizon).
Proof.
  intros [Hnone|(model_obj & e & Hsome & Hraise)];
    unfold inference.forecast_volume.
  - now rewrite Hnone.
  - now rewrite Hsome, Hraise.
Qed.

(** X25.  The handler of [POST /volume] does not tell a fallback from a
    forecast.  When the model asked for is not loaded, or its call raises,
    the handler answers normally: one point per quarter of the horizon,
    with the value [44594 * 1.03^i] of the growth projection, bounds at
    95 and 105 percent of it when confidence intervals are asked for and
    none otherwise, and [model_used] set to the name of the model that was
    asked for, which did not produce the numbers. *)
Theorem X25_volume_handler_hides_the_fallback
    (forecast_service : inference.ForecastService)
    (request : forecast.VolumeForecastRequest) :
  model_unavailable forecast_service (forecast.horizon request)
    (forecast.ModelType_value (forecast.model request))
    (forecast.include_confidence request) ->
  forecast.forecast_volume forecast_service request
  = scenarios.Return (projected_response request).
Proof.
  intros Hbroken. apply volume_fallback.
  now apply unavailable_falls_back.
Qed.

(** ** The models the service can hold *)

Lemma load_step_names (files : dict (result inference.Handle))
    (entries : dict string) (self : inference.ForecastService)
    (name : string) :
  dict_get name (inference.models self) = None ->
  ~ In name (dict_keys entries) ->
  dict_get name
    (inference.models
       (fold_left
          (fun self entry =>
             let '(name, filename) := entry in
             match dict_get filename files with
             | Some (Ok model) =>
                 {| inference.models :=
                      dict_set name model (inference.models self) |}
             | Some (Raise _) => self
             | None => self
             end) entries self))
  = None.
Proof.
  revert self. induction entries as [|[n f] entries IH];
    intros self Hnone Hnotin; [exact Hnone|].
  cbn [fold_left]. apply IH.
  - destruct (dict_get f files) as [[model|e]|]; try exact Hnone.
    cbn [inference.models]. rewrite dict_get_set_other; [exact Hnone|].
    intros ->. apply Hnotin. now left.
  - intros Hin. apply Hnotin. now right.
Qed.

(** X26.  The model [xgboost] can be asked for and is never served.  It is
    a member of [ModelType], so a request may name it, but
    [load_all_models] binds the names sarima, prophet, lstm,
    xgboost_price, xgboost_occupancy and ensemble only: whatever the
    models directory holds, the handler answers a request for [xgboost]
    with the growth projection, under the name xgboost. *)
Theorem X26_xgboost_is_never_served
    (files : dict (result inference.Handle))
    (request : forecast.VolumeForecastRequest) :
  forecast.model request = forecast.XGBOOST ->
  dict_get "xgboost" (inference.models (inference.__init__ files)) = None
  /\ forecast.forecast_volume (inference.__init__ files) request
     = scenarios.Return (projected_response request)
  /\ forecast.model_used (projected_response request) = "xgboost".
Proof.
  intros Hmodel.
  assert (Hnone : dict_get "xgboost"
                    (inference.models (inference.__init__ files)) = None).
  { unfold inference.__init__, inference.load_all_models.
    apply load_step_names; [reflexivity|].
    cbn. intuition discriminate. }
  split; [exact Hnone|]. split.
  - apply volume_fallback. rewrite Hmodel.
    cbn [forecast.ModelType_value].
    unfold inference.forecast_volume. now rewrite Hnone.
  - cbn [projected_response forecast.model_used]. now rewrite Hmodel.
Qed.

(* ------------------------------------------------------------------ *)
(** * The handler of [POST /compare] *)

Lemma simulate_scenario_throws
    (forecast_service : inference.ForecastService)
    (request : scenarios.ScenarioRequest) (s s' : exogenous.Store)
    (e : scenarios.raised) :
  scenarios.simulate_scenario forecast_service request s
  = (scenarios.Throw e, s') ->
  e = scenarios.HTTPException 500.
Proof.
  unfold scenarios.simulate_scenario.
  destruct (scenarios.simulate_body forecast_service request s)
    as [[response|x] s0]; intros [= <- _]; reflexivity.
Qed.

Lemma unknown_id_throws (forecast_service : inference.ForecastService)
    (request : scenarios.ScenarioRequest) (s : exogenous.Store)
    (id : string) :
  (scenarios.horizon request <= 8)%Z ->
  scenarios.scenario_id request = Some id ->
  id <> ""%string ->
  (forall t, In t exogenous.get_available_scenarios ->
             exogenous.sc_id t <> Some id) ->
  exists s',
    scenarios.simulate_scenario forecast_service request s
    = (scenarios.Throw (scenarios.HTTPException 500), s').
Proof.
  intros Hh Hid Hne Hunknown.
  unfold scenarios.simulate_scenario, scenarios.simulate_body,
    scenarios.run_bind, scenarios.of_outcome, scenarios.of_M.
  destruct (forecast_volume_total forecast_service
              (scenarios.horizon request) (scenarios.base_model request)
              false) as [fc ->].
  cbn [scenarios.of_result exogenous.np_new].
  rewrite (dates_up_to_eight Hh). cbn [scenarios.of_result].
  unfold scenarios.build_scenario. rewrite Hid.
  destruct id as [|c id]; [congruence|].
  cbn [scenarios.truthy scenarios.or_default].
  rewrite (next_with_id_unknown Hunknown).
  eexists. reflexivity.
Qed.

(** X27.  A comparison is all or nothing.  For a horizon of one to eight
    quarters, if one of the identifiers names no predefined scenario, the
    handler of [POST /compare] answers with the status 500 and returns no
    result at all, whatever the other identifiers are and wherever the
    unknown one stands in the list. *)
Theorem X27_compare_is_all_or_nothing
    (forecast_service : inference.ForecastService)
    (scenario_ids : list string) (horizon : Z) (s : exogenous.Store)
    (id : string) :
  (1 <= horizon <= 8)%Z ->
  In id scenario_ids ->
  id <> ""%string ->
  (forall t, In t exogenous.get_available_scenarios ->
             exogenous.sc_id t <> Some id) ->
  fst (scenarios.compare_scenarios forecast_service scenario_ids horizon s)
  = scenarios.Throw (scenarios.HTTPException 500).
Proof.
  intros Hh Hin Hne Hunknown. unfold scenarios.compare_scenarios.
  generalize (@nil scenarios.ScenarioResponse) as results. revert s.
  induction scenario_ids as [|scenario_id scenario_ids IH];
    intros s results; [destruct Hin|].
  cbn [scenarios.compare_loop]. unfold scenarios.run_bind at 1.
  unfold scenarios.of_outcome, scenarios.ScenarioRequest_of,
    scenarios.validated.
  cbn [scenarios.horizon scenarios.custom_shocks forallb].
  replace ((1 <=? horizon)%Z && (horizon <=? 12)%Z && true) with true
    by (symmetry; rewrite andb_true_r; apply andb_true_intro; split;
        [apply Z.leb_le | apply Z.leb_le]; lia).
  cbn [scenarios.of_result]. unfold scenarios.run_bind at 1.
  destruct (string_dec scenario_id id) as [->|Hother].
  - destruct (@unknown_id_throws forecast_service
                {| scenarios.scenario_id := Some id;
                   scenarios.scenario_name := None;
                   scenarios.events := [];
                   scenarios.custom_shocks := [];
                   scenarios.horizon := horizon;
                   scenarios.base_model := "ensemble" |} s id)
      as [s' ->]; try reflexivity; try assumption.
    cbn [scenarios.horizon]. lia.
  - destruct (scenarios.simulate_scenario _ _ s)
      as [[response|e] s'] eqn:Hrun.
    + apply IH. destruct Hin as [Heq|Hin]; [congruence | exact Hin].
    + now rewrite (simulate_scenario_throws _ _ _ Hrun).
Qed.

(* ------------------------------------------------------------------ *)
(** * The two other handlers at concrete requests *)

Lemma X25_witness :
  forecast.forecast_volume broken_service
    {| forecast.horizon := 4; forecast.model := forecast.SARIMA;
       forecast.include_confidence := true |}
  = scenarios.Return
      (projected_response
         {| forecast.horizon := 4; forecast.model := forecast.SARIMA;
            forecast.include_confidence := true |}).
Proof.
  apply (@X25_volume_handler_hides_the_fallback broken_service
           {| forecast.horizon := 4; forecast.model := forecast.SARIMA;
              forecast.include_confidence := true |}).
  right. eexists. eexists. split; reflexivity.
Defined.

Lemma X26_witness :
  let request :=
    {| forecast.horizon := 4; forecast.model := forecast.XGBOOST;
       forecast.include_confidence := false |} in
  let files :=
    [("xgboost_price.pkl"%string, Ok failing_model);
     ("sarima_volume.pkl"%string, Ok failing_model)] in
  dict_get "xgboost" (inference.models (inference.__init__ files)) = None
  /\ forecast.forecast_volume (inference.__init__ files) request
     = scenarios.Return (projected_response request)
  /\ forecast.model_used (projected_response request) = "xgboost"%string.
Proof.
  intros request files.
  apply (@X26_xgboost_is_never_served files request).
  reflexivity.
Defined.

Lemma X27_witness :
  fst (scenarios.compare_scenarios no_models ["baseline"; "boom"]%string 4
         (exogenous.__init__ []))
  = scenarios.Throw (scenarios.HTTPException 500).
Proof.
  apply (@X27_compare_is_all_or_nothing no_models
           ["baseline"; "boom"]%string 4 (exogenous.__init__ []) "boom").
  - lia.
  - right. left. reflexivity.
  - discriminate.
  - intros t Ht. cbn in Ht.
    repeat (destruct Ht as [<-|Ht]; [discriminate|]). destruct Ht.
Defined.
